(** * woti_attendance_v2: attendance integrity and reconciliation engine

    A shallow embedding of the geofence validator, the spoofing detector,
    the clock-in / clock-out service, the offline sync resolver, the
    login-session manager and the request rate limiter, followed by the
    properties stated about them.

    Conventions.
    - A JavaScript number that is a finite double is a rational [Q]; a
      value that may be [undefined] or [null] is an [option], and an
      attendance object lists the keys it lacks ([absent]) for the strict
      comparisons that tell [undefined] from [null].
    - An integer that the code computes with (a version number) is a [Z],
      and an addition on it rounds as a double does ([JS.plus]).
    - Timestamps ([Date], ISO strings, [TIMESTAMPTZ]) are milliseconds since
      the epoch, in [Z]; a value outside the range of [Date] stands for one
      that is no timestamp ([JS.validDate]).
    - [Math.sin] and friends are implementation-approximated in ECMAScript;
      they are an interface ([JsMath]) and every statement holds for any
      implementation of it.
    - PostgreSQL is an explicit store [db] threaded through a state and
      exception monad. A [throw] keeps the writes made before it: the
      services run outside any transaction, except for bulkSync, whose
      BEGIN ... COMMIT is modelled with it.
    - A request is served to its end before the next one: the functions
      are not interleaved at their [await]s. Where two requests that
      overlap matter, the interleaving is written out with the repository
      calls.
    - Calls to the logger are left out. *)

From Stdlib Require Import ZArith QArith Qround Qabs Lqa Lia String List Bool.
From stdpp Require Import gmap strings list fin_maps pretty.

Open Scope string_scope.

(** ** JavaScript primitives *)

Module JS.

(** [!!x] for a number: [0] is falsy. *)
Definition truthy_num (q : Q) : bool := negb (Qeq_bool q 0).

(** [!!x] for a possibly missing number. *)
Definition truthy_onum (o : option Q) : bool :=
  match o with Some q => truthy_num q | None => false end.

(** [!!x] for a possibly missing string: the empty string is falsy. *)
Definition truthy_ostr (o : option string) : bool :=
  match o with Some s => negb (String.eqb s EmptyString) | None => false end.

(** [!!x] for a possibly missing integer. *)
Definition truthy_oint (o : option Z) : bool :=
  match o with Some z => negb (Z.eqb z 0) | None => false end.

(** [a || b] on possibly missing strings. *)
Definition or_str (a b : option string) : option string :=
  if truthy_ostr a then a else b.

(** [a || b] on possibly missing numbers. *)
Definition or_num (a b : option Q) : option Q :=
  if truthy_onum a then a else b.

(** [a || n] where [n] is an integer literal or expression. *)
Definition or_int (a : option Z) (n : Z) : Z :=
  match a with
  | Some z => if Z.eqb z 0 then n else z
  | None => n
  end.

(** [Math.round]: nearest integer, halves towards plus infinity. *)
Definition Math_round (q : Q) : Z := Qfloor (q + (1 # 2)).

(** [s.includes(sub)]. *)
Definition includes (sub s : string) : bool :=
  match String.index 0 sub s with Some _ => true | None => false end.

(** [s.startsWith(p)]. *)
Definition startsWith (p s : string) : bool := String.prefix p s.

(** [s.substring(n)]. *)
Definition substring_from (n : nat) (s : string) : string :=
  String.substring n (String.length s - n) s.

Definition Qleb (a b : Q) : bool := Qle_bool a b.
Definition Qltb (a b : Q) : bool := negb (Qle_bool b a).

(** An integer held in a number is held in a double: up to [2 ^ 53] in
    magnitude every integer is exact, beyond that only the multiples of a
    power of two are. [toDouble] is the integer a double holds for the exact
    result [z] of an operation: the nearest one, the even significand on a
    tie. (The operands are doubles themselves, so a sum or a difference of
    two of them stays in the range of doubles.) *)
Definition toDouble (z : Z) : Z :=
  let a := Z.abs z in
  if (a <=? 2 ^ 53)%Z then z
  else
    let ulp := (2 ^ (Z.log2 a - 52))%Z in
    let q := (a / ulp)%Z in
    let r := (a mod ulp)%Z in
    let up := if (2 * r <? ulp)%Z then false
              else if (ulp <? 2 * r)%Z then true
              else Z.odd q in
    (Z.sgn z * ((if up then q + 1 else q) * ulp))%Z.

(** [a + b] on integers. *)
Definition plus (a b : Z) : Z := toDouble (a + b).

(** [Number.isSafeInteger]. *)
Definition isSafeInteger (z : Z) : bool := (Z.abs z <=? 2 ^ 53 - 1)%Z.

(** Whether [new Date(v)] is a date: a time value lies within 8.64e15 ms
    of the epoch. A value that denotes no instant at all (a string that is
    no date) is written as an instant outside that range: its [getTime()]
    is [NaN] as well, and every comparison with it is false. *)
Definition validDate (t : Z) : bool := (Z.abs t <=? 8640000000000000)%Z.

End JS.

(** The [Math] object, as far as the great-circle computation uses it. *)
Class JsMath := {
  Math_sin : Q -> Q;
  Math_cos : Q -> Q;
  Math_sqrt : Q -> Q;
  Math_atan2 : Q -> Q -> Q;
  Math_PI : Q
}.

(** Non-blocking findings of the spoofing detector. *)
Inductive warning :=
| UnusuallyPrecise (accuracy : Q).
  (* 'Unusually precise GPS reading (${accuracy}m). This may indicate a simulated location.' *)

(** Values stored in the free-form [metadata] object. *)
Inductive jsval :=
| JNull
| JBool (b : bool)
| JNum (q : Q)
| JInt (z : Z)
| JStr (s : string)
| JTime (t : Z)
| JStrs (l : list string)
| JWarnings (l : list warning).

(** ** The store *)

(** Every [throw new Error(...)] of the modelled code, one constructor per
    message; numbers interpolated into a message are its arguments. *)
Inductive error :=
| AlreadyClockedIn            (* 'You already have an active clock-in. Please clock out first.' *)
| FacilityRequired            (* 'Facility ID is required. Please ensure you are assigned to a facility.' *)
| CoordinatesRequired         (* 'GPS coordinates are required for clock-in' *)
| LatitudeOutOfRange          (* 'Latitude must be between -90 and 90 degrees' *)
| LongitudeOutOfRange         (* 'Longitude must be between -180 and 180 degrees' *)
| NullIsland                  (* 'Invalid GPS coordinates detected (Null Island). ...' *)
| AccuracyRequired            (* 'GPS accuracy is required for clock-in' / '... for clock-out' *)
| AccuracyTooLow (rounded : Z)(* 'GPS accuracy too low (${Math.round(accuracy)}m). ...' *)
| MockLocation                (* 'Mock location detected. Please disable fake GPS apps.' *)
| InvalidTimeSequence         (* 'Invalid time sequence detected' *)
| SpeedExceeded (kmh : Z)     (* 'Travel speed of ${Math.round(speedKmh)} km/h exceeds maximum allowed (150 km/h)' *)
| LocationVerificationFailed  (* 'Location verification failed' *)
| FacilityNotFound            (* 'Facility not found or inactive' *)
| FacilityNotConfigured       (* 'Facility location not configured. Please contact your administrator.' *)
| OutsideGeofence (distance : option Z) (facilityName : option string) (maxRadius : option Z)
                              (* 'You are ${distance}m away from ${facilityName || 'facility'}. Maximum allowed: ${maxRadius}m' *)
| NotClockedIn                (* 'No active clock-in found. Please clock in first.' *)
| InvalidCredentials          (* 'Invalid credentials' *)
| AccountPendingApproval      (* 'Account pending approval. Please contact administrator.' *)
| TypeError                   (* a property read on [undefined] *)
| DbError (code message : string). (* an error raised by the database driver *)

Inductive outcome (A : Type) :=
| Return (a : A)
| Throw (e : error).
Arguments Return {A} a.
Arguments Throw {A} e.

(** [facilities] columns read by the engine. [latitude] and [longitude] are
    DECIMAL columns: the driver hands them over as strings, so [!x] on them
    is true exactly for NULL, and [parseFloat] gives the number. *)
Record facility_row := {
  f_id : string;
  f_name : string;
  f_latitude : option Q;
  f_longitude : option Q;
  f_geofence_radius : option Z;
  f_is_active : bool
}.

Record user_row := {
  u_id : string;
  u_email : string;
  u_password_hash : string;
  u_role : string;
  u_facility_id : option string;
  u_is_active : bool;
  u_last_login_at : option Z
}.

(** An attendance object: a row of [attendance], or a record sent by a
    device. A field that is [None] is [null], or [undefined] when [absent]
    lists its key: an object parsed from JSON lacks that key. Only a strict
    comparison ([!==]) tells the two apart; [||], [!] and a query parameter
    treat them alike. A row returned by the database has every column, so
    nothing is absent from it. In a record sent by a device the times are
    ISO 8601 strings, written as the instant they denote, and sync_version
    is an integer number. *)
Record attendance := {
  id : option N;
  user_id : option string;
  facility_id : option string;
  clock_in_time : option Z;
  clock_out_time : option Z;
  clock_in_latitude : option Q;
  clock_in_longitude : option Q;
  clock_out_latitude : option Q;
  clock_out_longitude : option Q;
  clock_in_accuracy_meters : option Q;
  clock_out_accuracy_meters : option Q;
  clock_in_distance_meters : option Q;
  clock_out_distance_meters : option Q;
  device_fingerprint : option string;
  validation_status : option string;
  status : option string;
  notes : option string;
  synced : option bool;
  client_timestamp : option Z;
  server_timestamp : option Z;
  device_id : option string;
  sync_version : option Z;
  conflict_resolution_strategy : option string;
  metadata : option (gmap string jsval);
  created_at : option Z;
  absent : list string
}.

(** The [entity_id] of an audit entry: a user or an attendance row. *)
Inductive entity :=
| UserEntity (id : string)
| AttendanceEntity (id : option N).

Record activity_row := {
  act_user_id : string;
  act_action : string;
  act_entity_type : string;
  act_entity_id : option entity;
  act_description : string
}.

Record session_row := {
  s_id : N;
  s_user_id : string;
  s_device_fingerprint : option string;
  s_token_hash : string;
  s_ip_address : option string;
  s_user_agent : option string;
  s_is_active : bool;
  s_expires_at : Z;
  s_invalidated_at : option Z;
  s_invalidation_reason : option string;
  s_created_at : Z
}.

Record device_row := {
  d_user_id : string;
  d_device_fingerprint : string;
  d_last_used_at : Z
}.

(** The spatial extension as the first geofence query meets it: installed,
    with its sphere distance (lon1, lat1, lon2, lat2), or a query that fails
    with a driver error. *)
Inductive pg_spatial :=
| PostgisInstalled (ST_DistanceSphere : Q -> Q -> Q -> Q -> Q)
| SpatialQueryFails (code message : string).

(** [user_sessions] was added by a later migration: a query on it either
    sees the rows or fails with a driver error ('42P01' when the table is
    missing). *)
Inductive sessions_store :=
| SessionsTable (rows : list session_row)
| SessionsUnavailable (code message : string).

Record db := {
  users : list user_row;
  facilities : list facility_row;
  attendances : list attendance;
  activities : list activity_row;
  user_sessions : sessions_store;
  user_devices : list device_row;
  spatial : pg_spatial;
  next_id : N
}.

Definition with_attendances (d : db) (l : list attendance) : db :=
  {| users := users d; facilities := facilities d; attendances := l;
     activities := activities d; user_sessions := user_sessions d;
     user_devices := user_devices d; spatial := spatial d; next_id := next_id d |}.

Definition with_activities (d : db) (l : list activity_row) : db :=
  {| users := users d; facilities := facilities d; attendances := attendances d;
     activities := l; user_sessions := user_sessions d;
     user_devices := user_devices d; spatial := spatial d; next_id := next_id d |}.

Definition with_sessions (d : db) (s : sessions_store) : db :=
  {| users := users d; facilities := facilities d; attendances := attendances d;
     activities := activities d; user_sessions := s;
     user_devices := user_devices d; spatial := spatial d; next_id := next_id d |}.

Definition with_devices (d : db) (l : list device_row) : db :=
  {| users := users d; facilities := facilities d; attendances := attendances d;
     activities := activities d; user_sessions := user_sessions d;
     user_devices := l; spatial := spatial d; next_id := next_id d |}.

Definition with_users (d : db) (l : list user_row) : db :=
  {| users := l; facilities := facilities d; attendances := attendances d;
     activities := activities d; user_sessions := user_sessions d;
     user_devices := user_devices d; spatial := spatial d; next_id := next_id d |}.

(** uuid_generate_v4(): a fresh identifier. *)
Definition with_next_id (d : db) (n : N) : db :=
  {| users := users d; facilities := facilities d; attendances := attendances d;
     activities := activities d; user_sessions := user_sessions d;
     user_devices := user_devices d; spatial := spatial d; next_id := n |}.

(** INSERT INTO activities (...) *)
Definition insertActivity (a : activity_row) (d : db) : db :=
  with_activities d (activities d ++ [a]).

(** The value of a computation that returned. *)
Definition returned {A} (o : outcome A) : option A :=
  match o with Return a => Some a | Throw _ => None end.

(** State and exception monad over the store. *)
Definition M (A : Type) : Type := db -> outcome A * db.

Definition ret {A} (a : A) : M A := fun d => (Return a, d).

Definition bind {A B} (m : M A) (k : A -> M B) : M B :=
  fun d =>
    match m d with
    | (Return a, d') => k a d'
    | (Throw e, d') => (Throw e, d')
    end.

Definition throw {A} (e : error) : M A := fun d => (Throw e, d).

Definition gets {A} (f : db -> A) : M A := fun d => (Return (f d), d).

Definition modify (f : db -> db) : M unit := fun d => (Return tt, f d).

(** Lift a read-only computation that may throw. *)
Definition lift {A} (f : db -> outcome A) : M A := fun d => (f d, d).

#[global] Instance M_ret : MRet M := @ret.
#[global] Instance M_bind : MBind M := fun A B k m => bind m k.

(** ** src/utils/geofencing.js *)

Module Geofencing.

Record result := {
  isWithinGeofence : bool;
  distance : option Z;
  maxRadius : option Z;
  error : option error;
  warning : option string;
  facilityName : option string;
  method : option string
}.

Section WithMath.
Context `{JsMath}.
Local Open Scope Q_scope.

Definition haversineDistance (lat1 lon1 lat2 lon2 : Q) : Q :=
  let R := 6371000 in
  let phi1 := lat1 * Math_PI / 180 in
  let phi2 := lat2 * Math_PI / 180 in
  let dphi := (lat2 - lat1) * Math_PI / 180 in
  let dlambda := (lon2 - lon1) * Math_PI / 180 in
  let a := Math_sin (dphi / 2) * Math_sin (dphi / 2) +
           Math_cos phi1 * Math_cos phi2 *
           Math_sin (dlambda / 2) * Math_sin (dlambda / 2) in
  let c := 2 * Math_atan2 (Math_sqrt a) (Math_sqrt (1 - a)) in
  R * c.

(** COALESCE(geofence_radius, 100) *)
Definition radius_of (f : facility_row) : Z :=
  match f_geofence_radius f with Some r => r | None => 100%Z end.

(** SELECT ... FROM facilities WHERE id = $1 AND is_active = TRUE *)
Definition selectActiveFacility (d : db) (facilityId : string) : option facility_row :=
  List.find (fun f => String.eqb (f_id f) facilityId && f_is_active f) (facilities d).

(** The first query: the row, with ST_DistanceSphere evaluated by the
    database, of the active facility that has both coordinates. *)
Definition selectWithDistance (d : db) (facilityId : string)
           (userLongitude userLatitude : Q) : outcome (option (facility_row * Q)) :=
  match spatial d with
  | SpatialQueryFails code message => Throw (DbError code message)
  | PostgisInstalled ST_DistanceSphere =>
      Return
        (match selectActiveFacility d facilityId with
         | Some f =>
             match f_longitude f, f_latitude f with
             | Some flon, Some flat =>
                 Some (f, ST_DistanceSphere flon flat userLongitude userLatitude)
             | _, _ => None
             end
         | None => None
         end)
  end.

Definition notFound : result :=
  {| isWithinGeofence := false; distance := None; maxRadius := None;
     error := Some FacilityNotFound; warning := None;
     facilityName := None; method := None |}.

(** The Haversine branch, written twice in the source (after an empty
    first result and in the [catch] block) with the same text. *)
Definition haversineResult (f : facility_row) (flat flon : Q)
           (userLatitude userLongitude : Q) : result :=
  let distance := haversineDistance flat flon userLatitude userLongitude in
  {| isWithinGeofence := JS.Qleb distance (inject_Z (radius_of f));
     distance := Some (JS.Math_round distance);
     maxRadius := Some (radius_of f);
     error := None; warning := None;
     facilityName := None; method := Some "haversine" |}.

Definition fallback (d : db) (facilityId : string)
           (userLatitude userLongitude : Q) : result :=
  match selectActiveFacility d facilityId with
  | None => notFound
  | Some facility =>
      match f_latitude facility, f_longitude facility with
      | Some flat, Some flon =>
          haversineResult facility flat flon userLatitude userLongitude
      | _, _ =>
          (* No facility coordinates - BLOCK clock-in for security *)
          {| isWithinGeofence := false; distance := None;
             maxRadius := Some (radius_of facility);
             error := Some FacilityNotConfigured; warning := None;
             facilityName := None; method := None |}
      end
  end.

Definition isPostgisError (code message : string) : bool :=
  String.eqb code "42883" || String.eqb code "42846" ||
  (negb (String.eqb message EmptyString) &&
   (JS.includes "ST_DistanceSphere" message ||
    JS.includes "ST_MakePoint" message ||
    JS.includes "postgis" message)).

Definition validateGeofence (d : db) (facilityId : string)
           (userLatitude userLongitude : Q) : outcome result :=
  match selectWithDistance d facilityId userLongitude userLatitude with
  | Return None => Return (fallback d facilityId userLatitude userLongitude)
  | Return (Some (facility, distance_meters)) =>
      let distance := JS.Math_round distance_meters in
      Return {| isWithinGeofence := Z.leb distance (radius_of facility);
                distance := Some distance;
                maxRadius := Some (radius_of facility);
                error := None; warning := None;
                facilityName := Some (f_name facility);
                method := Some "postgis" |}
  | Throw (DbError code message) =>
      if isPostgisError code message
      then Return (fallback d facilityId userLatitude userLongitude)
      else Throw (DbError code message)
  | Throw e => Throw e
  end.

End WithMath.

End Geofencing.

(** ** src/utils/geofencing.js, the second copy kept in the repository

    The text differs from the first copy in two places only: what is
    returned for a facility without coordinates, and which driver errors
    lead to the Haversine branch. *)

Module GeofencingSkipping.

Import Geofencing.

Section WithMath.
Context `{JsMath}.

Definition fallback (d : db) (facilityId : string)
           (userLatitude userLongitude : Q) : result :=
  match selectActiveFacility d facilityId with
  | None => notFound
  | Some facility =>
      match f_latitude facility, f_longitude facility with
      | Some flat, Some flon =>
          haversineResult facility flat flon userLatitude userLongitude
      | _, _ =>
          (* No facility coordinates, allow clock-in (geofencing disabled) *)
          {| isWithinGeofence := true; distance := None;
             maxRadius := Some (radius_of facility);
             error := None;
             warning := Some "Facility coordinates not configured, geofencing skipped";
             facilityName := None; method := None |}
      end
  end.

Definition validateGeofence (d : db) (facilityId : string)
           (userLatitude userLongitude : Q) : outcome result :=
  match selectWithDistance d facilityId userLongitude userLatitude with
  | Return None => Return (fallback d facilityId userLatitude userLongitude)
  | Return (Some (facility, distance_meters)) =>
      let distance := JS.Math_round distance_meters in
      Return {| isWithinGeofence := Z.leb distance (radius_of facility);
                distance := Some distance;
                maxRadius := Some (radius_of facility);
                error := None; warning := None;
                facilityName := Some (f_name facility);
                method := Some "postgis" |}
  | Throw (DbError code message) =>
      if negb (String.eqb message EmptyString) && JS.includes "ST_DistanceSphere" message
      then Return (fallback d facilityId userLatitude userLongitude)
      else Throw (DbError code message)
  | Throw e => Throw e
  end.

End WithMath.

End GeofencingSkipping.

(** ** src/utils/validators.js *)

Module Validators.

Local Open Scope Q_scope.

Record coord_validation := {
  isValid : bool;
  error : option error;
  warning : option string
}.

(** Drop the trailing zeros of the [len] digits of [frac]. *)
Fixpoint significant (fuel : nat) (frac : Z) (len : nat) : nat :=
  match fuel with
  | O => len
  | S k =>
      if (frac mod 10 =? 0)%Z
      then significant k (frac / 10)%Z (pred len)
      else len
  end.

(** [num.toFixed(10)], fraction part without trailing zeros, its length. *)
Definition getDecimalPlaces (num : Q) : nat :=
  let n := Qfloor (Qabs num * inject_Z (10 ^ 10) + (1 # 2)) in
  significant 10 (n mod 10 ^ 10)%Z 10.

(** The payload type gives finite numbers, so the [typeof] and [isFinite]
    tests of the source cannot fire and are left out. *)
Definition validateGpsCoordinates (lat lon : option Q) : coord_validation :=
  match lat, lon with
  | Some lat, Some lon =>
      if JS.Qltb lat (-90) || JS.Qltb 90 lat then
        {| isValid := false; error := Some LatitudeOutOfRange; warning := None |}
      else if JS.Qltb lon (-180) || JS.Qltb 180 lon then
        {| isValid := false; error := Some LongitudeOutOfRange; warning := None |}
      else if JS.Qltb (Qabs lat) (1 # 100) && JS.Qltb (Qabs lon) (1 # 100) then
        {| isValid := false; error := Some NullIsland; warning := None |}
      else if (getDecimalPlaces lat <? 3)%nat && (getDecimalPlaces lon <? 3)%nat &&
              JS.truthy_num lat && JS.truthy_num lon then
        {| isValid := true; error := None;
           warning := Some "GPS coordinates have low precision. Please ensure GPS is enabled." |}
      else
        {| isValid := true; error := None; warning := None |}
  | _, _ =>
      {| isValid := false; error := Some CoordinatesRequired; warning := None |}
  end.

(** The arguments are numbers, so the two [typeof] tests are left out. *)
Definition isValidCoordinates (lat lon : Q) : bool :=
  JS.Qleb (-90) lat && JS.Qleb lat 90 && JS.Qleb (-180) lon && JS.Qleb lon 180.

End Validators.

(** ** src/utils/spoofingDetection.js *)

Module SpoofingDetection.

Local Open Scope Q_scope.

Definition MAX_SPEED_KMH : Q := 150.
Definition MIN_SUSPICIOUS_ACCURACY : Q := 1.
Definition MAX_ACCEPTABLE_ACCURACY : Q := 500.

Record location := {
  latitude : option Q;
  longitude : option Q;
  timestamp : Z
}.

Record speed_check := {
  suspicious : bool;
  speed : option Z;
  distanceKm : option Q;
  timeDiffHours : option Q;
  reason : option error
}.

(** [parseFloat(x.toFixed(2))] *)
Definition toFixed2 (x : Q) : Q :=
  let n := Qfloor (Qabs x * 100 + (1 # 2)) in
  if JS.Qltb x 0 then - (inject_Z n / 100) else inject_Z n / 100.

Record accuracy_check := {
  valid : bool;
  acc_warning : option warning;
  acc_error : option error
}.

Record checks := {
  passed : bool;
  errors : list error;
  warnings : list warning;
  flags : list string
}.

Definition notSuspicious : speed_check :=
  {| suspicious := false; speed := None; distanceKm := None;
     timeDiffHours := None; reason := None |}.

Section WithMath.
Context `{JsMath}.

Definition detectImpossibleSpeed (lastLocation currentLocation : option location)
  : speed_check :=
  match lastLocation, currentLocation with
  | Some lastLocation, Some currentLocation =>
      match latitude lastLocation, longitude lastLocation,
            latitude currentLocation, longitude currentLocation with
      | Some lat1, Some lon1, Some lat2, Some lon2 =>
          if negb (JS.truthy_num lat1) || negb (JS.truthy_num lon1) ||
             negb (JS.truthy_num lat2) || negb (JS.truthy_num lon2)
          then notSuspicious
          else
            let timeDiffHours :=
              inject_Z (timestamp currentLocation - timestamp lastLocation)
              / inject_Z (1000 * 60 * 60) in
            if JS.Qleb timeDiffHours 0 then
              {| suspicious := true; speed := None; distanceKm := None;
                 timeDiffHours := None; reason := Some InvalidTimeSequence |}
            else
              let distanceMeters :=
                Geofencing.haversineDistance lat1 lon1 lat2 lon2 in
              let distanceKm := distanceMeters / 1000 in
              let speedKmh := distanceKm / timeDiffHours in
              if JS.Qltb MAX_SPEED_KMH speedKmh then
                {| suspicious := true;
                   speed := Some (JS.Math_round speedKmh);
                   distanceKm := Some (toFixed2 distanceKm);
                   timeDiffHours := Some (toFixed2 timeDiffHours);
                   reason := Some (SpeedExceeded (JS.Math_round speedKmh)) |}
              else
                {| suspicious := false;
                   speed := Some (JS.Math_round speedKmh);
                   distanceKm := Some (toFixed2 distanceKm);
                   timeDiffHours := Some (toFixed2 timeDiffHours);
                   reason := None |}
      | _, _, _, _ => notSuspicious
      end
  | _, _ => notSuspicious
  end.

Definition detectMockLocation (isMocked : option bool) : bool * option error :=
  match isMocked with
  | Some true => (true, Some MockLocation)
  | _ => (false, None)
  end.

Definition validateGpsAccuracy (accuracy : option Q) : accuracy_check :=
  match accuracy with
  | None => {| valid := true; acc_warning := None; acc_error := None |}
  | Some accuracy =>
      if JS.Qltb MAX_ACCEPTABLE_ACCURACY accuracy then
        {| valid := false; acc_warning := None;
           acc_error := Some (AccuracyTooLow (JS.Math_round accuracy)) |}
      else if JS.Qltb accuracy MIN_SUSPICIOUS_ACCURACY then
        {| valid := true; acc_warning := Some (UnusuallyPrecise accuracy);
           acc_error := None |}
      else {| valid := true; acc_warning := None; acc_error := None |}
  end.

(** Keep the row with the greatest [clock_in_time]; on a tie, the
    earlier one in the table. *)
Definition later (best : option attendance) (r : attendance) : option attendance :=
  match best with
  | None => Some r
  | Some b =>
      match clock_in_time b, clock_in_time r with
      | Some tb, Some tr => if (tb <? tr)%Z then Some r else Some b
      | None, Some _ => Some r
      | _, _ => Some b
      end
  end.

(** SELECT ... FROM attendance WHERE user_id = $1
    AND clock_in_latitude IS NOT NULL AND clock_in_longitude IS NOT NULL
    ORDER BY clock_in_time DESC LIMIT 1 *)
Definition getLastAttendanceWithLocation (d : db) (userId : string)
  : option attendance :=
  fold_left later
    (List.filter
       (fun r =>
          match user_id r, clock_in_latitude r, clock_in_longitude r with
          | Some u, Some _, Some _ => String.eqb u userId
          | _, _, _ => false
          end)
       (attendances d))
    None.

(** The insert is wrapped in a [try] whose [catch] only logs. *)
Definition logSuspiciousActivity (userId : string) (r : option error) : M unit :=
  modify (insertActivity
    {| act_user_id := userId; act_action := "suspicious_location";
       act_entity_type := "attendance"; act_entity_id := None;
       act_description :=
         match r with
         | Some InvalidTimeSequence => "Invalid time sequence detected"
         | Some (SpeedExceeded _) => "Travel speed exceeds maximum allowed"
         | _ => "Suspicious GPS activity detected"
         end |}).

Record locationData := {
  ld_latitude : option Q;
  ld_longitude : option Q;
  ld_accuracy : option Q;
  ld_is_mocked : option bool
}.

Definition push_error (c : checks) (e : option error) (flag : string) : checks :=
  {| passed := false;
     errors := errors c ++ match e with Some e => [e] | None => [] end;
     warnings := warnings c;
     flags := flags c ++ [flag] |}.

Definition push_warning (c : checks) (w : warning) (flag : string) : checks :=
  {| passed := passed c; errors := errors c;
     warnings := warnings c ++ [w];
     flags := flags c ++ [flag] |}.

Definition runSpoofingChecks (now : Z) (ld : locationData) (userId : string)
  : M checks :=
  let results := {| passed := true; errors := []; warnings := []; flags := [] |} in
  (* Check mock location flag *)
  let mockCheck := detectMockLocation (ld_is_mocked ld) in
  let results :=
    if fst mockCheck then push_error results (snd mockCheck) "mock_location"
    else results in
  (* Check GPS accuracy *)
  let accuracyCheck := validateGpsAccuracy (ld_accuracy ld) in
  let results :=
    if negb (valid accuracyCheck)
    then push_error results (acc_error accuracyCheck) "low_accuracy"
    else results in
  let results :=
    match acc_warning accuracyCheck with
    | Some w => push_warning results w "suspicious_accuracy"
    | None => results
    end in
  (* Check impossible speed *)
  if negb (String.eqb userId EmptyString) &&
     JS.truthy_onum (ld_latitude ld) && JS.truthy_onum (ld_longitude ld)
  then
    lastAttendance ← gets (fun d => getLastAttendanceWithLocation d userId);
    match lastAttendance with
    | Some lastAttendance =>
        let speedCheck :=
          detectImpossibleSpeed
            (Some {| latitude := clock_in_latitude lastAttendance;
                     longitude := clock_in_longitude lastAttendance;
                     timestamp :=
                       match clock_in_time lastAttendance with
                       | Some t => t | None => 0%Z end |})
            (Some {| latitude := ld_latitude ld;
                     longitude := ld_longitude ld;
                     timestamp := now |}) in
        if suspicious speedCheck then
          logSuspiciousActivity userId (reason speedCheck);;
          mret (push_error results (reason speedCheck) "impossible_speed")
        else mret results
    | None => mret results
    end
  else mret results.

End WithMath.

End SpoofingDetection.

(** ** src/modules/attendance/attendance.repository.js *)

Module AttendanceRepository.

Local Open Scope Z_scope.

Definition in_range (lo hi : Q) (x : option Q) : bool :=
  match x with
  | Some q => JS.Qleb lo q && JS.Qleb q hi
  | None => true
  end.

Definition one_of (allowed : list string) (x : option string) : bool :=
  match x with
  | Some s => existsb (String.eqb s) allowed
  | None => true
  end.

Definition references {A} (key : A -> string) (table : list A) (x : option string) : bool :=
  match x with
  | Some s => existsb (fun r => String.eqb (key r) s) table
  | None => false
  end.

(** [TIMESTAMPTZ]: the text must be a timestamp (22007) that the type can
    hold, from 4713 BC on (22008). *)
Definition timestampError (x : option Z) : option string :=
  match x with
  | Some t =>
      if negb (JS.validDate t) then Some "22007"
      else if t <? -210866803200000 then Some "22008"
      else None
  | None => None
  end.

Definition first_error (a b : option string) : option string :=
  match a with Some _ => a | None => b end.

(** [INTEGER] *)
Definition int4 (x : option Z) : bool :=
  match x with
  | Some v => (- 2 ^ 31 <=? v) && (v <? 2 ^ 31)
  | None => true
  end.

(** [DECIMAL(p, 8)]: the value, rounded to 8 places, has at most [p]
    digits. *)
Definition decimal8 (p : Z) (x : option Q) : bool :=
  match x with
  | Some q => Qfloor (Qabs q * inject_Z (10 ^ 8) + (1 # 2)) <? 10 ^ p
  | None => true
  end.

(** [VARCHAR(n)] *)
Definition varchar (n : nat) (x : option string) : bool :=
  match x with
  | Some s => (String.length s <=? n)%nat
  | None => true
  end.

(** What the server refuses in a row of [attendance], as the SQLSTATE of
    the error: a value that its column type cannot hold (class 22), then
    NOT NULL (23502), then CHECK (23514; a CHECK is violated only when it
    evaluates to FALSE, so a NULL operand lets it pass), then FOREIGN KEY
    (23503). Ids are plain strings here: one that is no uuid is refused as
    the reference it fails to be. *)
Definition violation (d : db) (r : attendance) : option string :=
  match first_error (timestampError (clock_in_time r))
          (first_error (timestampError (clock_out_time r))
             (timestampError (client_timestamp r))) with
  | Some code => Some code
  | None =>
  if negb (int4 (sync_version r)) then Some "22003"
  else if negb (decimal8 10 (clock_in_latitude r) &&
                decimal8 11 (clock_in_longitude r) &&
                decimal8 10 (clock_out_latitude r) &&
                decimal8 11 (clock_out_longitude r)) then Some "22003"
  else if negb (varchar 100 (device_id r) && varchar 20 (status r) &&
                varchar 20 (conflict_resolution_strategy r) &&
                varchar 20 (validation_status r)) then Some "22001"
  else if negb (bool_decide (is_Some (user_id r))) then Some "23502"
  else if negb (bool_decide (is_Some (facility_id r))) then Some "23502"
  else if negb (bool_decide (is_Some (clock_in_time r))) then Some "23502"
  else if negb (bool_decide (is_Some (synced r))) then Some "23502"
  else if negb (bool_decide (is_Some (sync_version r))) then Some "23502"
  else if negb (one_of ["active"; "completed"; "cancelled"] (status r)) then Some "23514"
  else if negb (one_of ["client_wins"; "server_wins"; "manual"]
                  (conflict_resolution_strategy r)) then Some "23514"
  else if negb (one_of ["verified"; "unverified"; "flagged"; "rejected"; "approved"]
                  (validation_status r)) then Some "23514"
  else if negb (match clock_out_time r, clock_in_time r with
                | Some o, Some i => i <? o
                | _, _ => true
                end) then Some "23514"
  else if negb (in_range (-90) 90 (clock_in_latitude r) &&
                in_range (-180) 180 (clock_in_longitude r)) then Some "23514"
  else if negb (in_range (-90) 90 (clock_out_latitude r) &&
                in_range (-180) 180 (clock_out_longitude r)) then Some "23514"
  else if negb (references u_id (users d) (user_id r)) then Some "23503"
  else if negb (references f_id (facilities d) (facility_id r)) then Some "23503"
  else None
  end.

Definition constraintError (code : string) : error :=
  DbError code "refused by relation attendance".

(** ORDER BY clock_in_time DESC LIMIT 1 over the rows kept by [keep]. *)
Definition latest (keep : attendance -> bool) (d : db) : option attendance :=
  fold_left SpoofingDetection.later (List.filter keep (attendances d)) None.

(** SELECT * FROM attendance WHERE user_id = $1 AND status = 'active'
    AND clock_out_time IS NULL ORDER BY clock_in_time DESC LIMIT 1 *)
Definition isActiveOf (userId : string) (r : attendance) : bool :=
  match user_id r, status r, clock_out_time r with
  | Some u, Some st, None => String.eqb u userId && String.eqb st "active"
  | _, _, _ => false
  end.

Definition findActiveByUserId (d : db) (userId : string) : option attendance :=
  latest (isActiveOf userId) d.

(** INSERT INTO attendance (...) VALUES (...) RETURNING *: the columns not
    listed take their defaults. *)
Definition clockIn (now : Z) (attendanceData : attendance) : M attendance :=
  fun d =>
    let row :=
      {| id := Some (next_id d);
         user_id := user_id attendanceData;
         facility_id := facility_id attendanceData;
         clock_in_time := clock_in_time attendanceData;
         clock_out_time := None;
         clock_in_latitude := JS.or_num (clock_in_latitude attendanceData) None;
         clock_in_longitude := JS.or_num (clock_in_longitude attendanceData) None;
         clock_out_latitude := None;
         clock_out_longitude := None;
         clock_in_accuracy_meters :=
           JS.or_num (clock_in_accuracy_meters attendanceData) None;
         clock_out_accuracy_meters := None;
         clock_in_distance_meters :=
           JS.or_num (clock_in_distance_meters attendanceData) None;
         clock_out_distance_meters := None;
         device_fingerprint := JS.or_str (device_fingerprint attendanceData) None;
         validation_status :=
           JS.or_str (validation_status attendanceData) (Some "verified");
         status := Some "active";
         notes := None;
         (* attendanceData.synced !== undefined ? attendanceData.synced : true *)
         synced := match synced attendanceData with
                   | Some b => Some b
                   | None =>
                       if bool_decide ("synced" ∈ absent attendanceData)
                       then Some true else None
                   end;
         client_timestamp :=
           match client_timestamp attendanceData with
           | Some t => Some t | None => clock_in_time attendanceData end;
         server_timestamp := Some now;
         device_id := device_id attendanceData;
         sync_version := Some 1;
         conflict_resolution_strategy := Some "server_wins";
         metadata := match metadata attendanceData with
                     | Some m => Some m | None => Some ∅ end;
         created_at := Some now;
         absent := [] |} in
    match violation d row with
    | Some code => (Throw (constraintError code), d)
    | None =>
        (Return row,
         with_next_id (with_attendances d (attendances d ++ [row]))
                      (N.succ (next_id d)))
    end.

Record clockOutInfo := {
  co_clock_out_time : option Z;
  co_clock_out_latitude : option Q;
  co_clock_out_longitude : option Q;
  co_clock_out_accuracy_meters : option Q;
  co_clock_out_distance_meters : option Q;
  co_notes : option string;
  co_metadata : option (gmap string jsval)
}.

Definition hasId (i : option N) (r : attendance) : bool :=
  match i, id r with
  | Some a, Some b => N.eqb a b
  | _, _ => false
  end.

(** Replace the rows selected by [sel] with their image under [f]. *)
Definition updateWhere (sel : attendance -> bool) (f : attendance -> attendance)
           (l : list attendance) : list attendance :=
  List.map (fun r => if sel r then f r else r) l.

(** UPDATE attendance SET ... status = 'completed',
    notes = COALESCE($6, notes), metadata = COALESCE($7, metadata)
    WHERE id = $8 RETURNING * *)
Definition applyClockOut (c : clockOutInfo) (r : attendance) : attendance :=
  {| id := id r; user_id := user_id r; facility_id := facility_id r;
     clock_in_time := clock_in_time r;
     clock_out_time := co_clock_out_time c;
     clock_in_latitude := clock_in_latitude r;
     clock_in_longitude := clock_in_longitude r;
     clock_out_latitude := JS.or_num (co_clock_out_latitude c) None;
     clock_out_longitude := JS.or_num (co_clock_out_longitude c) None;
     clock_in_accuracy_meters := clock_in_accuracy_meters r;
     clock_out_accuracy_meters := JS.or_num (co_clock_out_accuracy_meters c) None;
     clock_in_distance_meters := clock_in_distance_meters r;
     clock_out_distance_meters := JS.or_num (co_clock_out_distance_meters c) None;
     device_fingerprint := device_fingerprint r;
     validation_status := validation_status r;
     status := Some "completed";
     notes := match JS.or_str (co_notes c) None with
              | Some n => Some n | None => notes r end;
     synced := synced r;
     client_timestamp := client_timestamp r;
     server_timestamp := server_timestamp r;
     device_id := device_id r;
     sync_version := sync_version r;
     conflict_resolution_strategy := conflict_resolution_strategy r;
     metadata := match co_metadata c with
                 | Some m => Some m | None => metadata r end;
     created_at := created_at r;
     absent := [] |}.

(** [rows[0]] of the update: [None] when no row has the id. *)
Definition clockOut (attendanceId : option N) (c : clockOutInfo)
  : M (option attendance) :=
  fun d =>
    match List.find (hasId attendanceId) (attendances d) with
    | None => (Return None, d)
    | Some r =>
        let row := applyClockOut c r in
        match violation d row with
        | Some code => (Throw (constraintError code), d)
        | None =>
            (Return (Some row),
             with_attendances d
               (updateWhere (hasId attendanceId) (applyClockOut c) (attendances d)))
        end
    end.

(** *** bulkSync *)

Record syncError := {
  se_record : attendance;
  se_error : error
}.

Record syncResults := {
  inserted : list attendance;
  updated : list attendance;
  errors : list syncError
}.

(** The transaction opened by [BEGIN]: once a statement has failed, the
    server rejects every later statement until the transaction ends. *)
Record tx := {
  tx_db : db;
  tx_aborted : bool
}.

Definition abortedError : error :=
  DbError "25P02" "current transaction is aborted, commands ignored until end of transaction block".

Definition sameKey (record r : attendance) : bool :=
  match device_id record, client_timestamp record,
        device_id r, client_timestamp r with
  | Some dev, Some ts, Some dev', Some ts' => String.eqb dev dev' && (ts =? ts')
  | _, _, _, _ => false
  end.

(** SELECT * FROM attendance WHERE device_id = $1 AND client_timestamp = $2:
    the query is refused when $2 is no timestamp. *)
Definition selectExisting (d : db) (record : attendance) : outcome (list attendance) :=
  match timestampError (client_timestamp record) with
  | Some code => Throw (constraintError code)
  | None => Return (List.filter (sameKey record) (attendances d))
  end.

Definition insertedRow (now : Z) (d : db) (record : attendance) : attendance :=
  {| id := Some (next_id d);
     user_id := user_id record;
     facility_id := facility_id record;
     clock_in_time := clock_in_time record;
     clock_out_time := clock_out_time record;
     clock_in_latitude := JS.or_num (clock_in_latitude record) None;
     clock_in_longitude := JS.or_num (clock_in_longitude record) None;
     clock_out_latitude := JS.or_num (clock_out_latitude record) None;
     clock_out_longitude := JS.or_num (clock_out_longitude record) None;
     clock_in_accuracy_meters := None;
     clock_out_accuracy_meters := None;
     clock_in_distance_meters := None;
     clock_out_distance_meters := None;
     device_fingerprint := None;
     validation_status := Some "verified";
     status := JS.or_str (status record) (Some "completed");
     notes := JS.or_str (notes record) None;
     synced := Some true; (* Mark as synced *)
     client_timestamp := client_timestamp record;
     server_timestamp := Some now;
     device_id := device_id record;
     sync_version := Some (JS.or_int (sync_version record) 1);
     conflict_resolution_strategy :=
       JS.or_str (conflict_resolution_strategy record) (Some "server_wins");
     metadata := match metadata record with
                 | Some m => Some m | None => Some ∅ end;
     created_at := Some now;
     absent := [] |}.

Definition spread (m : option (gmap string jsval)) : gmap string jsval :=
  match m with Some m => m | None => ∅ end.

Definition first_time (a b : option Z) : option Z :=
  match a with Some _ => a | None => b end.

Definition updatedRow (record existingRecord : attendance) : attendance :=
  {| id := id existingRecord;
     user_id := user_id existingRecord;
     facility_id := facility_id existingRecord;
     clock_in_time := clock_in_time existingRecord;
     clock_out_time :=
       first_time (clock_out_time record) (clock_out_time existingRecord);
     clock_in_latitude := clock_in_latitude existingRecord;
     clock_in_longitude := clock_in_longitude existingRecord;
     clock_out_latitude :=
       JS.or_num (clock_out_latitude record) (clock_out_latitude existingRecord);
     clock_out_longitude :=
       JS.or_num (clock_out_longitude record) (clock_out_longitude existingRecord);
     clock_in_accuracy_meters := clock_in_accuracy_meters existingRecord;
     clock_out_accuracy_meters := clock_out_accuracy_meters existingRecord;
     clock_in_distance_meters := clock_in_distance_meters existingRecord;
     clock_out_distance_meters := clock_out_distance_meters existingRecord;
     device_fingerprint := device_fingerprint existingRecord;
     validation_status := validation_status existingRecord;
     status := JS.or_str (status record) (status existingRecord);
     notes := JS.or_str (notes record) (notes existingRecord);
     synced := synced existingRecord;
     client_timestamp := client_timestamp existingRecord;
     server_timestamp := server_timestamp existingRecord;
     device_id := device_id existingRecord;
     sync_version :=
       match sync_version existingRecord with
       | Some sv => Some (JS.or_int (sync_version record) (JS.plus sv 1))
       | None =>
           if JS.truthy_oint (sync_version record) then sync_version record else None
       end;
     conflict_resolution_strategy := conflict_resolution_strategy existingRecord;
     metadata := Some (spread (metadata record) ∪ spread (metadata existingRecord));
     created_at := created_at existingRecord;
     absent := [] |}.

(** [(record.sync_version || 1) > existingRecord.sync_version] *)
Definition isNewer (record existingRecord : attendance) : bool :=
  match sync_version existingRecord with
  | Some sv => sv <? JS.or_int (sync_version record) 1
  | None => false
  end.

Definition pushInserted (r : syncResults) (row : attendance) : syncResults :=
  {| inserted := inserted r ++ [row]; updated := updated r; errors := errors r |}.

Definition pushUpdated (r : syncResults) (row : attendance) : syncResults :=
  {| inserted := inserted r; updated := updated r ++ [row]; errors := errors r |}.

Definition pushError (r : syncResults) (record : attendance) (e : error) : syncResults :=
  {| inserted := inserted r; updated := updated r;
     errors := errors r ++ [{| se_record := record; se_error := e |}] |}.

(** The body of the [for] loop: one record, inside its own [try]. A
    statement that fails leaves the transaction aborted. *)
Definition syncRecord (now : Z) (acc : syncResults * tx) (record : attendance)
  : syncResults * tx :=
  let '(results, t) := acc in
  if tx_aborted t then (pushError results record abortedError, t)
  else
    let d := tx_db t in
    (* Check if record exists based on device_id and client_timestamp *)
    match selectExisting d record with
    | Throw e =>
        (pushError results record e, {| tx_db := d; tx_aborted := true |})
    | Return [] =>
        (* Insert new record *)
        let row := insertedRow now d record in
        match violation d row with
        | Some code =>
            (pushError results record (constraintError code),
             {| tx_db := d; tx_aborted := true |})
        | None =>
            (pushInserted results row,
             {| tx_db := with_next_id (with_attendances d (attendances d ++ [row]))
                                      (N.succ (next_id d));
                tx_aborted := false |})
        end
    | Return (existingRecord :: _) =>
        (* Update existing record if sync version is higher *)
        if isNewer record existingRecord then
          let row := updatedRow record existingRecord in
          match violation d row with
          | Some code =>
              (pushError results record (constraintError code),
               {| tx_db := d; tx_aborted := true |})
          | None =>
              (pushUpdated results row,
               {| tx_db := with_attendances d
                    (updateWhere (hasId (id existingRecord))
                                 (fun _ => row) (attendances d));
                  tx_aborted := false |})
          end
        else (results, t)
    end.

(** [COMMIT] of an aborted transaction rolls it back. *)
Definition bulkSync (now : Z) (records : list attendance) : M syncResults :=
  fun d =>
    let '(results, t) :=
      fold_left (syncRecord now) records
        ({| inserted := []; updated := []; errors := [] |},
         {| tx_db := d; tx_aborted := false |}) in
    (Return results, if tx_aborted t then d else tx_db t).

End AttendanceRepository.

(** ** src/utils/syncResolver.js *)

Module SyncResolver.

Local Open Scope Z_scope.

Definition CLIENT_WINS : string := "client_wins".
Definition SERVER_WINS : string := "server_wins".
Definition MANUAL : string := "manual".

Record resolution := {
  resolved : option attendance;
  action : string;
  conflict : bool;
  resolution_name : option string;
  clientRecord : option attendance;
  serverRecord : option attendance
}.

(** Whether the record reads [undefined] at [key]. *)
Definition isUndefined (r : attendance) (key : string) : bool :=
  bool_decide (key ∈ absent r).

(** [clientValue !== serverValue] when neither side is set: [undefined]
    and [null] are different values. *)
Definition unset_differ (key : string) (clientRecord serverRecord : attendance) : bool :=
  negb (Bool.eqb (isUndefined clientRecord key) (isUndefined serverRecord key)).

(** [clientRecord.sync_version !== serverRecord.sync_version] *)
Definition version_differs (clientRecord serverRecord : attendance) : bool :=
  match sync_version clientRecord, sync_version serverRecord with
  | Some x, Some y => negb (x =? y)
  | None, None => unset_differ "sync_version" clientRecord serverRecord
  | _, _ => true
  end.

(** A time field, with both sides set: the two are read as dates and
    differ when more than a second apart, which no comparison with [NaN]
    is. *)
Definition time_differs (clientValue serverValue : Z) : bool :=
  JS.validDate clientValue && JS.validDate serverValue &&
  (1000 <? Z.abs (clientValue - serverValue)).

Definition time_field_differs (key : string) (field : attendance -> option Z)
           (clientRecord serverRecord : attendance) : bool :=
  match field clientRecord, field serverRecord with
  | Some c, Some s => time_differs c s
  | None, None => unset_differ key clientRecord serverRecord
  | _, _ => true
  end.

Definition string_field_differs (key : string) (field : attendance -> option string)
           (clientRecord serverRecord : attendance) : bool :=
  match field clientRecord, field serverRecord with
  | Some c, Some s => negb (String.eqb c s)
  | None, None => unset_differ key clientRecord serverRecord
  | _, _ => true
  end.

Definition detectConflict (clientRecord serverRecord : attendance) : bool :=
  (* Compare sync versions *)
  if version_differs clientRecord serverRecord then true
  (* Compare critical fields: 'clock_in_time', 'clock_out_time', 'status' *)
  else if time_field_differs "clock_in_time" clock_in_time clientRecord serverRecord
  then true
  else if time_field_differs "clock_out_time" clock_out_time clientRecord serverRecord
  then true
  else string_field_differs "status" status clientRecord serverRecord.

Definition spread (m : option (gmap string jsval)) : gmap string jsval :=
  match m with Some m => m | None => ∅ end.

Definition mergeRecords (now : Z) (clientRecord serverRecord : attendance)
           (preference : string) : attendance :=
  let base := if String.eqb preference "client" then clientRecord else serverRecord in
  let other := if String.eqb preference "client" then serverRecord else clientRecord in
  {| (* Always keep server's id and timestamps *)
     id := id serverRecord;
     created_at := created_at serverRecord;
     server_timestamp := Some now;
     (* Increment sync version *)
     sync_version :=
       Some (JS.plus (Z.max (JS.or_int (sync_version clientRecord) 1)
                            (JS.or_int (sync_version serverRecord) 1)) 1);
     (* Mark as synced *)
     synced := Some true;
     (* Merge metadata *)
     metadata :=
       Some (<["resolved_at" := JTime now]>
             (<["resolution_strategy" := JStr preference]>
              (<["conflict_resolved" := JBool true]>
               (spread (metadata base) ∪ spread (metadata other)))));
     (* the other fields of the spread copy *)
     user_id := user_id base;
     facility_id := facility_id base;
     clock_in_time := clock_in_time base;
     clock_out_time := clock_out_time base;
     clock_in_latitude := clock_in_latitude base;
     clock_in_longitude := clock_in_longitude base;
     clock_out_latitude := clock_out_latitude base;
     clock_out_longitude := clock_out_longitude base;
     clock_in_accuracy_meters := clock_in_accuracy_meters base;
     clock_out_accuracy_meters := clock_out_accuracy_meters base;
     clock_in_distance_meters := clock_in_distance_meters base;
     clock_out_distance_meters := clock_out_distance_meters base;
     device_fingerprint := device_fingerprint base;
     validation_status := validation_status base;
     status := status base;
     notes := notes base;
     client_timestamp := client_timestamp base;
     device_id := device_id base;
     conflict_resolution_strategy := conflict_resolution_strategy base;
     (* the keys assigned above are set, whatever the copy had *)
     absent :=
       List.filter
         (fun key =>
            negb (existsb (String.eqb key)
                    ["id"; "created_at"; "server_timestamp"; "sync_version";
                     "synced"; "metadata"]))
         (absent base) |}.

Definition resolveConflict (now : Z) (clientRecord : attendance)
           (serverRecord : option attendance) (strategy : string) : resolution :=
  match serverRecord with
  | None =>
      (* No conflict if server record doesn't exist *)
      {| resolved := Some clientRecord; action := "insert"; conflict := false;
         resolution_name := None; clientRecord := None; serverRecord := None |}
  | Some server =>
      if negb (detectConflict clientRecord server) then
        {| resolved := Some server; action := "no_change"; conflict := false;
           resolution_name := None; clientRecord := None; serverRecord := None |}
      else if String.eqb strategy CLIENT_WINS then
        {| resolved := Some (mergeRecords now clientRecord server "client");
           action := "update"; conflict := true;
           resolution_name := Some "client_wins";
           clientRecord := None; serverRecord := None |}
      else if String.eqb strategy SERVER_WINS then
        {| resolved := Some server; action := "no_change"; conflict := true;
           resolution_name := Some "server_wins";
           clientRecord := None; serverRecord := None |}
      else if String.eqb strategy MANUAL then
        {| resolved := None; action := "manual_review"; conflict := true;
           resolution_name := Some "manual";
           clientRecord := Some clientRecord; serverRecord := Some server |}
      else
        (* Default to server wins *)
        {| resolved := Some server; action := "no_change"; conflict := true;
           resolution_name := Some "server_wins_default";
           clientRecord := None; serverRecord := None |}
  end.

Record validation := {
  isValid : bool;
  errors : list string
}.

Definition msPerDay : Z := 1000 * 60 * 60 * 24.

Definition validateSyncMetadata (now : Z) (record : attendance) : validation :=
  let errors :=
    ((if negb (JS.truthy_ostr (device_id record))
      then ["device_id is required for sync"] else []) ++
     match client_timestamp record with
     | None => ["client_timestamp is required for sync"]
     | Some clientTime =>
         if negb (JS.validDate clientTime) then
           (* an Invalid Date: daysDiff is NaN, and neither comparison holds *)
           []
         else
         let daysDiff := (inject_Z (now - clientTime) / inject_Z msPerDay)%Q in
         (* Warn if record is more than 30 days old *)
         (if JS.Qltb 30 daysDiff
          then ["client_timestamp is more than 30 days old"] else []) ++
         (* Error if record is from the future *)
         (if now <? clientTime
          then ["client_timestamp is in the future"] else [])
     end)%list in
  {| isValid := match errors with [] => true | _ => false end;
     errors := errors |}.

End SyncResolver.

(** ** src/modules/attendance/attendance.service.js *)

Module AttendanceService.

Record clockInData := {
  ci_facility_id : option string;
  ci_clock_in_time : option Z;
  ci_clock_in_latitude : option Q;
  ci_clock_in_longitude : option Q;
  ci_accuracy : option Q;
  ci_is_mocked : option bool;
  ci_device_fingerprint : option string;
  ci_device_id : option string;
  ci_client_timestamp : option Z;
  ci_synced : option bool;
  ci_metadata : option (gmap string jsval)
}.

Record clockOutData := {
  co_clock_out_time : option Z;
  co_clock_out_latitude : option Q;
  co_clock_out_longitude : option Q;
  co_accuracy : option Q;
  co_is_mocked : option bool;
  co_synced : option bool;
  co_notes : option string;
  co_metadata : option (gmap string jsval)
}.

Record validationError := {
  ve_index : nat;
  ve_errors : list string;
  ve_record : attendance
}.

Record summary := {
  total_submitted : nat;
  valid_records : nat;
  sum_inserted : nat;
  sum_updated : nat;
  failed : nat;
  sum_validation_errors : nat
}.

Record syncResponse := {
  success : bool;
  message : option string;
  sync_summary : option summary;
  validation_errors : list validationError;
  sync_errors : list AttendanceRepository.syncError
}.

Definition spread (m : option (gmap string jsval)) : gmap string jsval :=
  match m with Some m => m | None => ∅ end.

Definition optInt (z : option Z) : jsval :=
  match z with Some z => JInt z | None => JNull end.

(** [synced !== false] *)
Definition online (synced : option bool) : bool :=
  match synced with Some false => false | _ => true end.

Definition method_of (synced : option bool) : jsval :=
  JStr (if online synced then "online" else "offline").

(** [{ ...record, user_id: user.id }] *)
Definition withUserId (r : attendance) (u : string) : attendance :=
  {| id := id r; user_id := Some u; facility_id := facility_id r;
     clock_in_time := clock_in_time r; clock_out_time := clock_out_time r;
     clock_in_latitude := clock_in_latitude r;
     clock_in_longitude := clock_in_longitude r;
     clock_out_latitude := clock_out_latitude r;
     clock_out_longitude := clock_out_longitude r;
     clock_in_accuracy_meters := clock_in_accuracy_meters r;
     clock_out_accuracy_meters := clock_out_accuracy_meters r;
     clock_in_distance_meters := clock_in_distance_meters r;
     clock_out_distance_meters := clock_out_distance_meters r;
     device_fingerprint := device_fingerprint r;
     validation_status := validation_status r;
     status := status r; notes := notes r; synced := synced r;
     client_timestamp := client_timestamp r;
     server_timestamp := server_timestamp r;
     device_id := device_id r; sync_version := sync_version r;
     conflict_resolution_strategy := conflict_resolution_strategy r;
     metadata := metadata r; created_at := created_at r;
     absent := List.filter (fun k => negb (String.eqb k "user_id")) (absent r) |}.

Section WithGeofence.
Context `{JsMath}.

(** [require('../../utils/geofencing').validateGeofence] *)
Variable validateGeofence : db -> string -> Q -> Q -> outcome Geofencing.result.

Definition clockIn (now : Z) (clockInData : clockInData) (user : user_row)
  : M attendance :=
  (* Check if user already has an active attendance *)
  activeAttendance ← gets (fun d => AttendanceRepository.findActiveByUserId d (u_id user));
  match activeAttendance with
  | Some _ => throw AlreadyClockedIn
  | None =>
  (* Use user's facility_id if not provided in request *)
  let facilityId := JS.or_str (ci_facility_id clockInData) (u_facility_id user) in
  if negb (JS.truthy_ostr facilityId) then throw FacilityRequired else
  (* Initialize metadata for GPS tracking *)
  let metadata :=
    <["clock_in_method" := method_of (ci_synced clockInData)]>
      (spread (ci_metadata clockInData)) in
  (* For online clock-ins, GPS is REQUIRED *)
  '(validationStatus, clockInAccuracyMeters, clockInDistanceMeters, metadata) ←
    (if online (ci_synced clockInData) then
       let coordValidation :=
         Validators.validateGpsCoordinates
           (ci_clock_in_latitude clockInData) (ci_clock_in_longitude clockInData) in
       if negb (Validators.isValid coordValidation)
       then throw (default CoordinatesRequired (Validators.error coordValidation))
       else
       let metadata :=
         match Validators.warning coordValidation with
         | Some w => <["coordinate_warning" := JStr w]> metadata
         | None => metadata
         end in
       let validationStatus :=
         match Validators.warning coordValidation with
         | Some _ => "flagged" | None => "verified" end in
       (* Validate accuracy is provided and acceptable *)
       match ci_accuracy clockInData with
       | None => throw AccuracyRequired
       | Some accuracy =>
       if JS.Qltb SpoofingDetection.MAX_ACCEPTABLE_ACCURACY accuracy
       then throw (AccuracyTooLow (JS.Math_round accuracy))
       else
       (* 1. Run spoofing detection checks *)
       spoofingResult ←
         SpoofingDetection.runSpoofingChecks now
           {| SpoofingDetection.ld_latitude := ci_clock_in_latitude clockInData;
              SpoofingDetection.ld_longitude := ci_clock_in_longitude clockInData;
              SpoofingDetection.ld_accuracy := Some accuracy;
              SpoofingDetection.ld_is_mocked := ci_is_mocked clockInData |}
           (u_id user);
       if negb (SpoofingDetection.passed spoofingResult)
       then throw (hd LocationVerificationFailed (SpoofingDetection.errors spoofingResult))
       else
       (* Store spoofing warnings in metadata *)
       let '(metadata, validationStatus) :=
         match SpoofingDetection.warnings spoofingResult with
         | [] => (metadata, validationStatus)
         | ws =>
             (<["spoofing_flags" := JStrs (SpoofingDetection.flags spoofingResult)]>
                (<["spoofing_warnings" := JWarnings ws]> metadata),
              "flagged")
         end in
       (* 2. Validate geofence *)
       match ci_clock_in_latitude clockInData, ci_clock_in_longitude clockInData with
       | Some latitude, Some longitude =>
       geofenceResult ←
         lift (fun d => validateGeofence d (default EmptyString facilityId) latitude longitude);
       match Geofencing.error geofenceResult with
       | Some e => throw e
       | None =>
       if negb (Geofencing.isWithinGeofence geofenceResult)
       then throw (OutsideGeofence (Geofencing.distance geofenceResult)
                                   (Geofencing.facilityName geofenceResult)
                                   (Geofencing.maxRadius geofenceResult))
       else
       (* Store geofence data in metadata *)
       let metadata :=
         <["gps_accuracy" := JNum accuracy]>
           (<["geofence_radius" := optInt (Geofencing.maxRadius geofenceResult)]>
              (<["distance_from_facility" := optInt (Geofencing.distance geofenceResult)]>
                 metadata)) in
       let metadata :=
         match Geofencing.warning geofenceResult with
         | Some w => <["geofence_warning" := JStr w]> metadata
         | None => metadata
         end in
       mret (validationStatus, Some accuracy,
             inject_Z <$> Geofencing.distance geofenceResult, metadata)
       end
       | _, _ => throw CoordinatesRequired (* excluded by coordValidation *)
       end
       end
     else
       (* Offline clock-in - mark as unverified *)
       mret ("unverified", None, None, metadata));
  let clock_in_time := default now (ci_clock_in_time clockInData) in
  let attendanceData :=
    {| id := None;
       user_id := Some (u_id user);
       facility_id := facilityId;
       clock_in_time := Some clock_in_time;
       clock_out_time := None;
       clock_in_latitude := ci_clock_in_latitude clockInData;
       clock_in_longitude := ci_clock_in_longitude clockInData;
       clock_out_latitude := None; clock_out_longitude := None;
       clock_in_accuracy_meters := clockInAccuracyMeters;
       clock_out_accuracy_meters := None;
       clock_in_distance_meters := clockInDistanceMeters;
       clock_out_distance_meters := None;
       device_fingerprint := JS.or_str (ci_device_fingerprint clockInData) None;
       validation_status := Some validationStatus;
       status := None; notes := None;
       synced := Some (default true (ci_synced clockInData));
       client_timestamp := Some (default now (ci_client_timestamp clockInData));
       server_timestamp := None;
       device_id := ci_device_id clockInData;
       sync_version := None; conflict_resolution_strategy := None;
       metadata := Some metadata;
       created_at := None;
       absent := ["id"; "clock_out_time"; "clock_out_latitude"; "clock_out_longitude";
                  "clock_out_accuracy_meters"; "clock_out_distance_meters";
                  "status"; "notes"; "server_timestamp"; "sync_version";
                  "conflict_resolution_strategy"; "created_at"] |} in
  attendance ← AttendanceRepository.clockIn now attendanceData;
  (* Log activity *)
  modify (insertActivity
    {| act_user_id := u_id user; act_action := "clock_in";
       act_entity_type := "attendance";
       act_entity_id := Some (AttendanceEntity (id attendance));
       act_description := "User clocked in" |});;
  mret attendance
  end.

Definition clockOut (now : Z) (clockOutData : clockOutData) (user : user_row)
  : M attendance :=
  (* Get active attendance *)
  activeAttendance ← gets (fun d => AttendanceRepository.findActiveByUserId d (u_id user));
  match activeAttendance with
  | None => throw NotClockedIn
  | Some activeAttendance =>
  (* Initialize metadata *)
  let metadata :=
    <["clock_out_method" := method_of (co_synced clockOutData)]>
      (spread (co_metadata clockOutData) ∪ spread (metadata activeAttendance)) in
  (* For online clock-outs, GPS is REQUIRED *)
  '(clockOutAccuracyMeters, clockOutDistanceMeters, metadata) ←
    (if online (co_synced clockOutData) then
       let coordValidation :=
         Validators.validateGpsCoordinates
           (co_clock_out_latitude clockOutData) (co_clock_out_longitude clockOutData) in
       if negb (Validators.isValid coordValidation)
       then throw (default CoordinatesRequired (Validators.error coordValidation))
       else
       let metadata :=
         match Validators.warning coordValidation with
         | Some w => <["clock_out_coordinate_warning" := JStr w]> metadata
         | None => metadata
         end in
       match co_accuracy clockOutData with
       | None => throw AccuracyRequired
       | Some accuracy =>
       if JS.Qltb SpoofingDetection.MAX_ACCEPTABLE_ACCURACY accuracy
       then throw (AccuracyTooLow (JS.Math_round accuracy))
       else
       (* 1. Run spoofing detection checks *)
       spoofingResult ←
         SpoofingDetection.runSpoofingChecks now
           {| SpoofingDetection.ld_latitude := co_clock_out_latitude clockOutData;
              SpoofingDetection.ld_longitude := co_clock_out_longitude clockOutData;
              SpoofingDetection.ld_accuracy := Some accuracy;
              SpoofingDetection.ld_is_mocked := co_is_mocked clockOutData |}
           (u_id user);
       if negb (SpoofingDetection.passed spoofingResult)
       then throw (hd LocationVerificationFailed (SpoofingDetection.errors spoofingResult))
       else
       let metadata :=
         match SpoofingDetection.warnings spoofingResult with
         | [] => metadata
         | ws =>
             <["clock_out_spoofing_flags" := JStrs (SpoofingDetection.flags spoofingResult)]>
               (<["clock_out_spoofing_warnings" := JWarnings ws]> metadata)
         end in
       (* 2. Validate geofence for clock-out *)
       match co_clock_out_latitude clockOutData, co_clock_out_longitude clockOutData with
       | Some latitude, Some longitude =>
       geofenceResult ←
         lift (fun d => validateGeofence d (default EmptyString (facility_id activeAttendance))
                                         latitude longitude);
       match Geofencing.error geofenceResult with
       | Some e => throw e
       | None =>
       if negb (Geofencing.isWithinGeofence geofenceResult)
       then throw (OutsideGeofence (Geofencing.distance geofenceResult)
                                   (Geofencing.facilityName geofenceResult)
                                   (Geofencing.maxRadius geofenceResult))
       else
       let metadata :=
         <["clock_out_gps_accuracy" := JNum accuracy]>
           (<["clock_out_distance_from_facility" :=
                optInt (Geofencing.distance geofenceResult)]> metadata) in
       let metadata :=
         match Geofencing.warning geofenceResult with
         | Some w => <["clock_out_geofence_warning" := JStr w]> metadata
         | None => metadata
         end in
       mret (Some accuracy, inject_Z <$> Geofencing.distance geofenceResult, metadata)
       end
       | _, _ => throw CoordinatesRequired (* excluded by coordValidation *)
       end
       end
     else mret (None, None, metadata));
  let clockOutInfo :=
    {| AttendanceRepository.co_clock_out_time :=
         Some (default now (co_clock_out_time clockOutData));
       AttendanceRepository.co_clock_out_latitude := co_clock_out_latitude clockOutData;
       AttendanceRepository.co_clock_out_longitude := co_clock_out_longitude clockOutData;
       AttendanceRepository.co_clock_out_accuracy_meters := clockOutAccuracyMeters;
       AttendanceRepository.co_clock_out_distance_meters := clockOutDistanceMeters;
       AttendanceRepository.co_notes := co_notes clockOutData;
       AttendanceRepository.co_metadata := Some metadata |} in
  attendance ← AttendanceRepository.clockOut (id activeAttendance) clockOutInfo;
  match attendance with
  | None => throw TypeError
  | Some attendance =>
      (* Log activity *)
      modify (insertActivity
        {| act_user_id := u_id user; act_action := "clock_out";
           act_entity_type := "attendance";
           act_entity_id := Some (AttendanceEntity (id attendance));
           act_description := "User clocked out" |});;
      mret attendance
  end
  end.

End WithGeofence.

(** The validation loop: [(validationErrors, validRecords)] after the
    records from position [i] on. *)
Fixpoint validateAll (now : Z) (userId : string) (i : nat) (records : list attendance)
  : list validationError * list attendance :=
  match records with
  | [] => ([], [])
  | r :: rest =>
      let record := withUserId r userId in
      let validation := SyncResolver.validateSyncMetadata now record in
      let '(validationErrors, validRecords) := validateAll now userId (S i) rest in
      if negb (SyncResolver.isValid validation)
      then ({| ve_index := i; ve_errors := SyncResolver.errors validation;
               ve_record := record |} :: validationErrors,
            validRecords)
      else (validationErrors, record :: validRecords)
  end.

Definition syncOfflineRecords (now : Z) (records : list attendance) (user : user_row)
  : M syncResponse :=
  (* Validate sync metadata for all records *)
  let '(validationErrors, validRecords) := validateAll now (u_id user) 0 records in
  match validRecords with
  | [] =>
      mret {| success := false; message := Some "No valid records to sync";
              sync_summary := None;
              validation_errors := validationErrors; sync_errors := [] |}
  | _ =>
      (* Perform bulk sync with conflict resolution *)
      syncResults ← AttendanceRepository.bulkSync now validRecords;
      (* Log sync activity *)
      modify (insertActivity
        {| act_user_id := u_id user; act_action := "sync";
           act_entity_type := "attendance"; act_entity_id := None;
           act_description := "Synced offline attendance records" |});;
      mret {| success := true; message := None;
              sync_summary :=
                Some {| total_submitted := length records;
                        valid_records := length validRecords;
                        sum_inserted := length (AttendanceRepository.inserted syncResults);
                        sum_updated := length (AttendanceRepository.updated syncResults);
                        failed := length (AttendanceRepository.errors syncResults);
                        sum_validation_errors := length validationErrors |};
              validation_errors := validationErrors;
              sync_errors := AttendanceRepository.errors syncResults |}
  end.

Definition getCurrentStatus (userId : string) : M (option attendance) :=
  gets (fun d => AttendanceRepository.findActiveByUserId d userId).

End AttendanceService.

(** ** Token primitives

    SHA-256, bcrypt and the jsonwebtoken library, as the session manager
    meets them. [jwt_sign] is [jwt.sign(payload, secret, options)]: the
    token is computed from the payload, the secret with its options, and
    the [iat] claim, which is the clock in whole seconds; nothing else
    enters it (no [jti], no nonce). [jwt_verify] checks signature, issuer,
    audience and expiry. *)

Inductive jwt_check :=
| Decoded (userId : string)
| TokenExpiredError
| JsonWebTokenError
| OtherJwtError.

Record jwt_payload := {
  p_userId : string;
  p_email : string;
  p_role : option string;
  p_facilityId : option string
}.

(** [authConfig.jwt] or [authConfig.refresh]: the secret and the options
    that go with it. *)
Inductive jwt_config :=
| AccessConfig
| RefreshConfig.

Class Tokens := {
  hashToken : string -> string;
  verifyPassword : string -> string -> bool;
  jwt_sign : jwt_payload -> jwt_config -> Z -> string;
  jwt_verify : string -> Z -> jwt_check
}.

Section TokenGeneration.
Context `{Tokens}.

(** Generate JWT access token *)
Definition generateAccessToken (user : user_row) (now : Z) : string :=
  let payload :=
    {| p_userId := u_id user; p_email := u_email user;
       p_role := Some (u_role user); p_facilityId := u_facility_id user |} in
  jwt_sign payload AccessConfig (now / 1000)%Z.

(** Generate JWT refresh token *)
Definition generateRefreshToken (user : user_row) (now : Z) : string :=
  let payload :=
    {| p_userId := u_id user; p_email := u_email user;
       p_role := None; p_facilityId := None |} in
  jwt_sign payload RefreshConfig (now / 1000)%Z.

End TokenGeneration.

(** ** src/modules/sessions/sessions.repository.js *)

Module SessionsRepository.

Local Open Scope Z_scope.

Record sessionData := {
  sd_user_id : string;
  sd_token : string;
  sd_device_fingerprint : option string;
  sd_ip_address : option string;
  sd_user_agent : option string;
  sd_expires_at : Z
}.

Section WithTokens.
Context `{Tokens}.

(** INSERT INTO user_sessions (...) VALUES (..., true, $7) RETURNING ... *)
Definition createSession (now : Z) (sessionData : sessionData) : M session_row :=
  fun d =>
    match user_sessions d with
    | SessionsUnavailable code message => (Throw (DbError code message), d)
    | SessionsTable rows =>
        let tokenHash := hashToken (sd_token sessionData) in
        let row :=
          {| s_id := next_id d;
             s_user_id := sd_user_id sessionData;
             s_device_fingerprint := JS.or_str (sd_device_fingerprint sessionData) None;
             s_token_hash := tokenHash;
             s_ip_address := JS.or_str (sd_ip_address sessionData) None;
             s_user_agent := JS.or_str (sd_user_agent sessionData) None;
             s_is_active := true;
             s_expires_at := sd_expires_at sessionData;
             s_invalidated_at := None;
             s_invalidation_reason := None;
             s_created_at := now |} in
        (Return row,
         with_next_id (with_sessions d (SessionsTable (rows ++ [row])))
                      (N.succ (next_id d)))
    end.

Definition invalidated (now : Z) (reason : string) (s : session_row) : session_row :=
  {| s_id := s_id s; s_user_id := s_user_id s;
     s_device_fingerprint := s_device_fingerprint s;
     s_token_hash := s_token_hash s;
     s_ip_address := s_ip_address s; s_user_agent := s_user_agent s;
     s_is_active := false;
     s_expires_at := s_expires_at s;
     s_invalidated_at := Some now;
     s_invalidation_reason := Some reason;
     s_created_at := s_created_at s |}.

(** WHERE user_id = $1 AND is_active = TRUE [AND id != $3] *)
Definition targeted (userId : string) (exceptSessionId : option N) (s : session_row) : bool :=
  String.eqb (s_user_id s) userId && s_is_active s &&
  match exceptSessionId with
  | Some x => negb (N.eqb (s_id s) x)
  | None => true
  end.

(** UPDATE user_sessions SET is_active = FALSE, invalidated_at = NOW(),
    invalidation_reason = $2 WHERE ... RETURNING id; the result is the
    number of rows. *)
Definition invalidateUserSessions (now : Z) (userId : string) (reason : string)
           (exceptSessionId : option N) : M nat :=
  fun d =>
    match user_sessions d with
    | SessionsUnavailable code message => (Throw (DbError code message), d)
    | SessionsTable rows =>
        (Return (length (List.filter (targeted userId exceptSessionId) rows)),
         with_sessions d
           (SessionsTable
              (List.map (fun s => if targeted userId exceptSessionId s
                                  then invalidated now reason s else s) rows)))
    end.

(** SELECT s.*, u.is_active as user_is_active FROM user_sessions s
    JOIN users u ON s.user_id = u.id
    WHERE s.token_hash = $1 AND s.is_active = TRUE AND s.expires_at > NOW();
    the result is [rows[0] || null]. *)
Definition joinUser (d : db) (now : Z) (tokenHash : string) (s : session_row)
  : option (session_row * bool) :=
  if String.eqb (s_token_hash s) tokenHash && s_is_active s && (now <? s_expires_at s)
  then
    match List.find (fun u => String.eqb (u_id u) (s_user_id s)) (users d) with
    | Some u => Some (s, u_is_active u)
    | None => None
    end
  else None.

Definition findActiveSessionByToken (now : Z) (token : string) (d : db)
  : outcome (option (session_row * bool)) :=
  match user_sessions d with
  | SessionsUnavailable code message => Throw (DbError code message)
  | SessionsTable rows =>
      Return (head (omap (joinUser d now (hashToken token)) rows))
  end.

(** UPDATE user_sessions SET is_active = FALSE, invalidated_at = NOW(),
    invalidation_reason = $2 WHERE id = $1 AND is_active = TRUE RETURNING id;
    the result is [rows.length > 0]. *)
Definition selected (sessionId : N) (s : session_row) : bool :=
  N.eqb (s_id s) sessionId && s_is_active s.

Definition invalidateSession (now : Z) (sessionId : N) (reason : string) : M bool :=
  fun d =>
    match user_sessions d with
    | SessionsUnavailable code message => (Throw (DbError code message), d)
    | SessionsTable rows =>
        (Return (0 <? length (List.filter (selected sessionId) rows))%nat,
         with_sessions d
           (SessionsTable
              (List.map (fun s => if selected sessionId s
                                  then invalidated now reason s else s) rows)))
    end.

(** SELECT COUNT( * ) as count FROM user_sessions
    WHERE user_id = $1 AND is_active = TRUE AND expires_at > NOW() *)
Definition live (now : Z) (userId : string) (s : session_row) : bool :=
  String.eqb (s_user_id s) userId && s_is_active s && (now <? s_expires_at s).

Definition countActiveSessions (now : Z) (userId : string) (d : db) : outcome nat :=
  match user_sessions d with
  | SessionsUnavailable code message => Throw (DbError code message)
  | SessionsTable rows => Return (length (List.filter (live now userId) rows))
  end.

(** UPDATE user_sessions SET is_active = FALSE, invalidated_at = NOW(),
    invalidation_reason = 'expired'
    WHERE is_active = TRUE AND expires_at < NOW() RETURNING id *)
Definition lapsed (now : Z) (s : session_row) : bool :=
  s_is_active s && (s_expires_at s <? now).

Definition cleanupExpiredSessions (now : Z) : M nat :=
  fun d =>
    match user_sessions d with
    | SessionsUnavailable code message => (Throw (DbError code message), d)
    | SessionsTable rows =>
        (Return (length (List.filter (lapsed now) rows)),
         with_sessions d
           (SessionsTable
              (List.map (fun s => if lapsed now s
                                  then invalidated now "expired" s else s) rows)))
    end.

End WithTokens.

End SessionsRepository.

(** ** src/modules/devices/devices.repository.js *)

Module DevicesRepository.

(** INSERT INTO user_devices (...) ON CONFLICT (user_id, device_fingerprint)
    DO UPDATE SET ..., last_used_at = NOW() *)
Definition registerDevice (now : Z) (userId fingerprint : string) : M unit :=
  modify (fun d =>
    let same r := String.eqb (d_user_id r) userId &&
                  String.eqb (d_device_fingerprint r) fingerprint in
    let row := {| d_user_id := userId; d_device_fingerprint := fingerprint;
                  d_last_used_at := now |} in
    if existsb same (user_devices d)
    then with_devices d (List.map (fun r => if same r then row else r) (user_devices d))
    else with_devices d (user_devices d ++ [row])).

End DevicesRepository.

(** ** src/modules/auth/auth.service.js *)

Module AuthService.

Local Open Scope Z_scope.

(** [authConfig.jwt.expiresIn] after the match against /^(\d+)([dhms])$/:
    the number and the unit letter, or [None] when it does not match. *)
Definition getTokenExpirationDate (expiresIn : option (Z * string)) (now : Z) : Z :=
  match expiresIn with
  | None => now + 7 * 24 * 60 * 60 * 1000
  | Some (value, unit) =>
      now +
      (if String.eqb unit "d" then value * 24 * 60 * 60 * 1000
       else if String.eqb unit "h" then value * 60 * 60 * 1000
       else if String.eqb unit "m" then value * 60 * 1000
       else if String.eqb unit "s" then value * 1000
       else 0)
  end.

Record loginResult := {
  user : user_row;
  token : string;
  refreshToken : string
}.

Definition touchLogin (now : Z) (userId : string) (u : user_row) : user_row :=
  if String.eqb (u_id u) userId
  then {| u_id := u_id u; u_email := u_email u;
          u_password_hash := u_password_hash u; u_role := u_role u;
          u_facility_id := u_facility_id u; u_is_active := u_is_active u;
          u_last_login_at := Some now |}
  else u.

Section WithTokens.
Context `{Tokens}.

(** '24h' unless the environment overrides it. *)
Variable expiresIn : option (Z * string).

Definition login (now : Z) (email password : string)
           (ipAddress userAgent deviceFingerprint : option string) : M loginResult :=
  (* Fetch user with full details *)
  result ← gets (fun d => List.find (fun u => String.eqb (u_email u) email) (users d));
  match result with
  | None => throw InvalidCredentials
  | Some user =>
  (* Check if user is active (admin approval flow) *)
  if negb (u_is_active user) then throw AccountPendingApproval else
  (* Verify password *)
  if negb (verifyPassword password (u_password_hash user)) then
    (* Log failed login attempt *)
    modify (insertActivity
      {| act_user_id := u_id user; act_action := "login_failed";
         act_entity_type := "auth";
         act_entity_id := Some (UserEntity (u_id user));
         act_description := "Failed login attempt" |});;
    throw InvalidCredentials
  else
  (* Generate tokens *)
  let token := generateAccessToken user now in
  let refreshToken := generateRefreshToken user now in
  (* Invalidate all previous sessions for this user (enforce single session) *)
  SessionsRepository.invalidateUserSessions now (u_id user) "new_login" None;;
  (* Create new session *)
  SessionsRepository.createSession now
    {| SessionsRepository.sd_user_id := u_id user;
       SessionsRepository.sd_token := token;
       SessionsRepository.sd_device_fingerprint := deviceFingerprint;
       SessionsRepository.sd_ip_address := ipAddress;
       SessionsRepository.sd_user_agent := userAgent;
       SessionsRepository.sd_expires_at := getTokenExpirationDate expiresIn now |};;
  (* Register device if fingerprint provided *)
  (if JS.truthy_ostr deviceFingerprint
   then DevicesRepository.registerDevice now (u_id user) (default EmptyString deviceFingerprint)
   else mret tt);;
  (* Update last login time *)
  modify (fun d => with_users d (List.map (touchLogin now (u_id user)) (users d)));;
  (* Log successful login *)
  modify (insertActivity
    {| act_user_id := u_id user; act_action := "login";
       act_entity_type := "auth";
         act_entity_id := Some (UserEntity (u_id user));
       act_description := "Successful login" |});;
  mret {| user := user; token := token; refreshToken := refreshToken |}
  end.

End WithTokens.

End AuthService.

(** ** src/middleware/auth.middleware.js *)

Module AuthMiddleware.

(** What the middleware does with the request: answer it, or attach the
    user (and the session id, when one was found) and call [next()]. *)
Inductive response :=
| Json (status : Z) (message : string) (code : option string)
| Next (user : user_row) (sessionId : option N).

Section WithTokens.
Context `{Tokens}.

(** The user query at the end of [authenticate]:
    WHERE u.id = $1 AND u.is_active = TRUE; then [req.user] is set and
    [next()] is called. *)
Definition attachUser (d : db) (userId : string) (sessionId : option N) : response :=
  match List.find (fun u => String.eqb (u_id u) userId && u_is_active u) (users d) with
  | None => Json 401 "User not found or inactive" None
  | Some u => Next u sessionId
  end.

Definition authenticate (now : Z) (authorization : option string) (d : db) : response :=
  (* Get token from header *)
  match authorization with
  | None => Json 401 "No token provided" None
  | Some authHeader =>
  if negb (String.eqb authHeader EmptyString) && JS.startsWith "Bearer " authHeader then
    let token := JS.substring_from 7 authHeader in (* Remove 'Bearer ' prefix *)
    (* Verify token *)
    match jwt_verify token now with
    | TokenExpiredError => Json 401 "Token expired" (Some "TOKEN_EXPIRED")
    | JsonWebTokenError => Json 401 "Invalid token" (Some "INVALID_TOKEN")
    | OtherJwtError => Json 500 "Authentication failed" None
    | Decoded userId =>
        (* Validate session is active (if session management is enabled) *)
        match SessionsRepository.findActiveSessionByToken now token d with
        | Return None =>
            (* Session not found or invalidated - user logged in elsewhere *)
            Json 401 "Session expired. Please log in again." (Some "SESSION_INVALIDATED")
        | Return (Some (session, user_is_active)) =>
            (* Check if user is still active *)
            if negb user_is_active then
              Json 401 "Account deactivated. Please contact administrator."
                   (Some "ACCOUNT_DEACTIVATED")
            else attachUser d userId (Some (s_id session))
        | Throw sessionError =>
            (* If session table doesn't exist yet (migration not run),
               continue without session validation *)
            attachUser d userId None
        end
    end
  else Json 401 "No token provided" None
  end.

End WithTokens.

End AuthMiddleware.

(** ** src/modules/auth/auth.controller.js *)

Module AuthController.

(** POST /api/auth/logout, behind [authenticate]: the handler writes the
    audit entry and answers 200. *)
Definition logout (user : user_row) : M (Z * string) :=
  modify (insertActivity
    {| act_user_id := u_id user; act_action := "logout";
       act_entity_type := "auth";
       act_entity_id := Some (UserEntity (u_id user));
       act_description := "User logged out" |});;
  mret (200%Z, "Logout successful").

End AuthController.

(** ** src/middleware/rateLimiter.middleware.js

    The limiter in front of clock-in and clock-out. [Date.now()] is read
    once per request. The response hook installed for
    [skipSuccessfulRequests] and [skipFailedRequests] is not modelled:
    apiRateLimiter and uploadRateLimiter set neither. *)

Module RateLimiter.

Local Open Scope Z_scope.

Record entry := {
  count : Z;
  resetTime : Z
}.

(** class RateLimitStore *)
Record store := {
  requests : gmap string entry;
  blocked : gmap string Z
}.

Definition get (now : Z) (identifier : string) (s : store) : entry :=
  default {| count := 0; resetTime := now |} (requests s !! identifier).

Definition increment (now : Z) (identifier : string) (windowMs : Z) (s : store)
  : entry * store :=
  let data := get now identifier s in
  let data :=
    (* Reset if window has passed *)
    if resetTime data <? now
    then {| count := 1; resetTime := now + windowMs |}
    else {| count := count data + 1; resetTime := resetTime data |} in
  (data, {| requests := <[identifier := data]> (requests s);
            blocked := blocked s |}).

Definition block (now : Z) (identifier : string) (duration : Z) (s : store) : store :=
  {| requests := requests s;
     blocked := <[identifier := now + duration]> (blocked s) |}.

Definition isBlocked (now : Z) (identifier : string) (s : store) : bool * store :=
  match blocked s !! identifier with
  | None => (false, s)
  | Some unblockTime =>
      if unblockTime =? 0 then (false, s)
      else if unblockTime <? now then
        (false, {| requests := requests s;
                   blocked := delete identifier (blocked s) |})
      else (true, s)
  end.

Definition cleanup (now : Z) (s : store) : store :=
  {| requests := filter (fun kv => negb (resetTime (snd kv) + 60000 <? now)) (requests s);
     blocked := filter (fun kv => negb (snd kv <? now)) (blocked s) |}.

Record options := {
  windowMs : Z;
  maxAttempts : Z;
  blockDuration : Z
}.

(** What the middleware does with the request: 429 with one of two
    codes, or the three headers and [next()]. *)
Inductive verdict :=
| RateLimitBlocked
| RateLimitExceeded (retryAfter : Z)
| Next (limit remaining reset : Z).

(** [Math.ceil(blockDuration / 1000)] *)
Definition retryAfterOf (o : options) : Z := - ((- blockDuration o) / 1000).

Definition createRateLimiter (o : options) (now : Z) (identifier : string) (s : store)
  : verdict * store :=
  (* Check if blocked *)
  let '(isblocked, s) := isBlocked now identifier s in
  if isblocked then (RateLimitBlocked, s)
  else
    (* Increment request count *)
    let '(data, s) := increment now identifier (windowMs o) s in
    (* Check if limit exceeded *)
    if maxAttempts o <? count data
    then (RateLimitExceeded (retryAfterOf o), block now identifier (blockDuration o) s)
    else (Next (maxAttempts o) (Z.max 0 (maxAttempts o - count data)) (resetTime data), s).

Definition apiRateLimiter : options :=
  {| windowMs := 15 * 60 * 1000; maxAttempts := 100; blockDuration := 15 * 60 * 1000 |}.

Definition uploadRateLimiter : options :=
  {| windowMs := 60 * 60 * 1000; maxAttempts := 10; blockDuration := 60 * 60 * 1000 |}.

End RateLimiter.

(** ** A rational [Math]

    One implementation of the [JsMath] interface, by truncated series on a
    grid of 10^-18, used to run the engine on concrete coordinates. *)

Module RationalMath.

Local Open Scope Q_scope.

Definition grid : Z := 10 ^ 18.

Definition snap (x : Q) : Q := Qmake (Qfloor (x * inject_Z grid)) (Z.to_pos grid).

Definition PI : Q := Qmake 3141592653589793238 (Z.to_pos grid).

(** Sum of the alternating series whose next term is
    [- term * x2 / ((k + 1) * (k + 2))]. *)
Fixpoint factorial_series (n : nat) (term x2 : Q) (k : Z) (acc : Q) : Q :=
  match n with
  | O => acc
  | S n' =>
      let term' := snap (- term * x2 / inject_Z ((k + 1) * (k + 2))) in
      factorial_series n' term' x2 (k + 2) (acc + term')
  end.

Definition sin (x : Q) : Q :=
  let x := snap x in snap (factorial_series 14 x (x * x) 1 x).

Definition cos (x : Q) : Q :=
  let x := snap x in snap (factorial_series 14 1 (x * x) 0 1).

Definition sqrt (x : Q) : Q :=
  if Qle_bool x 0 then 0
  else Qmake (Z.sqrt (Qfloor (x * inject_Z grid * inject_Z grid))) (Z.to_pos grid).

(** [t - t^3/3 + t^5/5 - ...] *)
Fixpoint odd_series (n : nat) (power t2 : Q) (k : Z) (acc : Q) : Q :=
  match n with
  | O => acc
  | S n' =>
      let power' := snap (- power * t2) in
      odd_series n' power' t2 (k + 2) (acc + power' / inject_Z (k + 2))
  end.

(** [atan t = 2 * atan (t / (1 + sqrt (1 + t^2)))] *)
Definition halve (t : Q) : Q := snap (t / (1 + sqrt (1 + t * t))).

Definition atan_unit (t : Q) : Q :=
  let u := halve (halve (halve t)) in
  snap (8 * odd_series 12 u (u * u) 1 u).

Definition atan (t : Q) : Q :=
  if Qle_bool (Qabs t) 1 then atan_unit t
  else if Qle_bool 0 t then snap (PI / 2 - atan_unit (/ t))
  else snap (- (PI / 2) - atan_unit (/ t)).

Definition atan2 (y x : Q) : Q :=
  if negb (Qle_bool x 0) then atan (y / x)
  else if negb (Qle_bool 0 x) then
    (if Qle_bool 0 y then atan (y / x) + PI else atan (y / x) - PI)
  else if negb (Qle_bool y 0) then PI / 2
  else if negb (Qle_bool 0 y) then - (PI / 2)
  else 0.

#[export] Instance rationalMath : JsMath :=
  {| Math_sin := sin; Math_cos := cos; Math_sqrt := sqrt;
     Math_atan2 := atan2; Math_PI := PI |}.

End RationalMath.

(** ** Sample data

    A token implementation and a small store, used to run the engine. *)

Module Sample.

#[export] Instance tokens : Tokens :=
  {| hashToken := fun t => "sha256(" ++ t ++ ")";
     verifyPassword := fun p h => String.eqb h ("bcrypt(" ++ p ++ ")");
     jwt_sign := fun payload config iat =>
       p_userId payload ++
       match config with AccessConfig => "." | RefreshConfig => ".refresh." end ++
       pretty iat;
     jwt_verify := fun t _ =>
       match String.index 0 "." t with
       | Some n => Decoded (String.substring 0 n t)
       | None => JsonWebTokenError
       end |}.

(** radius 100 m at (-1.9536, 30.0606) *)
Definition clinic : facility_row :=
  {| f_id := "f1"; f_name := "Clinic";
     f_latitude := Some (-19536 # 10000); f_longitude := Some (300606 # 10000);
     f_geofence_radius := Some 100%Z; f_is_active := true |}.

(** an active facility whose coordinates were never registered *)
Definition outpost : facility_row :=
  {| f_id := "f2"; f_name := "Outpost";
     f_latitude := None; f_longitude := None;
     f_geofence_radius := None; f_is_active := true |}.

Definition alice : user_row :=
  {| u_id := "u1"; u_email := "alice@woti.org";
     u_password_hash := "bcrypt(pw)"; u_role := "tester";
     u_facility_id := Some "f1"; u_is_active := true;
     u_last_login_at := None |}.

Definition bob : user_row :=
  {| u_id := "u2"; u_email := "bob@woti.org";
     u_password_hash := "bcrypt(pw2)"; u_role := "tester";
     u_facility_id := Some "f2"; u_is_active := true;
     u_last_login_at := None |}.

(** The store before anyone clocked in; the spatial extension is missing,
    so distances come from the Haversine branch. *)
Definition store : db :=
  {| users := [alice; bob]; facilities := [clinic; outpost];
     attendances := []; activities := [];
     user_sessions := SessionsTable []; user_devices := [];
     spatial := SpatialQueryFails "42883" "function st_distancesphere does not exist";
     next_id := 1%N |}.

Definition noRecord : attendance :=
  {| id := None; user_id := None; facility_id := None;
     clock_in_time := None; clock_out_time := None;
     clock_in_latitude := None; clock_in_longitude := None;
     clock_out_latitude := None; clock_out_longitude := None;
     clock_in_accuracy_meters := None; clock_out_accuracy_meters := None;
     clock_in_distance_meters := None; clock_out_distance_meters := None;
     device_fingerprint := None; validation_status := None;
     status := None; notes := None; synced := None;
     client_timestamp := None; server_timestamp := None;
     device_id := None; sync_version := None;
     conflict_resolution_strategy := None; metadata := None;
     created_at := None;
     absent := [] |}.

(** 2025-12-01T08:00:00Z *)
Definition morning : Z := 1764576000000.

(** The clock-in of the worked example: 40 m accuracy, not mocked, some
    55 m from the clinic. *)
Definition atTheClinic : AttendanceService.clockInData :=
  {| AttendanceService.ci_facility_id := None;
     AttendanceService.ci_clock_in_time := None;
     AttendanceService.ci_clock_in_latitude := Some (-19540 # 10000);
     AttendanceService.ci_clock_in_longitude := Some (300609 # 10000);
     AttendanceService.ci_accuracy := Some (40 # 1);
     AttendanceService.ci_is_mocked := Some false;
     AttendanceService.ci_device_fingerprint := None;
     AttendanceService.ci_device_id := Some "phone-1";
     AttendanceService.ci_client_timestamp := None;
     AttendanceService.ci_synced := None;
     AttendanceService.ci_metadata := None |}.

(** A payload with nothing in it. *)
Definition emptyPayload : AttendanceService.clockInData :=
  {| AttendanceService.ci_facility_id := None;
     AttendanceService.ci_clock_in_time := None;
     AttendanceService.ci_clock_in_latitude := None;
     AttendanceService.ci_clock_in_longitude := None;
     AttendanceService.ci_accuracy := None;
     AttendanceService.ci_is_mocked := None;
     AttendanceService.ci_device_fingerprint := None;
     AttendanceService.ci_device_id := None;
     AttendanceService.ci_client_timestamp := None;
     AttendanceService.ci_synced := None;
     AttendanceService.ci_metadata := None |}.

(** The engine over the rational [Math], with either copy of geofencing.js. *)
Definition validateGeofence :=
  Geofencing.validateGeofence (H := RationalMath.rationalMath).

Definition validateGeofenceSkipping :=
  GeofencingSkipping.validateGeofence (H := RationalMath.rationalMath).

Definition clockIn :=
  AttendanceService.clockIn (H := RationalMath.rationalMath) validateGeofence.

Definition clockOut :=
  AttendanceService.clockOut (H := RationalMath.rationalMath) validateGeofence.

(** The store after Alice's clock-in at the clinic. *)
Definition storeAfterClockIn : db :=
  snd (clockIn morning atTheClinic alice store).

(** The same store with the spatial extension installed; its sphere
    distance is the great-circle distance over the rational [Math]. *)
Definition storeWithPostgis : db :=
  {| users := users store; facilities := facilities store;
     attendances := attendances store; activities := activities store;
     user_sessions := user_sessions store; user_devices := user_devices store;
     spatial :=
       PostgisInstalled (fun lon1 lat1 lon2 lat2 =>
         Geofencing.haversineDistance (H := RationalMath.rationalMath)
           lat1 lon1 lat2 lon2);
     next_id := next_id store |}.

(** Bob, assigned to the outpost, clocks in from Dar es Salaam. *)
Definition farAway : AttendanceService.clockInData :=
  {| AttendanceService.ci_facility_id := None;
     AttendanceService.ci_clock_in_time := None;
     AttendanceService.ci_clock_in_latitude := Some (-68123 # 10000);
     AttendanceService.ci_clock_in_longitude := Some (392894 # 10000);
     AttendanceService.ci_accuracy := Some (20 # 1);
     AttendanceService.ci_is_mocked := Some false;
     AttendanceService.ci_device_fingerprint := None;
     AttendanceService.ci_device_id := Some "phone-2";
     AttendanceService.ci_client_timestamp := None;
     AttendanceService.ci_synced := None;
     AttendanceService.ci_metadata := None |}.

(** A point a little more than 100 m south of the clinic. *)
Definition justOutsideLat : Q := -19545011 # 10000000.
Definition justOutsideLon : Q := 300606 # 10000.

(** Alice has one earlier, completed attendance near the clinic; the
    clock-in time sent by her device lies an hour after [morning]. *)
Definition earlier : attendance :=
  {| id := Some 1%N; user_id := Some "u1"; facility_id := Some "f1";
     clock_in_time := Some (morning + 3600000)%Z;
     clock_out_time := Some (morning + 7200000)%Z;
     clock_in_latitude := Some (-19540 # 10000);
     clock_in_longitude := Some (300609 # 10000);
     clock_out_latitude := None; clock_out_longitude := None;
     clock_in_accuracy_meters := None; clock_out_accuracy_meters := None;
     clock_in_distance_meters := None; clock_out_distance_meters := None;
     device_fingerprint := None; validation_status := Some "unverified";
     status := Some "completed"; notes := None; synced := Some true;
     client_timestamp := Some (morning + 3600000)%Z;
     server_timestamp := Some morning;
     device_id := Some "phone-1"; sync_version := Some 1%Z;
     conflict_resolution_strategy := Some "server_wins"; metadata := Some ∅;
     created_at := Some morning;
     absent := [] |}.

Definition storeWithHistory : db :=
  with_next_id (with_attendances store [earlier]) 2%N.

(** Alice clocked in near the clinic one minute before [morning]. *)
Definition recent : attendance :=
  {| id := Some 1%N; user_id := Some "u1"; facility_id := Some "f1";
     clock_in_time := Some (morning - 60000)%Z;
     clock_out_time := Some (morning - 30000)%Z;
     clock_in_latitude := Some (-19540 # 10000);
     clock_in_longitude := Some (300609 # 10000);
     clock_out_latitude := None; clock_out_longitude := None;
     clock_in_accuracy_meters := Some (40 # 1); clock_out_accuracy_meters := None;
     clock_in_distance_meters := Some (56 # 1); clock_out_distance_meters := None;
     device_fingerprint := None; validation_status := Some "verified";
     status := Some "completed"; notes := None; synced := Some true;
     client_timestamp := Some (morning - 60000)%Z;
     server_timestamp := Some (morning - 60000)%Z;
     device_id := Some "phone-1"; sync_version := Some 1%Z;
     conflict_resolution_strategy := Some "server_wins"; metadata := Some ∅;
     created_at := Some (morning - 60000)%Z;
     absent := [] |}.

Definition storeWithRecent : db :=
  with_next_id (with_attendances store [recent]) 2%N.

(** A reading on the equator, some 217 km north of the clinic, and one a
    few metres further north. *)
Definition onTheEquator : SpoofingDetection.locationData :=
  {| SpoofingDetection.ld_latitude := Some (0 # 1);
     SpoofingDetection.ld_longitude := Some (300609 # 10000);
     SpoofingDetection.ld_accuracy := Some (40 # 1);
     SpoofingDetection.ld_is_mocked := Some false |}.

Definition offTheEquator : SpoofingDetection.locationData :=
  {| SpoofingDetection.ld_latitude := Some (1 # 10000);
     SpoofingDetection.ld_longitude := Some (300609 # 10000);
     SpoofingDetection.ld_accuracy := Some (40 # 1);
     SpoofingDetection.ld_is_mocked := Some false |}.

(** Offline records of Alice's phone: one taken the day before, one taken
    31 days before, one with no device id. *)
Definition offline (device : option string) (taken : Z) : attendance :=
  {| id := None; user_id := None; facility_id := Some "f1";
     clock_in_time := Some taken; clock_out_time := Some (taken + 3600000)%Z;
     clock_in_latitude := Some (-19540 # 10000);
     clock_in_longitude := Some (300609 # 10000);
     clock_out_latitude := None; clock_out_longitude := None;
     clock_in_accuracy_meters := None; clock_out_accuracy_meters := None;
     clock_in_distance_meters := None; clock_out_distance_meters := None;
     device_fingerprint := None; validation_status := None;
     status := Some "completed"; notes := None; synced := Some false;
     client_timestamp := Some taken; server_timestamp := None;
     device_id := device; sync_version := Some 1%Z;
     conflict_resolution_strategy := Some "client_wins"; metadata := None;
     created_at := None;
     absent := [] |}.

Definition msPerDay : Z := 86400000.

Definition yesterday : attendance := offline (Some "phone-1") (morning - msPerDay).
Definition lastMonth : attendance := offline (Some "phone-1") (morning - 31 * msPerDay).

(** Alice's phone sends a revision of [earlier], with version 2. *)
Definition revised : attendance :=
  {| id := None; user_id := Some "u1"; facility_id := Some "f1";
     clock_in_time := Some (morning + 3600000)%Z;
     clock_out_time := Some (morning + 9000000)%Z;
     clock_in_latitude := Some (-19540 # 10000);
     clock_in_longitude := Some (300609 # 10000);
     clock_out_latitude := None; clock_out_longitude := None;
     clock_in_accuracy_meters := None; clock_out_accuracy_meters := None;
     clock_in_distance_meters := None; clock_out_distance_meters := None;
     device_fingerprint := None; validation_status := None;
     status := Some "completed"; notes := Some "left late"; synced := Some false;
     client_timestamp := Some (morning + 3600000)%Z; server_timestamp := None;
     device_id := Some "phone-1"; sync_version := Some 2%Z;
     conflict_resolution_strategy := Some "server_wins"; metadata := None;
     created_at := None;
     absent := [] |}.

(** [{ ...record, sync_version: version }] *)
Definition withVersion (r : attendance) (version : Z) : attendance :=
  {| id := id r; user_id := user_id r; facility_id := facility_id r;
     clock_in_time := clock_in_time r; clock_out_time := clock_out_time r;
     clock_in_latitude := clock_in_latitude r;
     clock_in_longitude := clock_in_longitude r;
     clock_out_latitude := clock_out_latitude r;
     clock_out_longitude := clock_out_longitude r;
     clock_in_accuracy_meters := clock_in_accuracy_meters r;
     clock_out_accuracy_meters := clock_out_accuracy_meters r;
     clock_in_distance_meters := clock_in_distance_meters r;
     clock_out_distance_meters := clock_out_distance_meters r;
     device_fingerprint := device_fingerprint r;
     validation_status := validation_status r;
     status := status r; notes := notes r; synced := synced r;
     client_timestamp := client_timestamp r;
     server_timestamp := server_timestamp r;
     device_id := device_id r; sync_version := Some version;
     conflict_resolution_strategy := conflict_resolution_strategy r;
     metadata := metadata r; created_at := created_at r;
     absent := List.filter (fun k => negb (String.eqb k "sync_version")) (absent r) |}.

(** [{ ...record, status: status }] *)
Definition withStatus (r : attendance) (st : string) : attendance :=
  {| id := id r; user_id := user_id r; facility_id := facility_id r;
     clock_in_time := clock_in_time r; clock_out_time := clock_out_time r;
     clock_in_latitude := clock_in_latitude r;
     clock_in_longitude := clock_in_longitude r;
     clock_out_latitude := clock_out_latitude r;
     clock_out_longitude := clock_out_longitude r;
     clock_in_accuracy_meters := clock_in_accuracy_meters r;
     clock_out_accuracy_meters := clock_out_accuracy_meters r;
     clock_in_distance_meters := clock_in_distance_meters r;
     clock_out_distance_meters := clock_out_distance_meters r;
     device_fingerprint := device_fingerprint r;
     validation_status := validation_status r;
     status := Some st; notes := notes r; synced := synced r;
     client_timestamp := client_timestamp r;
     server_timestamp := server_timestamp r;
     device_id := device_id r; sync_version := sync_version r;
     conflict_resolution_strategy := conflict_resolution_strategy r;
     metadata := metadata r; created_at := created_at r;
     absent := List.filter (fun k => negb (String.eqb k "status")) (absent r) |}.



(** Alice's phone sends yesterday's shift, which is over, with status
    'active'; the sync stores it as sent. *)
Definition overButActive : attendance := withStatus yesterday "active".

Definition storeWithOpenStatus : db :=
  snd (AttendanceService.syncOfflineRecords morning [overButActive] alice store).

(** Yesterday's record sent with version -1 and then with version 0, in
    one batch; and the store after that sync. *)
Definition storeAtVersionZero : db :=
  snd (AttendanceService.syncOfflineRecords morning
         [withVersion yesterday (-1); withVersion yesterday 0] alice store).

(** The store before the sessions migration was run. *)
Definition storeBeforeMigration : db :=
  with_sessions store
    (SessionsUnavailable "42P01" "relation user_sessions does not exist").

(** Alice logs in at [morning] and again a minute later. *)
Definition firstLogin : outcome AuthService.loginResult * db :=
  AuthService.login (Some (24%Z, "h")) morning "alice@woti.org" "pw"
                    None None None store.

Definition secondLogin : outcome AuthService.loginResult * db :=
  AuthService.login (Some (24%Z, "h")) (morning + 60000) "alice@woti.org" "pw"
                    None None None (snd firstLogin).

(** Alice logs in again 400 ms after her first login. *)
Definition loginWithinTheSecond : outcome AuthService.loginResult * db :=
  AuthService.login (Some (24%Z, "h")) (morning + 400) "alice@woti.org" "pw"
                    None None None (snd firstLogin).

(** Two logins of Alice that overlap, five seconds apart: login awaits
    invalidateUserSessions and then createSession, outside any transaction,
    so the second login may end the active sessions before the first has
    inserted its own. *)
Definition sessionAt (now : Z) : SessionsRepository.sessionData :=
  {| SessionsRepository.sd_user_id := "u1";
     SessionsRepository.sd_token := generateAccessToken alice now;
     SessionsRepository.sd_device_fingerprint := None;
     SessionsRepository.sd_ip_address := None;
     SessionsRepository.sd_user_agent := None;
     SessionsRepository.sd_expires_at :=
       AuthService.getTokenExpirationDate (Some (24%Z, "h")) now |}.

Definition overlappingLogins : db :=
  let d1 := snd (SessionsRepository.invalidateUserSessions
                   morning "u1" "new_login" None store) in
  let d2 := snd (SessionsRepository.invalidateUserSessions
                   (morning + 5000) "u1" "new_login" None d1) in
  let d3 := snd (SessionsRepository.createSession morning (sessionAt morning) d2) in
  snd (SessionsRepository.createSession (morning + 5000)
         (sessionAt (morning + 5000)) d3).

Definition resultOf (run : outcome AuthService.loginResult * db)
  : AuthService.loginResult :=
  match fst run with
  | Return r => r
  | Throw _ => {| AuthService.user := alice; AuthService.token := EmptyString;
                  AuthService.refreshToken := EmptyString |}
  end.

(** The row of Alice's clock-in. *)
Definition firstShift : attendance :=
  hd noRecord (attendances storeAfterClockIn).

(** The same clock-in taken offline and sent later, and one whose reading
    is marked as mocked by the device. *)
Definition takenOffline : AttendanceService.clockInData :=
  {| AttendanceService.ci_facility_id := None;
     AttendanceService.ci_clock_in_time := Some morning;
     AttendanceService.ci_clock_in_latitude := Some (-19540 # 10000);
     AttendanceService.ci_clock_in_longitude := Some (300609 # 10000);
     AttendanceService.ci_accuracy := None;
     AttendanceService.ci_is_mocked := None;
     AttendanceService.ci_device_fingerprint := None;
     AttendanceService.ci_device_id := Some "phone-1";
     AttendanceService.ci_client_timestamp := Some morning;
     AttendanceService.ci_synced := Some false;
     AttendanceService.ci_metadata := None |}.

Definition mocked : AttendanceService.clockInData :=
  {| AttendanceService.ci_facility_id := None;
     AttendanceService.ci_clock_in_time := None;
     AttendanceService.ci_clock_in_latitude := Some (-19540 # 10000);
     AttendanceService.ci_clock_in_longitude := Some (300609 # 10000);
     AttendanceService.ci_accuracy := Some (40 # 1);
     AttendanceService.ci_is_mocked := Some true;
     AttendanceService.ci_device_fingerprint := None;
     AttendanceService.ci_device_id := Some "phone-1";
     AttendanceService.ci_client_timestamp := None;
     AttendanceService.ci_synced := None;
     AttendanceService.ci_metadata := None |}.

(** A clock-in at the clinic's coordinates that names a facility which is
    not in the table. *)
Definition atNowhere : AttendanceService.clockInData :=
  {| AttendanceService.ci_facility_id := Some "f9";
     AttendanceService.ci_clock_in_time := None;
     AttendanceService.ci_clock_in_latitude := Some (-19540 # 10000);
     AttendanceService.ci_clock_in_longitude := Some (300609 # 10000);
     AttendanceService.ci_accuracy := Some (40 # 1);
     AttendanceService.ci_is_mocked := Some false;
     AttendanceService.ci_device_fingerprint := None;
     AttendanceService.ci_device_id := Some "phone-1";
     AttendanceService.ci_client_timestamp := None;
     AttendanceService.ci_synced := None;
     AttendanceService.ci_metadata := None |}.

(** Alice leaves the clinic: a clock-out from the same spot, and one
    without a position. *)
Definition leaving : AttendanceService.clockOutData :=
  {| AttendanceService.co_clock_out_time := None;
     AttendanceService.co_clock_out_latitude := Some (-19540 # 10000);
     AttendanceService.co_clock_out_longitude := Some (300609 # 10000);
     AttendanceService.co_accuracy := Some (35 # 1);
     AttendanceService.co_is_mocked := Some false;
     AttendanceService.co_synced := None;
     AttendanceService.co_notes := Some "end of shift";
     AttendanceService.co_metadata := None |}.

Definition leavingBlind : AttendanceService.clockOutData :=
  {| AttendanceService.co_clock_out_time := None;
     AttendanceService.co_clock_out_latitude := None;
     AttendanceService.co_clock_out_longitude := None;
     AttendanceService.co_accuracy := None;
     AttendanceService.co_is_mocked := None;
     AttendanceService.co_synced := None;
     AttendanceService.co_notes := None;
     AttendanceService.co_metadata := None |}.

(** The clock-out an hour after [morning]. *)
Definition afternoon : Z := morning + 3600000.

Definition shiftEnd : outcome attendance * db :=
  clockOut afternoon leaving alice storeAfterClockIn.

Definition completedShift : attendance :=
  match fst shiftEnd with Return a => a | Throw _ => noRecord end.

(** Yesterday's offline record, stamped with Alice's id as the service
    does, and the store after its first sync. *)
Definition stamped : attendance := AttendanceService.withUserId yesterday "u1".

Definition storeAfterSync : db :=
  snd (AttendanceRepository.bulkSync morning [stamped] store).

(** Alice as the users table has her after the first login. *)
Definition aliceLoggedIn : user_row :=
  {| u_id := "u1"; u_email := "alice@woti.org";
     u_password_hash := "bcrypt(pw)"; u_role := "tester";
     u_facility_id := Some "f1"; u_is_active := true;
     u_last_login_at := Some morning |}.

(** The limiter's store when "u1" has made 99, and 100, requests in a
    window that ends a minute after [morning]. *)
Definition almostSpent : RateLimiter.store :=
  {| RateLimiter.requests :=
       {[ "u1" := {| RateLimiter.count := 99;
                     RateLimiter.resetTime := (morning + 60000)%Z |} ]};
     RateLimiter.blocked := ∅ |}.

Definition spent : RateLimiter.store :=
  {| RateLimiter.requests :=
       {[ "u1" := {| RateLimiter.count := 100;
                     RateLimiter.resetTime := (morning + 60000)%Z |} ]};
     RateLimiter.blocked := ∅ |}.

End Sample.

(** ** Vocabulary of the statements *)

(** A row counts as the user's active attendance when its status is
    'active' and it has no clock-out time: the WHERE clause of
    findActiveByUserId. *)
Definition activeFor (userId : string) (r : attendance) : Prop :=
  user_id r = Some userId /\ status r = Some "active" /\ clock_out_time r = None.

(** A facility that exists and is active but lacks a coordinate. *)
Definition unconfigured (d : db) (facilityId : string) : Prop :=
  exists f, Geofencing.selectActiveFacility d facilityId = Some f /\
            (f_latitude f = None \/ f_longitude f = None).

(** A facility that exists, is active and has both coordinates. *)
Definition configured (d : db) (facilityId : string)
           (f : facility_row) (flat flon : Q) : Prop :=
  Geofencing.selectActiveFacility d facilityId = Some f /\
  f_latitude f = Some flat /\ f_longitude f = Some flon.

(** Two stores that differ at most in the audit log. *)
Definition sameButLog (d d' : db) : Prop :=
  users d' = users d /\ facilities d' = facilities d /\
  attendances d' = attendances d /\ user_sessions d' = user_sessions d /\
  user_devices d' = user_devices d /\ spatial d' = spatial d /\
  next_id d' = next_id d.

(** A recorded or observed location. *)
Definition located (lat lon : Q) (t : Z) : option SpoofingDetection.location :=
  Some {| SpoofingDetection.latitude := Some lat;
          SpoofingDetection.longitude := Some lon;
          SpoofingDetection.timestamp := t |}.

(** The speed in km/h implied by two located readings. *)
Definition impliedSpeed {math : JsMath} (lat1 lon1 : Q) (t0 : Z)
           (lat2 lon2 : Q) (t1 : Z) : Q :=
  (Geofencing.haversineDistance lat1 lon1 lat2 lon2 / 1000
   / (inject_Z (t1 - t0) / inject_Z (1000 * 60 * 60)))%Q.

(** The entries the sync loop has pushed so far. *)
Definition processed (r : AttendanceRepository.syncResults) : nat :=
  length (AttendanceRepository.inserted r) + length (AttendanceRepository.updated r)
  + length (AttendanceRepository.errors r).



(** The version the code reads off a record: 1 when it carries none. *)
Definition versionOf (r : attendance) : Z := default 1%Z (sync_version r).

(** [{ ...record, conflict_resolution_strategy: strategy }] *)
Definition withStrategy (r : attendance) (strategy : option string) : attendance :=
  {| id := id r; user_id := user_id r; facility_id := facility_id r;
     clock_in_time := clock_in_time r; clock_out_time := clock_out_time r;
     clock_in_latitude := clock_in_latitude r;
     clock_in_longitude := clock_in_longitude r;
     clock_out_latitude := clock_out_latitude r;
     clock_out_longitude := clock_out_longitude r;
     clock_in_accuracy_meters := clock_in_accuracy_meters r;
     clock_out_accuracy_meters := clock_out_accuracy_meters r;
     clock_in_distance_meters := clock_in_distance_meters r;
     clock_out_distance_meters := clock_out_distance_meters r;
     device_fingerprint := device_fingerprint r;
     validation_status := validation_status r;
     status := status r; notes := notes r; synced := synced r;
     client_timestamp := client_timestamp r;
     server_timestamp := server_timestamp r;
     device_id := device_id r; sync_version := sync_version r;
     conflict_resolution_strategy := strategy;
     metadata := metadata r; created_at := created_at r;
     absent := List.filter
                 (fun k => negb (String.eqb k "conflict_resolution_strategy"))
                 (absent r) |}.

(** The rows of [user_sessions], when the table can be read. *)
Definition sessionRows (d : db) : list session_row :=
  match user_sessions d with
  | SessionsTable rows => rows
  | SessionsUnavailable _ _ => []
  end.

(** WHERE user_id = $1 AND is_active = TRUE *)
Definition activeSessionOf (userId : string) (s : session_row) : bool :=
  String.eqb (s_user_id s) userId && s_is_active s.

(** What the login of [userId] at time [now] does to one earlier row. *)
Definition supersede (now : Z) (userId : string) (s : session_row) : session_row :=
  if activeSessionOf userId s
  then SessionsRepository.invalidated now "new_login" s
  else s.

Definition bearer (token : string) : option string := Some ("Bearer " ++ token).

Definition sessionInvalidated : AuthMiddleware.response :=
  AuthMiddleware.Json 401 "Session expired. Please log in again."
                      (Some "SESSION_INVALIDATED").


(** Neither record has the field, and in the same way: both read [null]
    or both read [undefined]. *)
Definition unsetAlike (key : string) (c s : attendance) : Prop :=
  key ∈ absent c <-> key ∈ absent s.

(** Two readings of a field that a strict comparison finds equal. *)
Definition sameReading {A} (key : string) (field : attendance -> option A)
           (c s : attendance) : Prop :=
  match field c, field s with
  | Some x, Some y => x = y
  | None, None => unsetAlike key c s
  | _, _ => False
  end.

(** Two readings of a time field that the resolver treats as equal: both
    set and, when both are dates, at most one second apart; or neither
    set, in the same way. *)
Definition withinASecond (key : string) (field : attendance -> option Z)
           (c s : attendance) : Prop :=
  match field c, field s with
  | Some x, Some y =>
      JS.validDate x = true -> JS.validDate y = true -> (Z.abs (x - y) <= 1000)%Z
  | None, None => unsetAlike key c s
  | _, _ => False
  end.

(** The age limit of pre-validation, in milliseconds. *)
Definition thirtyDays : Z := 30 * SyncResolver.msPerDay.

(** Requests served in order, each with its time and identifier: how many
    of those made by [identifier] reach [next()]. *)
Fixpoint admitted (o : RateLimiter.options) (identifier : string)
         (requests : list (Z * string)) (s : RateLimiter.store) : nat :=
  match requests with
  | [] => 0
  | (t, caller) :: rest =>
      let '(v, s1) := RateLimiter.createRateLimiter o t caller s in
      (match v with
       | RateLimiter.Next _ _ _ => if String.eqb caller identifier then 1 else 0
       | _ => 0
       end) + admitted o identifier rest s1
  end.
(** * Properties *)

(** ** Comparisons on numbers *)

Lemma Qleb_le a b : JS.Qleb a b = true <-> (a <= b)%Q.
Proof. apply Qle_bool_iff. Qed.

Lemma Qltb_lt a b : JS.Qltb a b = true <-> (a < b)%Q.
Proof.
  unfold JS.Qltb. rewrite negb_true_iff.
  split.
  - intros Hf. apply Qnot_le_lt. intros Hle.
    apply Qle_bool_iff in Hle. congruence.
  - intros Hlt. destruct (Qle_bool b a) eqn:E; [|reflexivity].
    apply Qle_bool_iff in E. lra.
Qed.

(** ** The worked example of the specification *)

Example clinic_distance :
  Qfloor (Geofencing.haversineDistance (H := RationalMath.rationalMath)
            (-19536 # 10000) (300606 # 10000) (-19540 # 10000) (300609 # 10000))
  = 55%Z.
Proof. vm_compute. reflexivity. Qed.

Example clock_in_at_the_clinic :
  exists a d,
    Sample.clockIn Sample.morning Sample.atTheClinic Sample.alice Sample.store
    = (Return a, d) /\
    validation_status a = Some "verified" /\
    status a = Some "active" /\
    clock_in_distance_meters a = Some (inject_Z 56) /\
    attendances d = [a].
Proof. vm_compute. eexists _, _. repeat split; reflexivity. Qed.

(** ** The clock-in state machine *)

Lemma later_keeps (l : list attendance) (b : attendance) :
  exists a, fold_left SpoofingDetection.later l (Some b) = Some a.
Proof.
  revert b. induction l as [|r l IH]; intros b; simpl.
  - eauto.
  - destruct (clock_in_time b) as [tb|], (clock_in_time r) as [tr|];
      try destruct (tb <? tr)%Z; apply IH.
Qed.

Lemma latest_found (keep : attendance -> bool) (d : db) (r : attendance) :
  In r (attendances d) -> keep r = true ->
  exists a, AttendanceRepository.latest keep d = Some a.
Proof.
  intros Hin Hkeep. unfold AttendanceRepository.latest.
  assert (Hf : In r (List.filter keep (attendances d)))
    by (apply filter_In; split; assumption).
  destruct (List.filter keep (attendances d)) as [|x l]; [destruct Hf|].
  simpl. apply later_keeps.
Qed.

Lemma latest_kept (keep : attendance -> bool) (d : db) (a : attendance) :
  AttendanceRepository.latest keep d = Some a ->
  In a (attendances d) /\ keep a = true.
Proof.
  unfold AttendanceRepository.latest.
  assert (G : forall l best,
             fold_left SpoofingDetection.later l best = Some a ->
             best = Some a \/ In a l).
  { induction l as [|r l IH]; intros best Hb; simpl in *.
    - left; assumption.
    - destruct (IH _ Hb) as [Hl|Hl]; [|right; right; assumption].
      destruct best as [b|]; simpl in Hl.
      + destruct (clock_in_time b) as [tb|], (clock_in_time r) as [tr|];
          try destruct (tb <? tr)%Z; inversion Hl; subst; auto.
      + inversion Hl; subst; auto. }
  intros Hl. destruct (G _ _ Hl) as [Hn|Hin]; [discriminate|].
  apply filter_In in Hin. exact Hin.
Qed.


Lemma isActiveOf_spec (userId : string) (r : attendance) :
  AttendanceRepository.isActiveOf userId r = true <-> activeFor userId r.
Proof.
  unfold AttendanceRepository.isActiveOf, activeFor.
  destruct (user_id r) as [u|], (status r) as [st|], (clock_out_time r) as [t|];
    split; try (intros [? [? ?]]; discriminate); try discriminate.
  - intros Hb. apply andb_true_iff in Hb as [Hu Hs].
    apply String.eqb_eq in Hu, Hs. subst. auto.
  - intros [Hu [Hs _]]. inversion Hu; inversion Hs; subst.
    rewrite !String.eqb_refl. reflexivity.
Qed.

(** C1. A user who has an attendance row with status 'active' (and no
    clock-out time, as findActiveByUserId selects it) cannot clock in: for
    every payload, valid or not, and whichever geofence validator is
    linked, clockIn throws 'You already have an active clock-in' and
    leaves the store as it was. The check comes first: no payload field
    is read before it. *)
Theorem clockIn_rejects_second_clock_in
        (math : JsMath)
        (validateGeofence : db -> string -> Q -> Q -> outcome Geofencing.result)
        (now : Z) (payload : AttendanceService.clockInData)
        (user : user_row) (d : db) (r : attendance) :
  In r (attendances d) ->
  activeFor (u_id user) r ->
  AttendanceService.clockIn validateGeofence now payload user d
  = (Throw AlreadyClockedIn, d).
Proof.
  intros Hin Hact.
  destruct (latest_found (AttendanceRepository.isActiveOf (u_id user)) d r Hin)
    as [a Ha]; [apply isActiveOf_spec; exact Hact|].
  unfold AttendanceService.clockIn, mbind, M_bind, bind, gets.
  unfold AttendanceRepository.findActiveByUserId. rewrite Ha. reflexivity.
Qed.

Lemma clockIn_rejects_second_clock_in_witness :
  AttendanceService.clockIn (H := RationalMath.rationalMath)
    Sample.validateGeofenceSkipping Sample.morning
    Sample.emptyPayload Sample.alice Sample.storeAfterClockIn
  = (Throw AlreadyClockedIn, Sample.storeAfterClockIn).
Proof.
  apply (clockIn_rejects_second_clock_in RationalMath.rationalMath
           Sample.validateGeofenceSkipping Sample.morning Sample.emptyPayload
           Sample.alice Sample.storeAfterClockIn
           (hd Sample.noRecord (attendances Sample.storeAfterClockIn))).
  - vm_compute. left. reflexivity.
  - vm_compute. repeat split; reflexivity.
Defined.

(** A row with status 'active' does not suffice. A phone may sync a shift
    that is over with status 'active': bulkSync stores the status as sent,
    beside the clock-out time. findActiveByUserId passes such a row over,
    and the user's next clock-in is accepted, which leaves two rows with
    status 'active'. *)
Lemma clock_in_accepted_beside_an_active_row :
  (exists r, In r (attendances Sample.storeWithOpenStatus) /\
             user_id r = Some (u_id Sample.alice) /\ status r = Some "active" /\
             clock_out_time r = Some (Sample.morning - 82800000)%Z) /\
  AttendanceRepository.findActiveByUserId Sample.storeWithOpenStatus (u_id Sample.alice)
  = None /\
  (exists row,
      fst (Sample.clockIn Sample.morning Sample.atTheClinic Sample.alice
             Sample.storeWithOpenStatus) = Return row /\
      id row = Some 2%N /\ status row = Some "active") /\
  fst (Sample.clockIn Sample.morning Sample.atTheClinic Sample.alice
         Sample.storeWithOpenStatus) <> Throw AlreadyClockedIn /\
  List.map status
    (attendances (snd (Sample.clockIn Sample.morning Sample.atTheClinic Sample.alice
                         Sample.storeWithOpenStatus)))
  = [Some "active"; Some "active"].
Proof.
  split; [|split; [|split; [|split]]].
  - exists (hd Sample.noRecord (attendances Sample.storeWithOpenStatus)).
    vm_compute. split; [left; reflexivity|repeat split; reflexivity].
  - vm_compute. reflexivity.
  - eexists. split; [vm_compute; reflexivity|]. split; reflexivity.
  - vm_compute. discriminate.
  - vm_compute. reflexivity.
Qed.

(** ** The geofence validator *)

Section GeofenceFacts.
Context {math : JsMath}.


Lemma fallback_blocks_unconfigured (d : db) (facilityId : string) (lat lon : Q) :
  unconfigured d facilityId ->
  Geofencing.error (Geofencing.fallback d facilityId lat lon) = Some FacilityNotConfigured /\
  Geofencing.isWithinGeofence (Geofencing.fallback d facilityId lat lon) = false.
Proof.
  intros [f [Hf Hnull]]. unfold Geofencing.fallback. rewrite Hf.
  destruct (f_latitude f), (f_longitude f), Hnull; try discriminate; auto.
Qed.

Lemma selectWithDistance_skips_unconfigured (d : db) (facilityId : string) (lat lon : Q) :
  unconfigured d facilityId ->
  Geofencing.selectWithDistance d facilityId lon lat = Return None \/
  exists code message,
    Geofencing.selectWithDistance d facilityId lon lat = Throw (DbError code message).
Proof.
  intros [f [Hf Hnull]]. unfold Geofencing.selectWithDistance.
  destruct (spatial d) as [dist|code message]; [left|right; eauto].
  rewrite Hf.
  destruct (f_latitude f), (f_longitude f), Hnull; try discriminate; reflexivity.
Qed.

(** The first copy of geofencing.js never lets a facility without
    coordinates pass: it answers with the 'Facility location not
    configured' error, or rethrows the driver error of the first query. *)
Lemma validateGeofence_blocks_unconfigured (d : db) (facilityId : string) (lat lon : Q) :
  unconfigured d facilityId ->
  (exists r, Geofencing.validateGeofence d facilityId lat lon = Return r /\
             Geofencing.error r = Some FacilityNotConfigured /\
             Geofencing.isWithinGeofence r = false) \/
  (exists code message,
      Geofencing.validateGeofence d facilityId lat lon = Throw (DbError code message) /\
      Geofencing.isPostgisError code message = false).
Proof.
  intros Hu. unfold Geofencing.validateGeofence.
  destruct (selectWithDistance_skips_unconfigured d facilityId lat lon Hu)
    as [-> | [code [message ->]]].
  - left. eexists; split; [reflexivity|].
    apply fallback_blocks_unconfigured; assumption.
  - destruct (Geofencing.isPostgisError code message) eqn:E.
    + left. eexists; split; [reflexivity|].
      apply fallback_blocks_unconfigured; assumption.
    + right. eauto.
Qed.

Lemma validateGeofence_reads (d d' : db) (facilityId : string) (lat lon : Q) :
  facilities d' = facilities d -> spatial d' = spatial d ->
  Geofencing.validateGeofence d' facilityId lat lon
  = Geofencing.validateGeofence d facilityId lat lon.
Proof.
  intros Hf Hs.
  unfold Geofencing.validateGeofence, Geofencing.selectWithDistance,
    Geofencing.fallback, Geofencing.selectActiveFacility.
  rewrite Hf, Hs. reflexivity.
Qed.

(** On the PostGIS branch the verdict compares the rounded distance. *)
Lemma validateGeofence_postgis (d : db) (facilityId : string) (f : facility_row)
      (flat flon lat lon : Q) (sphere : Q -> Q -> Q -> Q -> Q) :
  configured d facilityId f flat flon ->
  spatial d = PostgisInstalled sphere ->
  exists r,
    Geofencing.validateGeofence d facilityId lat lon = Return r /\
    Geofencing.error r = None /\
    Geofencing.isWithinGeofence r
    = (JS.Math_round (sphere flon flat lon lat) <=? Geofencing.radius_of f)%Z.
Proof.
  intros [Hf [Hlat Hlon]] Hs.
  unfold Geofencing.validateGeofence, Geofencing.selectWithDistance.
  rewrite Hs, Hf, Hlat, Hlon. eexists; repeat split.
Qed.

(** On the Haversine branch the verdict compares the distance itself. *)
Lemma validateGeofence_haversine (d : db) (facilityId : string) (f : facility_row)
      (flat flon lat lon : Q) (code message : string) :
  configured d facilityId f flat flon ->
  spatial d = SpatialQueryFails code message ->
  Geofencing.isPostgisError code message = true ->
  exists r,
    Geofencing.validateGeofence d facilityId lat lon = Return r /\
    Geofencing.error r = None /\
    Geofencing.isWithinGeofence r
    = JS.Qleb (Geofencing.haversineDistance flat flon lat lon)
              (inject_Z (Geofencing.radius_of f)).
Proof.
  intros [Hf [Hlat Hlon]] Hs Hpg.
  unfold Geofencing.validateGeofence, Geofencing.selectWithDistance.
  rewrite Hs, Hpg. unfold Geofencing.fallback. rewrite Hf, Hlat, Hlon.
  eexists; repeat split.
Qed.

(** Haversine branch: within the geofence exactly when the great-circle
    distance is at most the radius, the boundary included. *)
Lemma haversine_branch_within_iff (d : db) (facilityId : string) (f : facility_row)
      (flat flon lat lon : Q) (code message : string) :
  configured d facilityId f flat flon ->
  spatial d = SpatialQueryFails code message ->
  Geofencing.isPostgisError code message = true ->
  exists r,
    Geofencing.validateGeofence d facilityId lat lon = Return r /\
    (Geofencing.isWithinGeofence r = true <->
     (Geofencing.haversineDistance flat flon lat lon
      <= inject_Z (Geofencing.radius_of f))%Q).
Proof.
  intros Hc Hs Hpg.
  destruct (validateGeofence_haversine d facilityId f flat flon lat lon code message
              Hc Hs Hpg) as [r [Hr [_ Hw]]].
  exists r. split; [exact Hr|]. rewrite Hw. apply Qleb_le.
Qed.

End GeofenceFacts.

(** ** The spoofing detector leaves the attendance table alone *)

Lemma sameButLog_refl (d : db) : sameButLog d d.
Proof. repeat split. Qed.

Lemma sameButLog_insertActivity (a : activity_row) (d : db) :
  sameButLog d (insertActivity a d).
Proof. repeat split. Qed.

Lemma runSpoofingChecks_returns {math : JsMath} (now : Z)
      (ld : SpoofingDetection.locationData) (userId : string) (d : db) :
  exists c d',
    SpoofingDetection.runSpoofingChecks now ld userId d = (Return c, d') /\
    sameButLog d d'.
Proof.
  unfold SpoofingDetection.runSpoofingChecks.
  destruct (negb (userId =? EmptyString)%string && JS.truthy_onum (SpoofingDetection.ld_latitude ld)
            && JS.truthy_onum (SpoofingDetection.ld_longitude ld)).
  - cbv [mbind M_bind bind gets].
    destruct (SpoofingDetection.getLastAttendanceWithLocation d userId) as [last|].
    + match goal with
      | |- context [if SpoofingDetection.suspicious ?s then _ else _] =>
          destruct (SpoofingDetection.suspicious s)
      end.
      * cbv [mbind M_bind bind SpoofingDetection.logSuspiciousActivity modify mret M_ret ret].
        eexists _, _. split; [reflexivity|]. apply sameButLog_insertActivity.
      * eexists _, _. split; [reflexivity|]. apply sameButLog_refl.
    + eexists _, _. split; [reflexivity|]. apply sameButLog_refl.
  - eexists _, _. split; [reflexivity|]. apply sameButLog_refl.
Qed.

(** Close a goal [exists e d', run = (Throw e, d') /\ attendances d' = _]
    once the run has reduced to a throw. *)
Ltac thrown H :=
  eexists _, _; split; [reflexivity | first [reflexivity | apply H]].

Lemma clockIn_blocked_when_unconfigured {math : JsMath} (now : Z)
      (payload : AttendanceService.clockInData) (user : user_row) (d : db)
      (facilityId : string) :
  AttendanceService.online (AttendanceService.ci_synced payload) = true ->
  JS.or_str (AttendanceService.ci_facility_id payload) (u_facility_id user)
  = Some facilityId ->
  unconfigured d facilityId ->
  exists e d',
    AttendanceService.clockIn Geofencing.validateGeofence now payload user d
    = (Throw e, d') /\
    attendances d' = attendances d.
Proof.
  intros Honline Hfac Hu.
  unfold AttendanceService.clockIn. cbv [mbind M_bind bind gets].
  destruct (AttendanceRepository.findActiveByUserId d (u_id user));
    [thrown I|].
  rewrite Hfac, Honline.
  destruct (negb (JS.truthy_ostr (Some facilityId))); [thrown I|].
  destruct (negb (Validators.isValid _)); [thrown I|].
  destruct (AttendanceService.ci_accuracy payload) as [accuracy|]; [|thrown I].
  destruct (JS.Qltb _ accuracy); [thrown I|].
  match goal with
  | |- context [SpoofingDetection.runSpoofingChecks now ?ld ?u d] =>
      destruct (runSpoofingChecks_returns now ld u d) as [c [d1 [Hrun Hsame]]]
  end.
  rewrite Hrun.
  assert (Hatt : attendances d1 = attendances d) by apply Hsame.
  destruct (negb (SpoofingDetection.passed c)); [thrown Hatt|].
  destruct (SpoofingDetection.warnings c);
    (destruct (AttendanceService.ci_clock_in_latitude payload) as [latitude|];
     [|thrown Hatt];
     destruct (AttendanceService.ci_clock_in_longitude payload) as [longitude|];
     [|thrown Hatt];
     unfold lift; simpl (default _ _);
     rewrite (validateGeofence_reads d d1) by apply Hsame;
     destruct (validateGeofence_blocks_unconfigured d facilityId latitude longitude Hu)
       as [[r [Hr [He Hw]]] | [code [message [Hr _]]]];
     rewrite Hr; [rewrite He|]; thrown Hatt).
Qed.

Lemma clockOut_blocked_when_unconfigured {math : JsMath} (now : Z)
      (payload : AttendanceService.clockOutData) (user : user_row) (d : db)
      (a : attendance) (facilityId : string) :
  AttendanceService.online (AttendanceService.co_synced payload) = true ->
  AttendanceRepository.findActiveByUserId d (u_id user) = Some a ->
  facility_id a = Some facilityId ->
  unconfigured d facilityId ->
  exists e d',
    AttendanceService.clockOut Geofencing.validateGeofence now payload user d
    = (Throw e, d') /\
    attendances d' = attendances d.
Proof.
  intros Honline Ha Hfac Hu.
  unfold AttendanceService.clockOut. cbv [mbind M_bind bind gets].
  rewrite Ha, Honline, Hfac.
  destruct (negb (Validators.isValid _)); [thrown I|].
  destruct (AttendanceService.co_accuracy payload) as [accuracy|]; [|thrown I].
  destruct (JS.Qltb _ accuracy); [thrown I|].
  match goal with
  | |- context [SpoofingDetection.runSpoofingChecks now ?ld ?u d] =>
      destruct (runSpoofingChecks_returns now ld u d) as [c [d1 [Hrun Hsame]]]
  end.
  rewrite Hrun.
  assert (Hatt : attendances d1 = attendances d) by apply Hsame.
  destruct (negb (SpoofingDetection.passed c)); [thrown Hatt|].
  destruct (SpoofingDetection.warnings c);
    (destruct (AttendanceService.co_clock_out_latitude payload) as [latitude|];
     [|thrown Hatt];
     destruct (AttendanceService.co_clock_out_longitude payload) as [longitude|];
     [|thrown Hatt];
     unfold lift; simpl (default _ _);
     rewrite (validateGeofence_reads d d1) by apply Hsame;
     destruct (validateGeofence_blocks_unconfigured d facilityId latitude longitude Hu)
       as [[r [Hr [He Hw]]] | [code [message [Hr _]]]];
     rewrite Hr; [rewrite He|]; thrown Hatt).
Qed.

(** The second copy lets the same facility pass, with a warning only. *)
Lemma skipping_copy_passes_unconfigured {math : JsMath} (d : db) (facilityId : string)
      (lat lon : Q) (sphere : Q -> Q -> Q -> Q -> Q) :
  unconfigured d facilityId ->
  spatial d = PostgisInstalled sphere ->
  exists r,
    GeofencingSkipping.validateGeofence d facilityId lat lon = Return r /\
    Geofencing.isWithinGeofence r = true /\
    Geofencing.error r = None /\
    Geofencing.distance r = None.
Proof.
  intros [f [Hf Hnull]] Hs.
  unfold GeofencingSkipping.validateGeofence, Geofencing.selectWithDistance,
    GeofencingSkipping.fallback.
  rewrite Hs, Hf.
  destruct (f_latitude f), (f_longitude f), Hnull; try discriminate;
    eexists; repeat split.
Qed.

(** Where the facility has its coordinates and the first query succeeds,
    the two copies give the same answer. *)
Lemma copies_agree_when_configured {math : JsMath} (d : db) (facilityId : string)
      (f : facility_row) (flat flon lat lon : Q) (sphere : Q -> Q -> Q -> Q -> Q) :
  configured d facilityId f flat flon ->
  spatial d = PostgisInstalled sphere ->
  GeofencingSkipping.validateGeofence d facilityId lat lon
  = Geofencing.validateGeofence d facilityId lat lon.
Proof.
  intros [Hf [Hlat Hlon]] Hs.
  unfold GeofencingSkipping.validateGeofence, Geofencing.validateGeofence,
    Geofencing.selectWithDistance.
  rewrite Hs, Hf, Hlat, Hlon. reflexivity.
Qed.

Example outpost_unconfigured : unconfigured Sample.storeWithPostgis "f2".
Proof. exists Sample.outpost. split; [reflexivity|left; reflexivity]. Qed.

(** C2. With the second copy of geofencing.js linked, a clock-in against an
    active facility whose coordinates are NULL is not blocked: the
    validator answers isWithinGeofence = true with a warning, and a payload
    sent from hundreds of kilometres away is persisted as a 'verified'
    attendance with no distance. The first copy blocks the same request
    (validateGeofence_blocks_unconfigured, clockIn_blocked_when_unconfigured). *)
Theorem skipping_copy_accepts_clock_in_anywhere :
  unconfigured Sample.storeWithPostgis "f2" /\
  let run :=
    AttendanceService.clockIn (H := RationalMath.rationalMath)
      Sample.validateGeofenceSkipping Sample.morning Sample.farAway Sample.bob
      Sample.storeWithPostgis in
  match fst run with
  | Return a =>
      facility_id a = Some "f2" /\
      validation_status a = Some "verified" /\
      clock_in_distance_meters a = None /\
      attendances (snd run) = [a]
  | Throw _ => False
  end.
Proof.
  split; [apply outpost_unconfigured|].
  vm_compute. repeat split; reflexivity.
Qed.

(** ** The two branches of the distance comparison *)

(** C4. On the PostGIS branch validateGeofence rounds the sphere distance to
    the nearest metre before comparing it with the radius, so a point whose
    great-circle distance exceeds the radius by less than half a metre is
    reported within the geofence; the Haversine branch of the same
    function, run on the same facility and point, reports it outside. *)
Theorem postgis_branch_accepts_beyond_radius :
  (100 < Geofencing.haversineDistance (H := RationalMath.rationalMath)
           (-19536 # 10000) (300606 # 10000)
           Sample.justOutsideLat Sample.justOutsideLon)%Q /\
  returned (Sample.validateGeofence Sample.storeWithPostgis "f1"
              Sample.justOutsideLat Sample.justOutsideLon)
  = Some {| Geofencing.isWithinGeofence := true;
            Geofencing.distance := Some 100%Z;
            Geofencing.maxRadius := Some 100%Z;
            Geofencing.error := None; Geofencing.warning := None;
            Geofencing.facilityName := Some "Clinic";
            Geofencing.method := Some "postgis" |} /\
  returned (Sample.validateGeofence Sample.store "f1"
              Sample.justOutsideLat Sample.justOutsideLon)
  = Some {| Geofencing.isWithinGeofence := false;
            Geofencing.distance := Some 100%Z;
            Geofencing.maxRadius := Some 100%Z;
            Geofencing.error := None; Geofencing.warning := None;
            Geofencing.facilityName := None;
            Geofencing.method := Some "haversine" |}.
Proof.
  split; [apply Qltb_lt; vm_compute; reflexivity|].
  split; vm_compute; reflexivity.
Qed.

Lemma Qfloor_unique (n : Z) (x : Q) :
  (inject_Z n <= x)%Q -> (x < inject_Z (n + 1))%Q -> Qfloor x = n.
Proof.
  intros Hlo Hhi.
  assert (H1 : (n <= Qfloor x)%Z).
  { apply Qfloor_resp_le in Hlo. rewrite Qfloor_Z in Hlo. exact Hlo. }
  assert (H2 : (Qfloor x < n + 1)%Z).
  { rewrite Zlt_Qlt. eapply Qle_lt_trans; [apply Qfloor_le|exact Hhi]. }
  lia.
Qed.

Lemma Math_round_integer (z : Z) (x : Q) :
  (x == inject_Z z)%Q -> JS.Math_round x = z.
Proof.
  intros Heq. unfold JS.Math_round. apply Qfloor_unique.
  - rewrite Heq. lra.
  - rewrite Heq, inject_Z_plus. change (inject_Z 1) with 1%Q. lra.
Qed.

(** A point at exactly the radius is within the geofence on both branches. *)
Lemma boundary_is_within {math : JsMath} (d : db) (facilityId : string)
      (f : facility_row) (flat flon lat lon : Q) :
  configured d facilityId f flat flon ->
  (forall sphere, spatial d = PostgisInstalled sphere ->
     (sphere flon flat lon lat == inject_Z (Geofencing.radius_of f))%Q ->
     Geofencing.isWithinGeofence <$>
       returned (Geofencing.validateGeofence d facilityId lat lon) = Some true) /\
  (forall code message, spatial d = SpatialQueryFails code message ->
     Geofencing.isPostgisError code message = true ->
     (Geofencing.haversineDistance flat flon lat lon
      == inject_Z (Geofencing.radius_of f))%Q ->
     Geofencing.isWithinGeofence <$>
       returned (Geofencing.validateGeofence d facilityId lat lon) = Some true).
Proof.
  intros Hc. split.
  - intros sphere Hs Heq.
    destruct (validateGeofence_postgis d facilityId f flat flon lat lon sphere Hc Hs)
      as [r [-> [_ Hw]]].
    simpl. rewrite Hw. f_equal. apply Z.leb_le.
    rewrite (Math_round_integer _ _ Heq). lia.
  - intros code message Hs Hpg Heq.
    destruct (validateGeofence_haversine d facilityId f flat flon lat lon code message
                Hc Hs Hpg) as [r [-> [_ Hw]]].
    simpl. rewrite Hw. f_equal. apply Qleb_le. rewrite Heq. apply Qle_refl.
Qed.

(** ** The impossible-speed check *)

Lemma hours_nonpositive (e : Z) :
  (inject_Z e / inject_Z (1000 * 60 * 60) <= 0)%Q <-> (e <= 0)%Z.
Proof.
  assert (Hk : (0 < inject_Z (1000 * 60 * 60))%Q) by (vm_compute; reflexivity).
  split.
  - intros H. rewrite Zle_Qle. change (inject_Z 0) with 0%Q.
    assert (E : (inject_Z e == inject_Z e / inject_Z (1000 * 60 * 60)
                              * inject_Z (1000 * 60 * 60))%Q)
      by (field; lra).
    rewrite E. rewrite <- (Qmult_0_l (inject_Z (1000 * 60 * 60))).
    apply Qmult_le_compat_r; [exact H|lra].
  - intros H. apply Qle_shift_div_r; [exact Hk|].
    rewrite Qmult_0_l. rewrite Zle_Qle in H. exact H.
Qed.

Lemma truthy_num_nonzero (q : Q) : ~ (q == 0)%Q -> JS.truthy_num q = true.
Proof.
  intros Hq. unfold JS.truthy_num. apply negb_true_iff.
  destruct (Qeq_bool q 0) eqn:E; [|reflexivity].
  apply Qeq_bool_iff in E. contradiction.
Qed.

(** Away from latitude 0 and longitude 0, a reading is flagged exactly when
    the elapsed time is not positive or the implied speed exceeds
    150 km/h. *)
Lemma impossible_speed_iff {math : JsMath} (lat1 lon1 lat2 lon2 : Q) (t0 t1 : Z) :
  ~ (lat1 == 0)%Q -> ~ (lon1 == 0)%Q -> ~ (lat2 == 0)%Q -> ~ (lon2 == 0)%Q ->
  SpoofingDetection.suspicious
    (SpoofingDetection.detectImpossibleSpeed (located lat1 lon1 t0) (located lat2 lon2 t1))
  = true
  <-> (t1 - t0 <= 0)%Z \/ (150 < impliedSpeed lat1 lon1 t0 lat2 lon2 t1)%Q.
Proof.
  intros H1 H2 H3 H4.
  unfold SpoofingDetection.detectImpossibleSpeed, located; simpl.
  rewrite !truthy_num_nonzero by assumption. simpl.
  destruct (JS.Qleb (inject_Z (t1 - t0) / inject_Z (1000 * 60 * 60)) 0) eqn:E.
  - apply (proj1 (Qleb_le _ _)) in E. apply (proj1 (hours_nonpositive _)) in E.
    simpl.
    split; [intros _; left; exact E|reflexivity].
  - assert (Hpos : ~ (t1 - t0 <= 0)%Z).
    { intros Hle. apply (proj2 (hours_nonpositive _)) in Hle.
      apply (proj2 (Qleb_le _ _)) in Hle. congruence. }
    match goal with
    | |- context [if JS.Qltb ?a ?b then _ else _] => destruct (JS.Qltb a b) eqn:F
    end; simpl.
    + apply (proj1 (Qltb_lt _ _)) in F.
      split; [intros _; right; exact F|reflexivity].
    + split; [discriminate|].
      intros [Hle|Hlt]; [contradiction|].
      apply (proj2 (Qltb_lt _ _)) in Hlt. unfold impliedSpeed in Hlt.
      unfold SpoofingDetection.MAX_SPEED_KMH in F. congruence.
Qed.

(** Without an earlier located attendance the speed check is skipped. *)
Lemma no_history_no_speed_flag {math : JsMath} (now : Z)
      (ld : SpoofingDetection.locationData) (userId : string) (d : db) :
  SpoofingDetection.getLastAttendanceWithLocation d userId = None ->
  exists c,
    SpoofingDetection.runSpoofingChecks now ld userId d = (Return c, d) /\
    ~ In "impossible_speed" (SpoofingDetection.flags c).
Proof.
  intros Hnone. unfold SpoofingDetection.runSpoofingChecks.
  destruct (negb (userId =? EmptyString)%string
            && JS.truthy_onum (SpoofingDetection.ld_latitude ld)
            && JS.truthy_onum (SpoofingDetection.ld_longitude ld));
    [cbv [mbind M_bind bind gets]; rewrite Hnone|];
    (eexists; split; [reflexivity|];
     destruct (fst (SpoofingDetection.detectMockLocation
                      (SpoofingDetection.ld_is_mocked ld)));
     destruct (negb (SpoofingDetection.valid
                       (SpoofingDetection.validateGpsAccuracy
                          (SpoofingDetection.ld_accuracy ld))));
     destruct (SpoofingDetection.acc_warning
                 (SpoofingDetection.validateGpsAccuracy
                    (SpoofingDetection.ld_accuracy ld)));
     simpl; intuition discriminate).
Qed.

(** C5. A reading with latitude 0 (the equator) passes validateGpsCoordinates
    but is falsy in the guard of runSpoofingChecks, so the speed check is
    skipped: one minute after a located clock-in 217 km away, an implied
    speed of some 13000 km/h, the checks pass with no flag, whatever [Math]
    computes. The same reading a few metres further north is flagged
    'impossible_speed'. *)
Theorem equator_reading_skips_speed_check :
  Validators.isValid
    (Validators.validateGpsCoordinates
       (SpoofingDetection.ld_latitude Sample.onTheEquator)
       (SpoofingDetection.ld_longitude Sample.onTheEquator)) = true /\
  SpoofingDetection.getLastAttendanceWithLocation Sample.storeWithRecent "u1"
  = Some Sample.recent /\
  (0 < Sample.morning - (Sample.morning - 60000))%Z /\
  (150 < impliedSpeed (math := RationalMath.rationalMath)
           (-19540 # 10000) (300609 # 10000) (Sample.morning - 60000)
           (0 # 1) (300609 # 10000) Sample.morning)%Q /\
  (forall math : JsMath,
      SpoofingDetection.runSpoofingChecks Sample.morning Sample.onTheEquator "u1"
        Sample.storeWithRecent
      = (Return {| SpoofingDetection.passed := true; SpoofingDetection.errors := [];
                   SpoofingDetection.warnings := []; SpoofingDetection.flags := [] |},
         Sample.storeWithRecent)) /\
  fst (SpoofingDetection.runSpoofingChecks (H := RationalMath.rationalMath)
         Sample.morning Sample.offTheEquator "u1" Sample.storeWithRecent)
  = Return {| SpoofingDetection.passed := false;
              SpoofingDetection.errors := [SpeedExceeded 13037];
              SpoofingDetection.warnings := [];
              SpoofingDetection.flags := ["impossible_speed"] |}.
Proof.
  split; [reflexivity|]. split; [reflexivity|]. split; [reflexivity|].
  split; [apply Qltb_lt; vm_compute; reflexivity|].
  split; [intros math; reflexivity|].
  vm_compute. reflexivity.
Qed.

(** ** The conflict resolver *)

Lemma or_int_present (v n : Z) : v <> 0%Z -> JS.or_int (Some v) n = v.
Proof.
  intros Hv. unfold JS.or_int. destruct (v =? 0)%Z eqn:E; [|reflexivity].
  apply Z.eqb_eq in E. contradiction.
Qed.

(** Up to 2^53 a double holds the integer itself. *)
Lemma toDouble_exact (z : Z) : (Z.abs z <= 2 ^ 53)%Z -> JS.toDouble z = z.
Proof.
  intros Hz. unfold JS.toDouble. cbv zeta.
  destruct (Z.abs z <=? 2 ^ 53)%Z eqn:E; [reflexivity|].
  apply Z.leb_gt in E. lia.
Qed.

(** Beyond 2^53 the odd integers are lost: 2^53 + 1 is a tie and goes to
    the even significand, 2^53 + 3 to the one above. *)
Example toDouble_rounds :
  JS.toDouble 9007199254740993 = 9007199254740992%Z /\
  JS.toDouble 9007199254740995 = 9007199254740996%Z /\
  JS.toDouble (-9007199254740993) = (-9007199254740992)%Z /\
  JS.toDouble 18014398509481989 = 18014398509481988%Z /\
  JS.plus 9007199254740992 1 = 9007199254740992%Z.
Proof. repeat split; vm_compute; reflexivity. Qed.

Lemma isSafeInteger_spec (z : Z) :
  JS.isSafeInteger z = true <-> (Z.abs z <= 2 ^ 53 - 1)%Z.
Proof. unfold JS.isSafeInteger. apply Z.leb_le. Qed.

(** Adding 1 to a safe integer is exact. *)
Lemma plus_one_exact (z : Z) : JS.isSafeInteger z = true -> JS.plus z 1 = (z + 1)%Z.
Proof.
  intros Hz. apply isSafeInteger_spec in Hz. unfold JS.plus.
  apply toDouble_exact. lia.
Qed.

(** A version that is not 0 is read as it is, a missing one as 1. *)
Lemma or_int_versionOf (r : attendance) :
  sync_version r <> Some 0%Z -> JS.or_int (sync_version r) 1 = versionOf r.
Proof.
  unfold versionOf, JS.or_int. destruct (sync_version r) as [v|]; [|reflexivity].
  intros Hv. destruct (v =? 0)%Z eqn:E; [|reflexivity].
  apply Z.eqb_eq in E. subst v. contradiction.
Qed.


(** The server's id and creation time survive any merge. *)
Lemma merge_keeps_identity (now : Z) (c s : attendance) (preference : string) :
  id (SyncResolver.mergeRecords now c s preference) = id s /\
  created_at (SyncResolver.mergeRecords now c s preference) = created_at s.
Proof. split; reflexivity. Qed.




(** ** Pre-validation of sync records *)

Lemma days_old (now ts : Z) :
  (30 * SyncResolver.msPerDay < now - ts)%Z ->
  JS.Qltb 30 (inject_Z (now - ts) / inject_Z SyncResolver.msPerDay) = true.
Proof.
  intros H. apply Qltb_lt. apply Qlt_shift_div_l; [vm_compute; reflexivity|].
  change 30%Q with (inject_Z 30). rewrite <- inject_Z_mult, <- Zlt_Qlt. exact H.
Qed.

(** A record older than 30 days gets an entry in [errors], and [isValid]
    is computed from that same list: the record is invalid. *)
Lemma stale_timestamp_invalidates (now : Z) (r : attendance) (ts : Z) :
  JS.truthy_ostr (device_id r) = true ->
  client_timestamp r = Some ts -> JS.validDate ts = true ->
  (30 * SyncResolver.msPerDay < now - ts)%Z ->
  SyncResolver.validateSyncMetadata now r
  = {| SyncResolver.isValid := false;
       SyncResolver.errors := ["client_timestamp is more than 30 days old"] |}.
Proof.
  intros Hdev Hts Hdate Hold. unfold SyncResolver.validateSyncMetadata.
  rewrite Hdev, Hts, Hdate, (days_old _ _ Hold). simpl.
  assert (Hnf : (now <? ts)%Z = false).
  { apply Z.ltb_ge. unfold SyncResolver.msPerDay in Hold. lia. }
  rewrite Hnf. reflexivity.
Qed.

(** A record from the future is invalid. *)
Lemma future_timestamp_invalidates (now : Z) (r : attendance) (ts : Z) :
  client_timestamp r = Some ts -> JS.validDate ts = true -> (now < ts)%Z ->
  SyncResolver.isValid (SyncResolver.validateSyncMetadata now r) = false /\
  In "client_timestamp is in the future"
     (SyncResolver.errors (SyncResolver.validateSyncMetadata now r)).
Proof.
  intros Hts Hdate Hfut. unfold SyncResolver.validateSyncMetadata. rewrite Hts, Hdate.
  cbn [negb].
  apply Z.ltb_lt in Hfut. rewrite Hfut. simpl.
  split.
  - destruct (negb (JS.truthy_ostr (device_id r))); simpl; [reflexivity|].
    destruct (JS.Qltb 30 _); reflexivity.
  - apply in_or_app. right. apply in_or_app. right. left. reflexivity.
Qed.

(** C7. A record with a device id and a client timestamp 31 days old fails
    pre-validation, with the message 'client_timestamp is more than 30 days
    old' as a validation error; in a batch it is reported under
    validation_errors and only the other record reaches the table. *)
Theorem month_old_record_is_rejected :
  SyncResolver.validateSyncMetadata Sample.morning Sample.lastMonth
  = {| SyncResolver.isValid := false;
       SyncResolver.errors := ["client_timestamp is more than 30 days old"] |} /\
  let run :=
    AttendanceService.syncOfflineRecords Sample.morning
      [Sample.yesterday; Sample.lastMonth] Sample.alice Sample.store in
  match fst run with
  | Return resp =>
      AttendanceService.success resp = true /\
      List.map AttendanceService.ve_index (AttendanceService.validation_errors resp) = [1%nat] /\
      List.map AttendanceService.ve_errors (AttendanceService.validation_errors resp)
      = [["client_timestamp is more than 30 days old"]] /\
      AttendanceService.sync_summary resp
      = Some {| AttendanceService.total_submitted := 2;
                AttendanceService.valid_records := 1;
                AttendanceService.sum_inserted := 1;
                AttendanceService.sum_updated := 0;
                AttendanceService.failed := 0;
                AttendanceService.sum_validation_errors := 1 |} /\
      List.map client_timestamp (attendances (snd run))
      = [client_timestamp Sample.yesterday]
  | Throw _ => False
  end.
Proof.
  split; [reflexivity|]. vm_compute. repeat split; reflexivity.
Qed.

(** ** Batches with one malformed record *)




Lemma syncRecord_accounts (now : Z)
      (acc : AttendanceRepository.syncResults * AttendanceRepository.tx)
      (r : attendance) :
  processed (fst (AttendanceRepository.syncRecord now acc r)) <= S (processed (fst acc)).
Proof.
  destruct acc as [results t]. unfold AttendanceRepository.syncRecord.
  cbn [fst]. destruct (AttendanceRepository.tx_aborted t).
  - unfold processed; cbn. rewrite length_app. cbn. lia.
  - destruct (AttendanceRepository.selectExisting (AttendanceRepository.tx_db t) r)
      as [[|existing rest]|e].
    + destruct (AttendanceRepository.violation _ _); unfold processed; cbn;
        rewrite length_app; cbn; lia.
    + destruct (AttendanceRepository.isNewer r existing).
      * destruct (AttendanceRepository.violation _ _); unfold processed; cbn;
          rewrite length_app; cbn; lia.
      * cbn. lia.
    + unfold processed; cbn. rewrite length_app. cbn. lia.
Qed.

(** The loop pushes at most one entry for each record handed to it. *)
Lemma sync_accounts (now : Z) (records : list attendance)
      (acc : AttendanceRepository.syncResults * AttendanceRepository.tx) :
  processed (fst (fold_left (AttendanceRepository.syncRecord now) records acc))
  <= processed (fst acc) + length records.
Proof.
  revert acc. induction records as [|r rest IH]; intros acc; cbn [fold_left length].
  - lia.
  - specialize (IH (AttendanceRepository.syncRecord now acc r)).
    pose proof (syncRecord_accounts now acc r). lia.
Qed.

Lemma bulkSync_returns (now : Z) (records : list attendance) (d : db) :
  exists sr d',
    AttendanceRepository.bulkSync now records d = (Return sr, d') /\
    processed sr <= length records.
Proof.
  unfold AttendanceRepository.bulkSync.
  pose proof (sync_accounts now records
    ({| AttendanceRepository.inserted := []; AttendanceRepository.updated := [];
        AttendanceRepository.errors := [] |},
     {| AttendanceRepository.tx_db := d; AttendanceRepository.tx_aborted := false |}))
    as Hacc.
  destruct (fold_left _ records _) as [results t]. cbn in Hacc.
  eexists _, _. split; [reflexivity|]. exact Hacc.
Qed.









Lemma sync_loop_invariant (now : Z) (d : db) (records : list attendance)
      (acc : AttendanceRepository.syncResults * AttendanceRepository.tx) :
  (if AttendanceRepository.tx_aborted (snd acc)
   then exists first rest code,
       AttendanceRepository.errors (fst acc) = first :: rest /\
       AttendanceRepository.se_error first = AttendanceRepository.constraintError code /\
       Forall (fun e => AttendanceRepository.se_error e
                        = AttendanceRepository.abortedError) rest
   else AttendanceRepository.errors (fst acc) = [] /\
        length (attendances (AttendanceRepository.tx_db (snd acc)))
        = length (attendances d) + length (AttendanceRepository.inserted (fst acc)) /\
        users (AttendanceRepository.tx_db (snd acc)) = users d /\
        facilities (AttendanceRepository.tx_db (snd acc)) = facilities d /\
        user_sessions (AttendanceRepository.tx_db (snd acc)) = user_sessions d) ->
  let acc' := fold_left (AttendanceRepository.syncRecord now) records acc in
  if AttendanceRepository.tx_aborted (snd acc')
  then exists first rest code,
      AttendanceRepository.errors (fst acc') = first :: rest /\
      AttendanceRepository.se_error first = AttendanceRepository.constraintError code /\
      Forall (fun e => AttendanceRepository.se_error e
                       = AttendanceRepository.abortedError) rest
  else AttendanceRepository.errors (fst acc') = [] /\
       length (attendances (AttendanceRepository.tx_db (snd acc')))
       = length (attendances d) + length (AttendanceRepository.inserted (fst acc')) /\
       users (AttendanceRepository.tx_db (snd acc')) = users d /\
       facilities (AttendanceRepository.tx_db (snd acc')) = facilities d /\
       user_sessions (AttendanceRepository.tx_db (snd acc')) = user_sessions d.
Proof.
  revert acc. induction records as [|r rest IH]; intros acc Hacc; [exact Hacc|].
  cbn [fold_left]. apply IH. clear IH.
  destruct acc as [results t]. cbn [fst snd] in *.
  unfold AttendanceRepository.syncRecord.
  destruct (AttendanceRepository.tx_aborted t) eqn:Hab.
  - cbn [fst snd]. rewrite Hab.
    destruct Hacc as (first & others & code & He & Hfirst & Hothers).
    exists first, (others ++ [{| AttendanceRepository.se_record := r;
                                AttendanceRepository.se_error :=
                                  AttendanceRepository.abortedError |}])%list, code.
    cbn. rewrite He. split; [reflexivity|]. split; [exact Hfirst|].
    apply Forall_app. split; [exact Hothers|]. constructor; [reflexivity|constructor].
  - destruct Hacc as (He & Hlen & Hu & Hf & Hs).
    unfold AttendanceRepository.selectExisting.
    destruct (AttendanceRepository.timestampError (client_timestamp r)) as [code|].
    { cbn. eexists _, [], code. rewrite He. repeat split. constructor. }
    destruct (List.filter _ _) as [|existing others].
    + destruct (AttendanceRepository.violation _ _) as [code|]; cbn.
      * eexists _, [], code. rewrite He. repeat split. constructor.
      * rewrite !length_app, Hlen. cbn. repeat split; try assumption. lia.
    + destruct (AttendanceRepository.isNewer r existing).
      * destruct (AttendanceRepository.violation _ _) as [code|]; cbn.
        -- eexists _, [], code. rewrite He. repeat split. constructor.
        -- unfold AttendanceRepository.updateWhere. rewrite length_map.
           repeat split; assumption.
      * cbn. rewrite Hab. repeat split; assumption.
Qed.



(** ** The persisted sync path *)

Lemma selectExisting_ignores_strategy (d : db) (record : attendance)
      (strategy : option string) :
  AttendanceRepository.selectExisting d (withStrategy record strategy)
  = AttendanceRepository.selectExisting d record.
Proof. reflexivity. Qed.

(** The comparison of the loop, for a record whose version is not 0. *)
Lemma isNewer_versionOf (record existing : attendance) (sv : Z) :
  sync_version record <> Some 0%Z -> sync_version existing = Some sv ->
  AttendanceRepository.isNewer record existing = (sv <? versionOf record)%Z.
Proof.
  intros Hcv Hsv. unfold AttendanceRepository.isNewer.
  rewrite Hsv, or_int_versionOf by assumption. reflexivity.
Qed.

(** One turn of the loop on an open transaction, for a record that finds
    a row. *)
Lemma syncRecord_found (now : Z) (results : AttendanceRepository.syncResults) (d : db)
      (record existing : attendance) (rest : list attendance) :
  AttendanceRepository.selectExisting d record = Return (existing :: rest) ->
  let t := {| AttendanceRepository.tx_db := d;
              AttendanceRepository.tx_aborted := false |} in
  let row := AttendanceRepository.updatedRow record existing in
  AttendanceRepository.syncRecord now (results, t) record
  = if AttendanceRepository.isNewer record existing then
      match AttendanceRepository.violation d row with
      | Some code =>
          (AttendanceRepository.pushError results record
             (AttendanceRepository.constraintError code),
           {| AttendanceRepository.tx_db := d; AttendanceRepository.tx_aborted := true |})
      | None =>
          (AttendanceRepository.pushUpdated results row,
           {| AttendanceRepository.tx_db :=
                with_attendances d
                  (AttendanceRepository.updateWhere
                     (AttendanceRepository.hasId (id existing)) (fun _ => row)
                     (attendances d));
              AttendanceRepository.tx_aborted := false |})
      end
    else (results, t).
Proof.
  intros Hsel. cbv zeta. unfold AttendanceRepository.syncRecord.
  cbn [AttendanceRepository.tx_aborted AttendanceRepository.tx_db].
  rewrite Hsel. reflexivity.
Qed.

(** C9. For a record that finds a server row on (device_id,
    client_timestamp) and whose sync_version is not 0, a missing version
    counting as 1: bulkSync leaves the store and the results untouched
    unless that version is strictly greater than the row's. When it is,
    the row is rewritten and committed, and its sync_version is the
    record's own (not max + 1), or the row's + 1 when the record carries
    none; or the update is refused by the table, only an error entry is
    returned and the store is as before. The same holds for the record
    at any place of a batch, on the store as the records before it left
    it. No outcome depends on the record's conflict_resolution_strategy. *)
Theorem bulkSync_applies_newer_versions_only
        (now : Z) (d : db) (record existing : attendance) (rest : list attendance)
        (sv : Z) :
  AttendanceRepository.selectExisting d record = Return (existing :: rest) ->
  sync_version record <> Some 0%Z ->
  sync_version existing = Some sv ->
  let nothing := {| AttendanceRepository.inserted := [];
                    AttendanceRepository.updated := [];
                    AttendanceRepository.errors := [] |} in
  let open := {| AttendanceRepository.tx_db := d;
                 AttendanceRepository.tx_aborted := false |} in
  let row := AttendanceRepository.updatedRow record existing in
  let d' := with_attendances d
              (AttendanceRepository.updateWhere
                 (AttendanceRepository.hasId (id existing)) (fun _ => row)
                 (attendances d)) in
  (~ (sv < versionOf record)%Z ->
   AttendanceRepository.bulkSync now [record] d = (Return nothing, d) /\
   forall results,
     AttendanceRepository.syncRecord now (results, open) record = (results, open)) /\
  ((sv < versionOf record)%Z ->
   (forall v, sync_version record = Some v ->
              sync_version row = Some v /\ sync_version row <> Some (Z.max v sv + 1)%Z) /\
   (sync_version record = None -> JS.isSafeInteger sv = true ->
    sync_version row = Some (sv + 1)%Z) /\
   ((AttendanceRepository.bulkSync now [record] d
     = (Return (AttendanceRepository.pushUpdated nothing row), d') /\
     forall results,
       AttendanceRepository.syncRecord now (results, open) record
       = (AttendanceRepository.pushUpdated results row,
          {| AttendanceRepository.tx_db := d';
             AttendanceRepository.tx_aborted := false |})) \/
    (exists code,
        AttendanceRepository.bulkSync now [record] d
        = (Return (AttendanceRepository.pushError nothing record
                     (AttendanceRepository.constraintError code)), d) /\
        forall results,
          AttendanceRepository.syncRecord now (results, open) record
          = (AttendanceRepository.pushError results record
               (AttendanceRepository.constraintError code),
             {| AttendanceRepository.tx_db := d;
                AttendanceRepository.tx_aborted := true |})))) /\
  (forall strategy,
      exists res res' d1,
        AttendanceRepository.bulkSync now [record] d = (Return res, d1) /\
        AttendanceRepository.bulkSync now [withStrategy record strategy] d
        = (Return res', d1) /\
        AttendanceRepository.inserted res' = AttendanceRepository.inserted res /\
        AttendanceRepository.updated res' = AttendanceRepository.updated res /\
        List.map AttendanceRepository.se_error (AttendanceRepository.errors res')
        = List.map AttendanceRepository.se_error (AttendanceRepository.errors res)).
Proof.
  intros Hsel Hcv Hsv nothing open row d'.
  pose proof (isNewer_versionOf record existing sv Hcv Hsv) as Hnew.
  assert (Hstep : forall results,
             AttendanceRepository.syncRecord now (results, open) record
             = if (sv <? versionOf record)%Z then
                 match AttendanceRepository.violation d row with
                 | Some code =>
                     (AttendanceRepository.pushError results record
                        (AttendanceRepository.constraintError code),
                      {| AttendanceRepository.tx_db := d;
                         AttendanceRepository.tx_aborted := true |})
                 | None =>
                     (AttendanceRepository.pushUpdated results row,
                      {| AttendanceRepository.tx_db := d';
                         AttendanceRepository.tx_aborted := false |})
                 end
               else (results, open)).
  { intros results. rewrite <- Hnew.
    exact (syncRecord_found now results d record existing rest Hsel). }
  assert (Hbulk : AttendanceRepository.bulkSync now [record] d
                  = let '(results, t) :=
                      AttendanceRepository.syncRecord now (nothing, open) record in
                    (Return results,
                     if AttendanceRepository.tx_aborted t then d
                     else AttendanceRepository.tx_db t)) by reflexivity.
  split; [|split].
  - intros Hle. assert (Hf : (sv <? versionOf record)%Z = false) by (apply Z.ltb_ge; lia).
    split.
    + rewrite Hbulk, Hstep, Hf. reflexivity.
    + intros results. rewrite Hstep, Hf. reflexivity.
  - intros Hlt. assert (Ht : (sv <? versionOf record)%Z = true) by (apply Z.ltb_lt; lia).
    split; [|split].
    + intros v Hv. assert (Hrow : sync_version row = Some v).
      { unfold row, AttendanceRepository.updatedRow; cbn [sync_version].
        rewrite Hsv, Hv. apply f_equal, or_int_present.
        intros ->. apply Hcv. exact Hv. }
      split; [exact Hrow|]. rewrite Hrow. intros E. inversion E as [E'].
      unfold versionOf in Hlt. rewrite Hv in Hlt. cbn in Hlt. lia.
    + intros Hnone Hsafe.
      unfold row, AttendanceRepository.updatedRow; cbn [sync_version].
      rewrite Hsv, Hnone. cbn [JS.or_int]. rewrite plus_one_exact by exact Hsafe.
      reflexivity.
    + destruct (AttendanceRepository.violation d row) as [code|] eqn:Ev.
      * right. exists code. split.
        -- rewrite Hbulk, Hstep, Ht. reflexivity.
        -- intros results. rewrite Hstep, Ht. reflexivity.
      * left. split.
        -- rewrite Hbulk, Hstep, Ht. reflexivity.
        -- intros results. rewrite Hstep, Ht. reflexivity.
  - intros strategy.
    assert (Hstep' : AttendanceRepository.syncRecord now (nothing, open)
                       (withStrategy record strategy)
                     = if AttendanceRepository.isNewer record existing then
                         match AttendanceRepository.violation d row with
                         | Some code =>
                             (AttendanceRepository.pushError nothing
                                (withStrategy record strategy)
                                (AttendanceRepository.constraintError code),
                              {| AttendanceRepository.tx_db := d;
                                 AttendanceRepository.tx_aborted := true |})
                         | None =>
                             (AttendanceRepository.pushUpdated nothing row,
                              {| AttendanceRepository.tx_db := d';
                                 AttendanceRepository.tx_aborted := false |})
                         end
                       else (nothing, open)).
    { apply (syncRecord_found now nothing d (withStrategy record strategy) existing rest).
      rewrite selectExisting_ignores_strategy. exact Hsel. }
    assert (Hbulk' : AttendanceRepository.bulkSync now [withStrategy record strategy] d
                     = let '(results, t) :=
                         AttendanceRepository.syncRecord now (nothing, open)
                           (withStrategy record strategy) in
                       (Return results,
                        if AttendanceRepository.tx_aborted t then d
                        else AttendanceRepository.tx_db t)) by reflexivity.
    rewrite Hbulk, Hbulk', Hstep, Hstep', Hnew.
    destruct (sv <? versionOf record)%Z;
      [destruct (AttendanceRepository.violation d row)|];
      eexists _, _, _; repeat split; reflexivity.
Qed.

(** ** Sessions *)

Section SessionFacts.
Context {tok : Tokens}.

Lemma supersede_is_the_update (now : Z) (userId : string) (rows : list session_row) :
  List.map (fun s => if SessionsRepository.targeted userId None s
                     then SessionsRepository.invalidated now "new_login" s else s) rows
  = List.map (supersede now userId) rows.
Proof.
  apply map_ext. intros s.
  unfold supersede, SessionsRepository.targeted, activeSessionOf.
  rewrite andb_true_r. reflexivity.
Qed.

(** What a successful login leaves in [user_sessions]: every earlier row
    superseded, then the new row. *)
Lemma login_sessions (expiresIn : option (Z * string)) (now : Z)
      (email password : string) (ip ua fp : option string)
      (d d' : db) (res : AuthService.loginResult) :
  AuthService.login expiresIn now email password ip ua fp d = (Return res, d') ->
  exists rows new,
    user_sessions d = SessionsTable rows /\
    user_sessions d'
    = SessionsTable
        (List.map (supersede now (u_id (AuthService.user res))) rows ++ [new])%list /\
    s_user_id new = u_id (AuthService.user res) /\
    s_token_hash new = hashToken (AuthService.token res) /\
    s_is_active new = true /\
    s_expires_at new = AuthService.getTokenExpirationDate expiresIn now.
Proof.
  unfold AuthService.login. cbv [mbind M_bind bind gets].
  destruct (List.find _ (users d)) as [u|]; [|discriminate].
  destruct (negb (u_is_active u)); [discriminate|].
  destruct (negb (verifyPassword password (u_password_hash u))).
  { cbv [modify throw]. discriminate. }
  unfold SessionsRepository.invalidateUserSessions, SessionsRepository.createSession.
  destruct (user_sessions d) as [rows|code message] eqn:Hrows; [|discriminate].
  simpl. rewrite supersede_is_the_update.
  destruct (JS.truthy_ostr fp);
    cbv [DevicesRepository.registerDevice modify mret M_ret ret];
    intros Hrun; inversion Hrun; subst; clear Hrun; simpl;
    [destruct (existsb _ (user_devices d))|];
    eexists _, _; repeat split; reflexivity.
Qed.


Lemma supersede_keeps (now : Z) (userId : string) (s : session_row) :
  s_token_hash (supersede now userId s) = s_token_hash s /\
  s_user_id (supersede now userId s) = s_user_id s /\
  s_id (supersede now userId s) = s_id s.
Proof. unfold supersede. destruct (activeSessionOf userId s); repeat split. Qed.

Lemma supersede_ends (now : Z) (userId : string) (s : session_row) :
  activeSessionOf userId (supersede now userId s) = false.
Proof.
  unfold supersede. destruct (activeSessionOf userId s) eqn:E; [|exact E].
  unfold activeSessionOf. simpl. apply andb_false_r.
Qed.

(** An earlier active session of the user ends with reason 'new_login'. *)
Lemma supersede_marks (now : Z) (userId : string) (s : session_row) :
  activeSessionOf userId s = true ->
  s_is_active (supersede now userId s) = false /\
  s_invalidation_reason (supersede now userId s) = Some "new_login" /\
  s_invalidated_at (supersede now userId s) = Some now.
Proof. intros E. unfold supersede. rewrite E. repeat split. Qed.

Lemma no_active_after_supersede (now : Z) (userId : string) (rows : list session_row) :
  List.filter (activeSessionOf userId) (List.map (supersede now userId) rows) = [].
Proof.
  induction rows as [|s rows IH]; simpl; [reflexivity|].
  rewrite supersede_ends. exact IH.
Qed.

Lemma joinUser_skips (d : db) (now : Z) (tokenHash : string) (s : session_row) :
  (s_token_hash s = tokenHash -> s_is_active s = false) ->
  SessionsRepository.joinUser d now tokenHash s = None.
Proof.
  intros H. unfold SessionsRepository.joinUser.
  destruct (String.eqb_spec (s_token_hash s) tokenHash) as [Heq|Hne]; [|reflexivity].
  rewrite (H Heq). reflexivity.
Qed.

Lemma omap_nothing {A B} (f : A -> option B) (l : list A) :
  Forall (fun x => f x = None) l -> omap f l = [].
Proof.
  induction 1 as [|x l Hx _ IH]; simpl; [reflexivity|].
  rewrite Hx. exact IH.
Qed.

Lemma substring_all (s : string) : String.substring 0 (String.length s) s = s.
Proof. induction s as [|c s IH]; simpl; [reflexivity|]. rewrite IH. reflexivity. Qed.

Lemma prefix_nil (s : string) : String.prefix EmptyString s = true.
Proof. destruct s; reflexivity. Qed.

(** What [authenticate] does with a well-formed Authorization header. *)
Lemma authenticate_bearer (now : Z) (token : string) (d : db) :
  AuthMiddleware.authenticate now (bearer token) d
  = match jwt_verify token now with
    | TokenExpiredError => AuthMiddleware.Json 401 "Token expired" (Some "TOKEN_EXPIRED")
    | JsonWebTokenError => AuthMiddleware.Json 401 "Invalid token" (Some "INVALID_TOKEN")
    | OtherJwtError => AuthMiddleware.Json 500 "Authentication failed" None
    | Decoded userId =>
        match SessionsRepository.findActiveSessionByToken now token d with
        | Return None => sessionInvalidated
        | Return (Some (session, user_is_active)) =>
            if negb user_is_active
            then AuthMiddleware.Json 401 "Account deactivated. Please contact administrator."
                                     (Some "ACCOUNT_DEACTIVATED")
            else AuthMiddleware.attachUser d userId (Some (s_id session))
        | Throw _ => AuthMiddleware.attachUser d userId None
        end
    end.
Proof.
  unfold AuthMiddleware.authenticate, bearer, JS.startsWith, JS.substring_from.
  simpl. rewrite prefix_nil, Nat.sub_0_r, substring_all. reflexivity.
Qed.

(** C10. When the session lookup throws (the user_sessions table is
    missing, or any other driver error), [authenticate] goes on without
    session validation: a token that verifies authenticates its user,
    provided the user exists and is active, although no session row backs
    the token. *)
Theorem authenticate_fails_open (now : Z) (token userId : string) (d : db)
        (code message : string) (u : user_row) :
  jwt_verify token now = Decoded userId ->
  user_sessions d = SessionsUnavailable code message ->
  List.find (fun u => String.eqb (u_id u) userId && u_is_active u) (users d) = Some u ->
  SessionsRepository.findActiveSessionByToken now token d = Throw (DbError code message) /\
  sessionRows d = [] /\
  AuthMiddleware.authenticate now (bearer token) d = AuthMiddleware.Next u None.
Proof.
  intros Hjwt Hs Hu.
  assert (Hthrow : SessionsRepository.findActiveSessionByToken now token d
                   = Throw (DbError code message)).
  { unfold SessionsRepository.findActiveSessionByToken. rewrite Hs. reflexivity. }
  repeat split; [exact Hthrow|unfold sessionRows; rewrite Hs; reflexivity|].
  rewrite authenticate_bearer, Hjwt, Hthrow.
  unfold AuthMiddleware.attachUser. rewrite Hu. reflexivity.
Qed.

(** With the table in place, the same token without a session row is
    turned away. *)
Lemma authenticate_needs_session (now : Z) (token userId : string) (d : db) :
  jwt_verify token now = Decoded userId ->
  user_sessions d = SessionsTable [] ->
  AuthMiddleware.authenticate now (bearer token) d = sessionInvalidated.
Proof.
  intros Hjwt Hs. rewrite authenticate_bearer, Hjwt.
  unfold SessionsRepository.findActiveSessionByToken. rewrite Hs. reflexivity.
Qed.

(** The access token depends on the clock through its whole seconds
    only, and on the user's row through the four fields of the payload. *)
Lemma same_second_same_token (user user' : user_row) (now1 now2 : Z) :
  u_id user' = u_id user -> u_email user' = u_email user ->
  u_role user' = u_role user -> u_facility_id user' = u_facility_id user ->
  (now1 / 1000 = now2 / 1000)%Z ->
  generateAccessToken user' now2 = generateAccessToken user now1.
Proof.
  intros Hi He Hr Hf Hs. unfold generateAccessToken.
  rewrite Hi, He, Hr, Hf, Hs. reflexivity.
Qed.

(** The user of a successful login is the row found by e-mail; the token
    is signed for it, and the login updates nothing in [users] but the
    time of the last login. *)
Lemma login_user (expiresIn : option (Z * string)) (now : Z)
      (email password : string) (ip ua fp : option string)
      (d d' : db) (res : AuthService.loginResult) :
  AuthService.login expiresIn now email password ip ua fp d = (Return res, d') ->
  List.find (fun u => String.eqb (u_email u) email) (users d)
  = Some (AuthService.user res) /\
  AuthService.token res = generateAccessToken (AuthService.user res) now /\
  users d' = List.map (AuthService.touchLogin now (u_id (AuthService.user res)))
                      (users d).
Proof.
  unfold AuthService.login. cbv [mbind M_bind bind gets].
  destruct (List.find _ (users d)) as [u|] eqn:Hfind; [|discriminate].
  destruct (u_is_active u) eqn:Hactive; cbn [negb]; [|discriminate].
  destruct (verifyPassword password (u_password_hash u)) eqn:Hpw; cbn [negb].
  2:{ cbv [modify throw]. discriminate. }
  unfold SessionsRepository.invalidateUserSessions, SessionsRepository.createSession.
  destruct (user_sessions d) as [rows|code message] eqn:Hrows; [|discriminate].
  cbn.
  destruct (JS.truthy_ostr fp);
    cbv [DevicesRepository.registerDevice modify mret M_ret ret];
    intros Hrun; inversion Hrun; subst; clear Hrun; cbn;
    [destruct (existsb _ (user_devices d))|];
    repeat split; reflexivity.
Qed.

Lemma find_after_touchLogin (now : Z) (userId email : string) (l : list user_row) :
  List.find (fun u => String.eqb (u_email u) email)
            (List.map (AuthService.touchLogin now userId) l)
  = AuthService.touchLogin now userId
      <$> List.find (fun u => String.eqb (u_email u) email) l.
Proof.
  induction l as [|u l IH]; [reflexivity|]. cbn [List.map List.find].
  assert (He : u_email (AuthService.touchLogin now userId u) = u_email u).
  { unfold AuthService.touchLogin. destruct (String.eqb (u_id u) userId); reflexivity. }
  rewrite He. destruct (String.eqb (u_email u) email); [reflexivity|exact IH].
Qed.

(** A login repeated with the same e-mail within the same second is given
    the token of the first. *)
Lemma relogin_within_the_second (expiresIn : option (Z * string)) (now1 now2 : Z)
      (email password1 password2 : string) (ip1 ua1 fp1 ip2 ua2 fp2 : option string)
      (d0 d1 d2 : db) (res1 res2 : AuthService.loginResult) :
  AuthService.login expiresIn now1 email password1 ip1 ua1 fp1 d0 = (Return res1, d1) ->
  AuthService.login expiresIn now2 email password2 ip2 ua2 fp2 d1 = (Return res2, d2) ->
  (now1 / 1000 = now2 / 1000)%Z ->
  u_id (AuthService.user res2) = u_id (AuthService.user res1) /\
  AuthService.token res2 = AuthService.token res1.
Proof.
  intros Hl1 Hl2 Hsec.
  destruct (login_user _ _ _ _ _ _ _ _ _ _ Hl1) as (Hf1 & Ht1 & Hu1).
  destruct (login_user _ _ _ _ _ _ _ _ _ _ Hl2) as (Hf2 & Ht2 & _).
  rewrite Hu1, find_after_touchLogin, Hf1 in Hf2. cbn in Hf2.
  injection Hf2 as Hres2.
  assert (Hsame : u_id (AuthService.user res2) = u_id (AuthService.user res1)
                  /\ u_email (AuthService.user res2) = u_email (AuthService.user res1)
                  /\ u_role (AuthService.user res2) = u_role (AuthService.user res1)
                  /\ u_facility_id (AuthService.user res2)
                     = u_facility_id (AuthService.user res1)).
  { rewrite <- Hres2. unfold AuthService.touchLogin.
    destruct (String.eqb _ _); repeat split; reflexivity. }
  destruct Hsame as (Hi & He & Hr & Hfa).
  split; [exact Hi|].
  rewrite Ht1, Ht2. apply same_second_same_token; assumption.
Qed.

(** C3. After every successful login the user's earlier active sessions
    are inactive with reason 'new_login', the new row comes after them and
    is the user's only active row; and once the same user has logged in a
    second time, a request bearing the first login's token is answered
    401 SESSION_INVALIDATED. The logins are served one after the other,
    the two tokens hash differently, a stored hash of the first token
    belongs to the user it was issued to, and the first token still
    verifies. A second login with the same e-mail within the second of
    the first is given the first token again, and the active row it
    inserts carries that token's hash. *)
Theorem login_keeps_a_single_session :
  (forall (expiresIn : option (Z * string)) (now : Z) (email password : string)
          (ip ua fp : option string) (d d' : db) (res : AuthService.loginResult),
      AuthService.login expiresIn now email password ip ua fp d = (Return res, d') ->
      exists new,
        sessionRows d'
        = (List.map (supersede now (u_id (AuthService.user res))) (sessionRows d)
           ++ [new])%list /\
        s_token_hash new = hashToken (AuthService.token res) /\
        s_expires_at new = AuthService.getTokenExpirationDate expiresIn now /\
        List.filter (activeSessionOf (u_id (AuthService.user res))) (sessionRows d')
        = [new] /\
        (forall s, In s (sessionRows d) ->
                   activeSessionOf (u_id (AuthService.user res)) s = true ->
                   s_is_active (supersede now (u_id (AuthService.user res)) s) = false /\
                   s_invalidation_reason (supersede now (u_id (AuthService.user res)) s)
                   = Some "new_login")) /\
  (forall (expiresIn : option (Z * string)) (now1 now2 now3 : Z)
          (email1 password1 email2 password2 : string)
          (ip1 ua1 fp1 ip2 ua2 fp2 : option string)
          (d0 d1 d2 : db) (res1 res2 : AuthService.loginResult) (userId : string),
      AuthService.login expiresIn now1 email1 password1 ip1 ua1 fp1 d0 = (Return res1, d1) ->
      AuthService.login expiresIn now2 email2 password2 ip2 ua2 fp2 d1 = (Return res2, d2) ->
      u_id (AuthService.user res2) = u_id (AuthService.user res1) ->
      hashToken (AuthService.token res1) <> hashToken (AuthService.token res2) ->
      (forall s, In s (sessionRows d0) ->
                 s_token_hash s = hashToken (AuthService.token res1) ->
                 s_user_id s = u_id (AuthService.user res1)) ->
      jwt_verify (AuthService.token res1) now3 = Decoded userId ->
      AuthMiddleware.authenticate now3 (bearer (AuthService.token res1)) d2
      = sessionInvalidated) /\
  (forall (expiresIn : option (Z * string)) (now1 now2 : Z)
          (email password1 password2 : string)
          (ip1 ua1 fp1 ip2 ua2 fp2 : option string)
          (d0 d1 d2 : db) (res1 res2 : AuthService.loginResult),
      AuthService.login expiresIn now1 email password1 ip1 ua1 fp1 d0 = (Return res1, d1) ->
      AuthService.login expiresIn now2 email password2 ip2 ua2 fp2 d1 = (Return res2, d2) ->
      (now1 / 1000 = now2 / 1000)%Z ->
      AuthService.token res2 = AuthService.token res1 /\
      exists new,
        In new (sessionRows d2) /\
        s_user_id new = u_id (AuthService.user res1) /\
        s_token_hash new = hashToken (AuthService.token res1) /\
        s_is_active new = true).
Proof.
  split; [|split].
  3:{ intros expiresIn now1 now2 email password1 password2
             ip1 ua1 fp1 ip2 ua2 fp2 d0 d1 d2 res1 res2 Hl1 Hl2 Hsec.
      destruct (relogin_within_the_second _ _ _ _ _ _ _ _ _ _ _ _ _ _ _ _ _
                  Hl1 Hl2 Hsec) as [Hid Htok].
      split; [exact Htok|].
      destruct (login_sessions _ _ _ _ _ _ _ _ _ _ Hl2)
        as [rows1 [new2 [_ [Hd2 [Hu2 [Hh2 [Ha2 _]]]]]]].
      exists new2. unfold sessionRows. rewrite Hd2.
      split; [apply in_or_app; right; left; reflexivity|].
      split; [rewrite Hu2; exact Hid|].
      split; [rewrite Hh2, Htok; reflexivity|exact Ha2]. }
  - intros expiresIn now email password ip ua fp d d' res Hlogin.
    destruct (login_sessions _ _ _ _ _ _ _ _ _ _ Hlogin)
      as [rows [new [Hd [Hd' [Hu [Hh [Ha He]]]]]]].
    exists new. unfold sessionRows. rewrite Hd, Hd'.
    split; [reflexivity|]. split; [exact Hh|]. split; [exact He|]. split.
    + rewrite List.filter_app, no_active_after_supersede. simpl.
      unfold activeSessionOf. rewrite Hu, Ha, String.eqb_refl. reflexivity.
    + intros s _ Hs. destruct (supersede_marks now _ s Hs) as [H1 [H2 _]].
      split; assumption.
  - intros expiresIn now1 now2 now3 email1 password1 email2 password2
           ip1 ua1 fp1 ip2 ua2 fp2 d0 d1 d2 res1 res2 userId
           Hl1 Hl2 Hsame Hdiff Hown Hjwt.
    destruct (login_sessions _ _ _ _ _ _ _ _ _ _ Hl1)
      as [rows0 [new1 [Hd0 [Hd1 [Hu1 [Hh1 [Ha1 _]]]]]]].
    destruct (login_sessions _ _ _ _ _ _ _ _ _ _ Hl2)
      as [rows1 [new2 [Hd1' [Hd2 [Hu2 [Hh2 [Ha2 _]]]]]]].
    rewrite Hd1 in Hd1'. inversion Hd1'; subst rows1; clear Hd1'.
    unfold sessionRows in Hown. rewrite Hd0 in Hown.
    rewrite authenticate_bearer, Hjwt.
    unfold SessionsRepository.findActiveSessionByToken. rewrite Hd2.
    rewrite omap_nothing; [reflexivity|].
    rewrite Hsame.
    apply Forall_app. split.
    + apply List.Forall_forall. intros s Hin. apply in_map_iff in Hin as [s1 [<- Hin1]].
      apply joinUser_skips. intros Hhash.
      destruct (supersede_keeps now2 (u_id (AuthService.user res1)) s1) as [Kh [Ku _]].
      rewrite Kh in Hhash.
      assert (Hmine : s_user_id s1 = u_id (AuthService.user res1)).
      { apply in_app_or in Hin1 as [Hin0|[<-|[]]]; [|exact Hu1].
        apply in_map_iff in Hin0 as [s0 [<- Hin0]].
        destruct (supersede_keeps now1 (u_id (AuthService.user res1)) s0) as [Kh0 [Ku0 _]].
        rewrite Ku0. apply Hown; [exact Hin0|]. rewrite <- Kh0. exact Hhash. }
      pose proof (supersede_ends now2 (u_id (AuthService.user res1)) s1) as Hend.
      unfold activeSessionOf in Hend. rewrite Ku, Hmine, String.eqb_refl in Hend.
      exact Hend.
    + constructor; [|constructor].
      apply joinUser_skips. intros Hhash. rewrite Hh2 in Hhash.
      symmetry in Hhash. contradiction.
Qed.

End SessionFacts.

(** ** The statements on the sample data *)

Lemma login_keeps_a_single_session_witness :
  (exists new,
      sessionRows (snd Sample.secondLogin)
      = (List.map (supersede (Sample.morning + 60000) "u1")
                  (sessionRows (snd Sample.firstLogin)) ++ [new])%list /\
      s_token_hash new = "sha256(u1.1764576060)" /\
      List.filter (activeSessionOf "u1") (sessionRows (snd Sample.secondLogin)) = [new]) /\
  AuthMiddleware.authenticate (H := Sample.tokens) (Sample.morning + 120000)
    (bearer (AuthService.token (Sample.resultOf Sample.firstLogin)))
    (snd Sample.secondLogin)
  = sessionInvalidated.
Proof.
  split.
  - destruct (proj1 (@login_keeps_a_single_session Sample.tokens)
                (Some (24%Z, "h")) (Sample.morning + 60000)%Z "alice@woti.org" "pw"
                None None None (snd Sample.firstLogin) (snd Sample.secondLogin)
                (Sample.resultOf Sample.secondLogin))
      as [new [H1 [H2 [_ [H3 _]]]]].
    + vm_compute. reflexivity.
    + exists new. repeat split; assumption.
  - apply (proj1 (proj2 (@login_keeps_a_single_session Sample.tokens))
             (Some (24%Z, "h")) Sample.morning (Sample.morning + 60000)%Z
             (Sample.morning + 120000)%Z
             "alice@woti.org" "pw" "alice@woti.org" "pw"
             None None None None None None
             Sample.store (snd Sample.firstLogin) (snd Sample.secondLogin)
             (Sample.resultOf Sample.firstLogin) (Sample.resultOf Sample.secondLogin)
             "u1").
    + vm_compute. reflexivity.
    + vm_compute. reflexivity.
    + reflexivity.
    + vm_compute. discriminate.
    + intros s [].
    + vm_compute. reflexivity.
Defined.

(** The first token can outlive a second login. A token is signed from
    the user's row and the clock in whole seconds, so a second login
    within the same second is given the token of the first; its session
    row carries the same hash, and a request bearing the first login's
    token is let through on the new session. And two logins that overlap
    each end the active sessions before either inserts its own: both rows
    stay active, and the first token is let through on its own session. *)
Lemma second_login_can_leave_the_first_token_valid :
  ((exists res1 res2,
       fst Sample.firstLogin = Return res1 /\
       fst Sample.loginWithinTheSecond = Return res2 /\
       AuthService.token res1 = "u1.1764576000" /\
       AuthService.token res2 = AuthService.token res1) /\
   List.map (fun s => (s_token_hash s, s_is_active s))
            (sessionRows (snd Sample.loginWithinTheSecond))
   = [("sha256(u1.1764576000)", false); ("sha256(u1.1764576000)", true)] /\
   AuthMiddleware.authenticate (H := Sample.tokens) (Sample.morning + 120000)
     (bearer (AuthService.token (Sample.resultOf Sample.firstLogin)))
     (snd Sample.loginWithinTheSecond)
   = AuthMiddleware.Next
       (AuthService.touchLogin (Sample.morning + 400) "u1" Sample.alice) (Some 2%N) /\
   AuthMiddleware.authenticate (H := Sample.tokens) (Sample.morning + 120000)
     (bearer (AuthService.token (Sample.resultOf Sample.firstLogin)))
     (snd Sample.loginWithinTheSecond)
   <> sessionInvalidated) /\
  (List.map (fun s => (s_token_hash s, s_is_active s))
            (sessionRows Sample.overlappingLogins)
   = [("sha256(u1.1764576000)", true); ("sha256(u1.1764576005)", true)] /\
   length (List.filter (activeSessionOf "u1") (sessionRows Sample.overlappingLogins))
   = 2 /\
   AuthMiddleware.authenticate (H := Sample.tokens) (Sample.morning + 120000)
     (bearer "u1.1764576000") Sample.overlappingLogins
   = AuthMiddleware.Next Sample.alice (Some 1%N)).
Proof.
  split; [split; [|split; [|split]]|split; [|split]].
  - eexists _, _. split; [vm_compute; reflexivity|].
    split; [vm_compute; reflexivity|]. split; reflexivity.
  - vm_compute. reflexivity.
  - vm_compute. reflexivity.
  - vm_compute. discriminate.
  - vm_compute. reflexivity.
  - vm_compute. reflexivity.
  - vm_compute. reflexivity.
Qed.




Lemma bulkSync_applies_newer_versions_only_witness :
  exists row d',
    AttendanceRepository.bulkSync Sample.morning [Sample.revised] Sample.storeWithHistory
    = (Return {| AttendanceRepository.inserted := [];
                 AttendanceRepository.updated := [row];
                 AttendanceRepository.errors := [] |}, d') /\
    sync_version row = Some 2%Z /\
    List.map sync_version (attendances d') = [Some 2%Z].
Proof.
  destruct (bulkSync_applies_newer_versions_only Sample.morning
              Sample.storeWithHistory Sample.revised Sample.earlier [] 1)
    as [_ [Hnewer _]];
    [reflexivity|discriminate|reflexivity|].
  destruct Hnewer as (Hv & _ & [[Hb _]|[code [Hb _]]]); [vm_compute; reflexivity| |].
  - destruct (Hv 2%Z eq_refl) as [Hrow _].
    eexists _, _. split; [exact Hb|]. split; [exact Hrow|]. reflexivity.
  - apply (f_equal fst) in Hb. vm_compute in Hb. discriminate.
Defined.

(** A record sent with version 0 is read as version 1. Once a row stands
    at version 0 (a phone sent the record with version -1 and then with
    version 0), the record at version 0, which is not newer than the row,
    rewrites it, and the stored version becomes 1, not the record's. *)
Lemma record_at_version_zero_rewrites_the_row :
  List.map sync_version (attendances Sample.storeAtVersionZero) = [Some 0%Z] /\
  sync_version (Sample.withVersion Sample.yesterday 0) = Some 0%Z /\
  (exists existing,
      AttendanceRepository.selectExisting Sample.storeAtVersionZero
        (AttendanceService.withUserId (Sample.withVersion Sample.yesterday 0) "u1")
      = Return [existing] /\
      sync_version existing = Some 0%Z) /\
  let run := AttendanceService.syncOfflineRecords Sample.morning
               [Sample.withVersion Sample.yesterday 0] Sample.alice
               Sample.storeAtVersionZero in
  (exists resp,
      fst run = Return resp /\
      AttendanceService.sync_summary resp
      = Some {| AttendanceService.total_submitted := 1;
                AttendanceService.valid_records := 1;
                AttendanceService.sum_inserted := 0;
                AttendanceService.sum_updated := 1;
                AttendanceService.failed := 0;
                AttendanceService.sum_validation_errors := 0 |}) /\
  List.map sync_version (attendances (snd run)) = [Some 1%Z].
Proof.
  split; [vm_compute; reflexivity|]. split; [reflexivity|]. split.
  - eexists. split; [vm_compute; reflexivity|reflexivity].
  - cbv zeta. split.
    + eexists. split; [vm_compute; reflexivity|reflexivity].
    + vm_compute. reflexivity.
Qed.

Lemma authenticate_fails_open_witness :
  AuthMiddleware.authenticate (H := Sample.tokens) Sample.morning
    (bearer "u1.1764576000")
    Sample.storeBeforeMigration
  = AuthMiddleware.Next Sample.alice None.
Proof.
  apply (@authenticate_fails_open Sample.tokens Sample.morning "u1.1764576000" "u1"
           Sample.storeBeforeMigration "42P01" "relation user_sessions does not exist"
           Sample.alice); reflexivity.
Defined.

(** ** Clock-in and clock-out, whatever the payload *)

(** A row that the table accepts has its [synced] flag set. *)
Lemma accepted_row_is_flagged (d : db) (r : attendance) :
  AttendanceRepository.violation d r = None -> is_Some (synced r).
Proof.
  unfold AttendanceRepository.violation.
  destruct (AttendanceRepository.first_error _ _); [discriminate|].
  repeat match goal with
         | |- context [if negb (bool_decide (is_Some (synced r))) then _ else _] =>
             destruct (bool_decide (is_Some (synced r))) eqn:Hs;
             [apply bool_decide_eq_true in Hs; intros _; exact Hs|discriminate]
         | |- context [if ?c then _ else _] => destruct c; [discriminate|]
         end.
Qed.

Lemma repository_clockIn_cases (now : Z) (data : attendance) (d : db) :
  (exists code,
      AttendanceRepository.clockIn now data d
      = (Throw (AttendanceRepository.constraintError code), d)) \/
  (exists row,
      AttendanceRepository.clockIn now data d
      = (Return row,
         with_next_id (with_attendances d (attendances d ++ [row]))
                      (N.succ (next_id d))) /\
      id row = Some (next_id d) /\
      user_id row = user_id data /\
      status row = Some "active" /\
      clock_out_time row = None /\
      validation_status row = JS.or_str (validation_status data) (Some "verified") /\
      clock_in_distance_meters row = JS.or_num (clock_in_distance_meters data) None /\
      clock_in_accuracy_meters row = JS.or_num (clock_in_accuracy_meters data) None /\
      synced row = Some (default true (synced data)) /\
      metadata row = Some (default ∅ (metadata data))).
Proof.
  unfold AttendanceRepository.clockIn.
  match goal with
  | |- context [AttendanceRepository.violation d ?r] =>
      destruct (AttendanceRepository.violation d r) as [code|] eqn:Ev
  end.
  - left. exists code. reflexivity.
  - right. eexists. split; [reflexivity|].
    apply accepted_row_is_flagged in Ev. cbn in Ev |- *.
    destruct (synced data), (metadata data),
      (bool_decide ("synced" ∈ absent data));
      try (destruct Ev; discriminate); repeat split; reflexivity.
Qed.

Lemma sameButLog_trans (d1 d2 d3 : db) :
  sameButLog d1 d2 -> sameButLog d2 d3 -> sameButLog d1 d3.
Proof.
  unfold sameButLog. intros (a1 & a2 & a3 & a4 & a5 & a6 & a7)
                            (b1 & b2 & b3 & b4 & b5 & b6 & b7).
  repeat split; congruence.
Qed.
(** Every run of clockIn either throws, having touched at most the audit
    log, or appends the returned row and its audit entry. *)
Lemma clockIn_cases {math : JsMath}
      (validateGeofence : db -> string -> Q -> Q -> outcome Geofencing.result)
      (now : Z) (payload : AttendanceService.clockInData) (user : user_row) (d : db) :
  (exists e d',
      AttendanceService.clockIn validateGeofence now payload user d = (Throw e, d') /\
      sameButLog d d') \/
  (exists a d1,
      AttendanceService.clockIn validateGeofence now payload user d
      = (Return a,
         insertActivity
           {| act_user_id := u_id user; act_action := "clock_in";
              act_entity_type := "attendance";
              act_entity_id := Some (AttendanceEntity (id a));
              act_description := "User clocked in" |}
           (with_next_id (with_attendances d1 (attendances d1 ++ [a]))
                         (N.succ (next_id d1)))) /\
      sameButLog d d1 /\
      AttendanceRepository.findActiveByUserId d (u_id user) = None /\
      id a = Some (next_id d) /\
      user_id a = Some (u_id user) /\
      status a = Some "active" /\
      clock_out_time a = None).
Proof.
  unfold AttendanceService.clockIn. cbv [mbind M_bind bind gets].
  destruct (AttendanceRepository.findActiveByUserId d (u_id user)) eqn:Hact.
  { left. eexists _, _. split; [reflexivity|apply sameButLog_refl]. }
  destruct (negb (JS.truthy_ostr _)).
  { left. eexists _, _. split; [reflexivity|apply sameButLog_refl]. }
  (* the repository call, from any store that differs in the log only *)
  assert (Hrepo : forall data d1, sameButLog d d1 ->
    (exists e d',
        (attendance ← AttendanceRepository.clockIn now data;
         modify (insertActivity
           {| act_user_id := u_id user; act_action := "clock_in";
              act_entity_type := "attendance";
              act_entity_id := Some (AttendanceEntity (id attendance));
              act_description := "User clocked in" |});;
         mret attendance) d1 = (Throw e, d') /\ sameButLog d d') \/
    (exists a,
        (attendance ← AttendanceRepository.clockIn now data;
         modify (insertActivity
           {| act_user_id := u_id user; act_action := "clock_in";
              act_entity_type := "attendance";
              act_entity_id := Some (AttendanceEntity (id attendance));
              act_description := "User clocked in" |});;
         mret attendance) d1
        = (Return a,
           insertActivity
             {| act_user_id := u_id user; act_action := "clock_in";
                act_entity_type := "attendance";
                act_entity_id := Some (AttendanceEntity (id a));
                act_description := "User clocked in" |}
             (with_next_id (with_attendances d1 (attendances d1 ++ [a]))
                           (N.succ (next_id d1)))) /\
        id a = Some (next_id d) /\ user_id a = user_id data /\
        status a = Some "active" /\ clock_out_time a = None)).
  { intros data d1 Hsame. cbv [mbind M_bind bind modify mret M_ret ret].
    destruct (repository_clockIn_cases now data d1)
      as [[code Hr] | [row (Hr & Hid & Hu & Hs & Hc & _)]]; rewrite Hr.
    - left. eexists _, _. split; [reflexivity|exact Hsame].
    - right. exists row. split; [reflexivity|].
      repeat split; try assumption.
      rewrite Hid. f_equal. apply Hsame. }
  destruct (AttendanceService.online (AttendanceService.ci_synced payload)).
  2:{ cbv [mret M_ret ret].
      match goal with
      | |- context [AttendanceRepository.clockIn now ?data] =>
          destruct (Hrepo data d (sameButLog_refl d))
            as [(e & d' & Hr & Hs) | (a & Hr & Hid & Hu & Hst & Hc)]
      end.
      - left. exists e, d'. split; [exact Hr|exact Hs].
      - right. exists a, d. split; [exact Hr|].
        repeat split; try assumption; try reflexivity. }
  destruct (negb (Validators.isValid _)).
  { left. eexists _, _. split; [reflexivity|apply sameButLog_refl]. }
  destruct (AttendanceService.ci_accuracy payload) as [accuracy|].
  2:{ left. eexists _, _. split; [reflexivity|apply sameButLog_refl]. }
  destruct (JS.Qltb _ accuracy).
  { left. eexists _, _. split; [reflexivity|apply sameButLog_refl]. }
  match goal with
  | |- context [SpoofingDetection.runSpoofingChecks now ?ld ?u d] =>
      destruct (runSpoofingChecks_returns now ld u d) as [c [d1 [Hrun Hsame]]]
  end.
  rewrite Hrun.
  destruct (negb (SpoofingDetection.passed c)).
  { left. eexists _, _. split; [reflexivity|exact Hsame]. }
  destruct (SpoofingDetection.warnings c);
    (destruct (AttendanceService.ci_clock_in_latitude payload) as [latitude|];
     [|left; eexists _, _; split; [reflexivity|exact Hsame]];
     destruct (AttendanceService.ci_clock_in_longitude payload) as [longitude|];
     [|left; eexists _, _; split; [reflexivity|exact Hsame]];
     unfold lift;
     match goal with
     | |- context [validateGeofence d1 ?f latitude longitude] =>
         destruct (validateGeofence d1 f latitude longitude) as [g|e]
     end;
     [|left; eexists _, _; split; [reflexivity|exact Hsame]];
     destruct (Geofencing.error g);
     [left; eexists _, _; split; [reflexivity|exact Hsame]|];
     destruct (negb (Geofencing.isWithinGeofence g));
     [left; eexists _, _; split; [reflexivity|exact Hsame]|];
     cbv [mret M_ret ret];
     match goal with
     | |- context [AttendanceRepository.clockIn now ?data] =>
         destruct (Hrepo data d1 Hsame)
           as [(e & d' & Hr & Hs) | (a & Hr & Hid & Hu & Hst & Hc)]
     end;
     [left; exists e, d'; split; [exact Hr|exact Hs]
     |right; exists a, d1; split; [exact Hr|];
      repeat split; try assumption; try apply Hsame; reflexivity]).
Qed.

(** A suspicious speed check always names its reason. *)
Lemma suspicious_has_reason {math : JsMath}
      (last current : option SpoofingDetection.location) :
  SpoofingDetection.suspicious (SpoofingDetection.detectImpossibleSpeed last current) = true ->
  exists e, SpoofingDetection.reason (SpoofingDetection.detectImpossibleSpeed last current)
            = Some e.
Proof.
  unfold SpoofingDetection.detectImpossibleSpeed.
  destruct last as [l|], current as [c|]; try discriminate.
  destruct (SpoofingDetection.latitude l), (SpoofingDetection.longitude l),
           (SpoofingDetection.latitude c), (SpoofingDetection.longitude c);
    try discriminate.
  destruct (_ || _); [discriminate|].
  destruct (JS.Qleb _ 0); [eauto|].
  destruct (JS.Qltb _ _); [eauto|discriminate].
Qed.

(** What runSpoofingChecks returns: the checks, with the store changed in
    the audit log at most. *)
Lemma runSpoofingChecks_result {math : JsMath} (now : Z)
      (ld : SpoofingDetection.locationData) (userId : string) (d : db) :
  exists c d',
    SpoofingDetection.runSpoofingChecks now ld userId d = (Return c, d') /\
    sameButLog d d' /\
    SpoofingDetection.passed c
    = match SpoofingDetection.errors c with [] => true | _ => false end /\
    length (SpoofingDetection.flags c)
    = length (SpoofingDetection.errors c) + length (SpoofingDetection.warnings c) /\
    (SpoofingDetection.ld_is_mocked ld = Some true ->
     hd_error (SpoofingDetection.errors c) = Some MockLocation).
Proof.
  unfold SpoofingDetection.runSpoofingChecks.
  set (r0 := {| SpoofingDetection.passed := true; SpoofingDetection.errors := [];
                SpoofingDetection.warnings := []; SpoofingDetection.flags := [] |}).
  set (r1 := if fst (SpoofingDetection.detectMockLocation (SpoofingDetection.ld_is_mocked ld))
             then _ else r0).
  set (r2 := if negb (SpoofingDetection.valid _) then _ else r1).
  set (r3 := match SpoofingDetection.acc_warning _ with Some w => _ | None => r2 end).
  assert (H3 : SpoofingDetection.passed r3
               = match SpoofingDetection.errors r3 with [] => true | _ => false end /\
               length (SpoofingDetection.flags r3)
               = length (SpoofingDetection.errors r3)
                 + length (SpoofingDetection.warnings r3) /\
               (SpoofingDetection.ld_is_mocked ld = Some true ->
                hd_error (SpoofingDetection.errors r3) = Some MockLocation)).
  { subst r3 r2 r1 r0. unfold SpoofingDetection.validateGpsAccuracy.
    destruct (SpoofingDetection.ld_is_mocked ld) as [[|]|],
             (SpoofingDetection.ld_accuracy ld) as [acc|]; cbn;
      try destruct (JS.Qltb SpoofingDetection.MAX_ACCEPTABLE_ACCURACY acc); cbn;
      try destruct (JS.Qltb acc SpoofingDetection.MIN_SUSPICIOUS_ACCURACY); cbn;
      repeat split; try reflexivity; discriminate. }
  clearbody r3. destruct H3 as (Hp & Hl & Hm).
  assert (Hpush : forall e flag,
             let c := SpoofingDetection.push_error r3 (Some e) flag in
             SpoofingDetection.passed c
             = match SpoofingDetection.errors c with [] => true | _ => false end /\
             length (SpoofingDetection.flags c)
             = length (SpoofingDetection.errors c)
               + length (SpoofingDetection.warnings c) /\
             (SpoofingDetection.ld_is_mocked ld = Some true ->
              hd_error (SpoofingDetection.errors c) = Some MockLocation)).
  { intros e flag. cbn. repeat split.
    - destruct (SpoofingDetection.errors r3); reflexivity.
    - rewrite !length_app. cbn. lia.
    - intros Hmock. specialize (Hm Hmock).
      destruct (SpoofingDetection.errors r3); [discriminate|exact Hm]. }
  destruct (negb (userId =? EmptyString)%string
            && JS.truthy_onum (SpoofingDetection.ld_latitude ld)
            && JS.truthy_onum (SpoofingDetection.ld_longitude ld)).
  2:{ eexists _, _. split; [reflexivity|]. split; [apply sameButLog_refl|].
      repeat split; assumption. }
  cbv [mbind M_bind bind gets].
  destruct (SpoofingDetection.getLastAttendanceWithLocation d userId) as [last|].
  2:{ eexists _, _. split; [reflexivity|]. split; [apply sameButLog_refl|].
      repeat split; assumption. }
  match goal with
  | |- context [SpoofingDetection.suspicious (SpoofingDetection.detectImpossibleSpeed ?a ?b)] =>
      destruct (SpoofingDetection.suspicious (SpoofingDetection.detectImpossibleSpeed a b)) eqn:Hs;
      [destruct (suspicious_has_reason a b Hs) as [e He]; rewrite He|]
  end.
  - cbv [mbind M_bind bind SpoofingDetection.logSuspiciousActivity modify mret M_ret ret].
    eexists _, _. split; [reflexivity|]. split; [apply sameButLog_insertActivity|].
    apply Hpush.
  - eexists _, _. split; [reflexivity|]. split; [apply sameButLog_refl|].
    repeat split; assumption.
Qed.

Lemma latest_none (keep : attendance -> bool) (d : db) :
  AttendanceRepository.latest keep d = None <->
  List.filter keep (attendances d) = [].
Proof.
  unfold AttendanceRepository.latest.
  destruct (List.filter keep (attendances d)) as [|x l]; simpl.
  - split; reflexivity.
  - destruct (later_keeps l x) as [a Ha]. rewrite Ha. split; discriminate.
Qed.

(** X1. A clock-in that is rejected, for whatever reason and with
    whichever geofence validator, writes no attendance: users,
    facilities, attendance rows, sessions, devices and identifiers are
    as before; only the audit log may have grown (by the
    'suspicious_location' entry of the speed check). *)
Theorem rejected_clock_in_writes_no_attendance
        (math : JsMath)
        (validateGeofence : db -> string -> Q -> Q -> outcome Geofencing.result)
        (now : Z) (payload : AttendanceService.clockInData)
        (user : user_row) (d : db) (e : error) (d' : db) :
  AttendanceService.clockIn validateGeofence now payload user d = (Throw e, d') ->
  sameButLog d d'.
Proof.
  intros Hrun.
  destruct (clockIn_cases validateGeofence now payload user d)
    as [(e1 & d1 & Hr & Hsame) | (a & d1 & Hr & _)];
    rewrite Hr in Hrun; inversion Hrun; subst.
  exact Hsame.
Qed.

(** X2. A clock-in that returns has appended exactly the returned row:
    it carries the next identifier and the user's id, it is 'active'
    with no clock-out time, the last audit entry is its 'clock_in'
    entry, and the other tables are untouched. *)
Theorem accepted_clock_in_is_recorded
        (math : JsMath)
        (validateGeofence : db -> string -> Q -> Q -> outcome Geofencing.result)
        (now : Z) (payload : AttendanceService.clockInData)
        (user : user_row) (d : db) (a : attendance) (d' : db) :
  AttendanceService.clockIn validateGeofence now payload user d = (Return a, d') ->
  attendances d' = (attendances d ++ [a])%list /\
  id a = Some (next_id d) /\
  next_id d' = N.succ (next_id d) /\
  user_id a = Some (u_id user) /\
  status a = Some "active" /\
  clock_out_time a = None /\
  last (activities d')
  = Some {| act_user_id := u_id user; act_action := "clock_in";
            act_entity_type := "attendance";
            act_entity_id := Some (AttendanceEntity (id a));
            act_description := "User clocked in" |} /\
  users d' = users d /\ facilities d' = facilities d /\
  user_sessions d' = user_sessions d.
Proof.
  intros Hrun.
  destruct (clockIn_cases validateGeofence now payload user d)
    as [(e1 & d1 & Hr & _) | (a1 & d1 & Hr & Hsame & _ & Hid & Hu & Hs & Hc)];
    rewrite Hr in Hrun; inversion Hrun; subst.
  destruct Hsame as (Husers & Hfac & Hatt & Hsess & _ & _ & Hnext).
  cbn. rewrite Hatt, Hnext, last_snoc. repeat split; assumption.
Qed.

(** X3. Clock-in composes with the status query and with itself: after
    a clock-in that returned, getCurrentStatus gives back that very row,
    and every further clock-in of the user is refused with 'You already
    have an active clock-in', whatever its payload. *)
Theorem clock_in_then_status_and_second_clock_in
        (math : JsMath)
        (validateGeofence validateGeofence' : db -> string -> Q -> Q -> outcome Geofencing.result)
        (now now' : Z) (payload payload' : AttendanceService.clockInData)
        (user : user_row) (d : db) (a : attendance) (d' : db) :
  AttendanceService.clockIn validateGeofence now payload user d = (Return a, d') ->
  AttendanceService.getCurrentStatus (u_id user) d' = (Return (Some a), d') /\
  AttendanceService.clockIn validateGeofence' now' payload' user d'
  = (Throw AlreadyClockedIn, d').
Proof.
  intros Hrun.
  destruct (clockIn_cases validateGeofence now payload user d)
    as [(e1 & d1 & Hr & _) | (a1 & d1 & Hr & Hsame & Hnone & Hid & Hu & Hs & Hc)];
    rewrite Hr in Hrun; inversion Hrun; subst a1 d'. clear Hrun.
  assert (Hfound : AttendanceRepository.findActiveByUserId
                     (insertActivity
                        {| act_user_id := u_id user; act_action := "clock_in";
                           act_entity_type := "attendance";
                           act_entity_id := Some (AttendanceEntity (id a));
                           act_description := "User clocked in" |}
                        (with_next_id (with_attendances d1 (attendances d1 ++ [a]))
                                      (N.succ (next_id d1))))
                     (u_id user) = Some a).
  { apply latest_none in Hnone.
    unfold AttendanceRepository.findActiveByUserId, AttendanceRepository.latest.
    cbn [attendances insertActivity with_activities with_next_id with_attendances].
    destruct Hsame as (_ & _ & Hatt & _). rewrite Hatt, List.filter_app, Hnone.
    cbn [List.filter app].
    assert (Ha : AttendanceRepository.isActiveOf (u_id user) a = true)
      by (apply isActiveOf_spec; repeat split; assumption).
    rewrite Ha. reflexivity. }
  split.
  - unfold AttendanceService.getCurrentStatus, gets. rewrite Hfound. reflexivity.
  - unfold AttendanceService.clockIn. cbv [mbind M_bind bind gets].
    rewrite Hfound. reflexivity.
Qed.

(** X4. An offline clock-in (synced = false) bypasses every location
    rule: no coordinate, accuracy, spoofing or geofence check can
    reject it, and the validator is not consulted. It is refused only
    for an active clock-in, a missing facility or a constraint of the
    table, with the store untouched; otherwise the stored row is
    'unverified', has neither accuracy nor distance, and its metadata
    records the method 'offline'. *)
Theorem offline_clock_in_is_unverified
        (math : JsMath)
        (validateGeofence : db -> string -> Q -> Q -> outcome Geofencing.result)
        (now : Z) (payload : AttendanceService.clockInData)
        (user : user_row) (d : db) :
  AttendanceService.ci_synced payload = Some false ->
  match AttendanceService.clockIn validateGeofence now payload user d with
  | (Return a, _) =>
      validation_status a = Some "unverified" /\
      clock_in_accuracy_meters a = None /\
      clock_in_distance_meters a = None /\
      synced a = Some false /\
      exists m, metadata a = Some m /\
                m !! "clock_in_method" = Some (JStr "offline")
  | (Throw e, d') =>
      d' = d /\
      (e = AlreadyClockedIn \/ e = FacilityRequired \/
       exists code, e = AttendanceRepository.constraintError code)
  end.
Proof.
  intros Hoff.
  unfold AttendanceService.clockIn. cbv [mbind M_bind bind gets].
  destruct (AttendanceRepository.findActiveByUserId d (u_id user)).
  { cbn. auto. }
  destruct (negb (JS.truthy_ostr _)).
  { cbn. auto. }
  rewrite Hoff. cbn [AttendanceService.online]. cbv [mret M_ret ret].
  match goal with
  | |- context [AttendanceRepository.clockIn now ?data d] =>
      destruct (repository_clockIn_cases now data d)
        as [[code Hr] | [row (Hr & _ & _ & _ & _ & Hv & Hdist & Hacc & Hsync & Hmeta)]];
      rewrite Hr
  end.
  - split; [reflexivity|]. right. right. exists code. reflexivity.
  - cbv [modify]. cbn in Hv, Hdist, Hacc, Hsync, Hmeta.
    repeat split; try assumption.
    eexists. split; [exact Hmeta|].
    unfold AttendanceService.method_of. cbn [AttendanceService.online].
    apply lookup_insert_eq.
Qed.

(** X5. An online clock-in whose payload says is_mocked = true is never
    recorded: it throws, and the store differs from the old one in the
    audit log at most. When nothing else is wrong before the spoofing
    checks (no active clock-in, a facility, valid coordinates, accuracy
    present and at most 500 m) the error is 'Mock location detected',
    also when the speed check fails too. *)
Theorem mocked_reading_is_rejected
        (math : JsMath)
        (validateGeofence : db -> string -> Q -> Q -> outcome Geofencing.result)
        (now : Z) (payload : AttendanceService.clockInData)
        (user : user_row) (d : db) :
  AttendanceService.online (AttendanceService.ci_synced payload) = true ->
  AttendanceService.ci_is_mocked payload = Some true ->
  exists e d',
    AttendanceService.clockIn validateGeofence now payload user d = (Throw e, d') /\
    sameButLog d d' /\
    (AttendanceRepository.findActiveByUserId d (u_id user) = None ->
     JS.truthy_ostr (JS.or_str (AttendanceService.ci_facility_id payload)
                               (u_facility_id user)) = true ->
     Validators.isValid
       (Validators.validateGpsCoordinates
          (AttendanceService.ci_clock_in_latitude payload)
          (AttendanceService.ci_clock_in_longitude payload)) = true ->
     (exists accuracy, AttendanceService.ci_accuracy payload = Some accuracy /\
                       (accuracy <= 500)%Q) ->
     e = MockLocation).
Proof.
  intros Honline Hmock.
  unfold AttendanceService.clockIn. cbv [mbind M_bind bind gets].
  destruct (AttendanceRepository.findActiveByUserId d (u_id user)).
  { eexists _, _. split; [reflexivity|]. split; [apply sameButLog_refl|]. discriminate. }
  destruct (JS.truthy_ostr _); cbn [negb].
  2:{ eexists _, _. split; [reflexivity|]. split; [apply sameButLog_refl|].
      intros _ Hf. discriminate. }
  rewrite Honline.
  destruct (Validators.isValid _); cbn [negb].
  2:{ eexists _, _. split; [reflexivity|]. split; [apply sameButLog_refl|].
      intros _ _ Hv. discriminate. }
  destruct (AttendanceService.ci_accuracy payload) as [accuracy|].
  2:{ eexists _, _. split; [reflexivity|]. split; [apply sameButLog_refl|].
      intros _ _ _ (acc & Hacc & _). discriminate. }
  destruct (JS.Qltb _ accuracy) eqn:Hlow.
  { eexists _, _. split; [reflexivity|]. split; [apply sameButLog_refl|].
    intros _ _ _ (acc & Hacc & Hle). inversion Hacc; subst acc.
    apply Qltb_lt in Hlow. unfold SpoofingDetection.MAX_ACCEPTABLE_ACCURACY in Hlow. lra. }
  match goal with
  | |- context [SpoofingDetection.runSpoofingChecks now ?ld ?u d] =>
      destruct (runSpoofingChecks_result now ld u d)
        as (c & d1 & Hrun & Hsame & Hpassed & _ & Hfirst)
  end.
  rewrite Hrun. specialize (Hfirst Hmock).
  destruct (SpoofingDetection.errors c) as [|e0 rest]; [discriminate|].
  inversion Hfirst; subst e0. rewrite Hpassed. cbn [negb hd].
  eexists _, _. split; [reflexivity|]. split; [exact Hsame|]. reflexivity.
Qed.

Lemma repository_clockOut_cases (attendanceId : option N)
      (c : AttendanceRepository.clockOutInfo) (d : db) :
  AttendanceRepository.clockOut attendanceId c d = (Return None, d) \/
  (exists code,
      AttendanceRepository.clockOut attendanceId c d
      = (Throw (AttendanceRepository.constraintError code), d)) \/
  (exists r,
      List.find (AttendanceRepository.hasId attendanceId) (attendances d) = Some r /\
      AttendanceRepository.clockOut attendanceId c d
      = (Return (Some (AttendanceRepository.applyClockOut c r)),
         with_attendances d
           (AttendanceRepository.updateWhere
              (AttendanceRepository.hasId attendanceId)
              (AttendanceRepository.applyClockOut c) (attendances d)))).
Proof.
  unfold AttendanceRepository.clockOut.
  destruct (List.find _ (attendances d)) as [r|]; [|left; reflexivity].
  right. destruct (AttendanceRepository.violation d _) as [code|].
  - left. exists code. reflexivity.
  - right. exists r. split; reflexivity.
Qed.

(** Every run of clockOut either throws, having touched at most the audit
    log, or completes the rows that carry the id of the active row. *)
Lemma clockOut_cases {math : JsMath}
      (validateGeofence : db -> string -> Q -> Q -> outcome Geofencing.result)
      (now : Z) (payload : AttendanceService.clockOutData) (user : user_row) (d : db) :
  (exists e d',
      AttendanceService.clockOut validateGeofence now payload user d = (Throw e, d') /\
      sameButLog d d' /\
      (AttendanceRepository.findActiveByUserId d (u_id user) = None ->
       e = NotClockedIn /\ d' = d)) \/
  (exists active r info d1,
      AttendanceRepository.findActiveByUserId d (u_id user) = Some active /\
      List.find (AttendanceRepository.hasId (id active)) (attendances d) = Some r /\
      AttendanceRepository.co_clock_out_time info
      = Some (default now (AttendanceService.co_clock_out_time payload)) /\
      sameButLog d d1 /\
      AttendanceService.clockOut validateGeofence now payload user d
      = (Return (AttendanceRepository.applyClockOut info r),
         insertActivity
           {| act_user_id := u_id user; act_action := "clock_out";
              act_entity_type := "attendance";
              act_entity_id := Some (AttendanceEntity (id r));
              act_description := "User clocked out" |}
           (with_attendances d1
              (AttendanceRepository.updateWhere
                 (AttendanceRepository.hasId (id active))
                 (AttendanceRepository.applyClockOut info) (attendances d))))).
Proof.
  unfold AttendanceService.clockOut. cbv [mbind M_bind bind gets].
  destruct (AttendanceRepository.findActiveByUserId d (u_id user)) as [active|] eqn:Hact.
  2:{ left. eexists _, _. split; [reflexivity|]. split; [apply sameButLog_refl|]. auto. }
  assert (Hrepo : forall info d1,
    sameButLog d d1 ->
    AttendanceRepository.co_clock_out_time info
    = Some (default now (AttendanceService.co_clock_out_time payload)) ->
    (exists e d',
        (attendance ← AttendanceRepository.clockOut (id active) info;
         match attendance with
         | None => throw TypeError
         | Some attendance =>
             modify (insertActivity
               {| act_user_id := u_id user; act_action := "clock_out";
                  act_entity_type := "attendance";
                  act_entity_id := Some (AttendanceEntity (id attendance));
                  act_description := "User clocked out" |});;
             mret attendance
         end) d1 = (Throw e, d') /\ sameButLog d d') \/
    (exists r,
        List.find (AttendanceRepository.hasId (id active)) (attendances d) = Some r /\
        (attendance ← AttendanceRepository.clockOut (id active) info;
         match attendance with
         | None => throw TypeError
         | Some attendance =>
             modify (insertActivity
               {| act_user_id := u_id user; act_action := "clock_out";
                  act_entity_type := "attendance";
                  act_entity_id := Some (AttendanceEntity (id attendance));
                  act_description := "User clocked out" |});;
             mret attendance
         end) d1
        = (Return (AttendanceRepository.applyClockOut info r),
           insertActivity
             {| act_user_id := u_id user; act_action := "clock_out";
                act_entity_type := "attendance";
                act_entity_id := Some (AttendanceEntity (id r));
                act_description := "User clocked out" |}
             (with_attendances d1
                (AttendanceRepository.updateWhere
                   (AttendanceRepository.hasId (id active))
                   (AttendanceRepository.applyClockOut info) (attendances d)))))).
  { intros info d1 Hsame Hinfo. cbv [mbind M_bind bind modify mret M_ret ret throw].
    assert (Hatt : attendances d1 = attendances d) by apply Hsame.
    destruct (repository_clockOut_cases (id active) info d1)
      as [Hr | [[code Hr] | [r [Hfind Hr]]]]; rewrite Hr.
    - left. eexists _, _. split; [reflexivity|exact Hsame].
    - left. eexists _, _. split; [reflexivity|exact Hsame].
    - right. exists r. rewrite Hatt in Hfind. split; [exact Hfind|].
      rewrite Hatt. reflexivity. }
  destruct (AttendanceService.online (AttendanceService.co_synced payload)).
  2:{ cbv [mret M_ret ret].
      match goal with
      | |- context [AttendanceRepository.clockOut (id active) ?info] =>
          destruct (Hrepo info d (sameButLog_refl d) eq_refl)
            as [(e & d' & Hr & Hs) | (r & Hfind & Hr)]
      end.
      - left. exists e, d'. split; [exact Hr|]. split; [exact Hs|discriminate].
      - right. eexists active, r, _, d. repeat split; try eassumption; reflexivity. }
  destruct (negb (Validators.isValid _)).
  { left. eexists _, _. split; [reflexivity|]. split; [apply sameButLog_refl|discriminate]. }
  destruct (AttendanceService.co_accuracy payload) as [accuracy|].
  2:{ left. eexists _, _. split; [reflexivity|]. split; [apply sameButLog_refl|discriminate]. }
  destruct (JS.Qltb _ accuracy).
  { left. eexists _, _. split; [reflexivity|]. split; [apply sameButLog_refl|discriminate]. }
  match goal with
  | |- context [SpoofingDetection.runSpoofingChecks now ?ld ?u d] =>
      destruct (runSpoofingChecks_returns now ld u d) as [c [d1 [Hrun Hsame]]]
  end.
  rewrite Hrun.
  destruct (negb (SpoofingDetection.passed c)).
  { left. eexists _, _. split; [reflexivity|]. split; [exact Hsame|discriminate]. }
  destruct (SpoofingDetection.warnings c);
    (destruct (AttendanceService.co_clock_out_latitude payload) as [latitude|];
     [|left; eexists _, _; split; [reflexivity|]; split; [exact Hsame|discriminate]];
     destruct (AttendanceService.co_clock_out_longitude payload) as [longitude|];
     [|left; eexists _, _; split; [reflexivity|]; split; [exact Hsame|discriminate]];
     unfold lift;
     match goal with
     | |- context [validateGeofence d1 ?f latitude longitude] =>
         destruct (validateGeofence d1 f latitude longitude) as [g|e]
     end;
     [|left; eexists _, _; split; [reflexivity|]; split; [exact Hsame|discriminate]];
     destruct (Geofencing.error g);
     [left; eexists _, _; split; [reflexivity|]; split; [exact Hsame|discriminate]|];
     destruct (negb (Geofencing.isWithinGeofence g));
     [left; eexists _, _; split; [reflexivity|]; split; [exact Hsame|discriminate]|];
     cbv [mret M_ret ret];
     match goal with
     | |- context [AttendanceRepository.clockOut (id active) ?info] =>
         destruct (Hrepo info d1 Hsame eq_refl)
           as [(e & d' & Hr & Hs) | (r & Hfind & Hr)]
     end;
     [left; exists e, d'; split; [exact Hr|]; split; [exact Hs|discriminate]
     |right; eexists active, r, _, d1; repeat split; try eassumption; try apply Hsame;
      reflexivity]).
Qed.

(** X6. Without an active row of the user (status 'active' and no
    clock-out time) clockOut throws 'No active clock-in found', for
    every payload and validator, and leaves the store as it was. *)
Theorem clock_out_without_clock_in
        (math : JsMath)
        (validateGeofence : db -> string -> Q -> Q -> outcome Geofencing.result)
        (now : Z) (payload : AttendanceService.clockOutData)
        (user : user_row) (d : db) :
  (forall r, In r (attendances d) -> ~ activeFor (u_id user) r) ->
  AttendanceService.clockOut validateGeofence now payload user d
  = (Throw NotClockedIn, d).
Proof.
  intros Hnone.
  assert (Hf : AttendanceRepository.findActiveByUserId d (u_id user) = None).
  { apply latest_none.
    destruct (List.filter _ (attendances d)) as [|x l] eqn:E; [reflexivity|].
    assert (Hx : In x (List.filter (AttendanceRepository.isActiveOf (u_id user))
                                   (attendances d)))
      by (rewrite E; left; reflexivity).
    apply filter_In in Hx as [Hin Hact].
    apply isActiveOf_spec in Hact. destruct (Hnone x Hin Hact). }
  destruct (clockOut_cases validateGeofence now payload user d)
    as [(e & d' & Hr & _ & Hwhy) | (active & r & info & d1 & Hact & _)].
  - destruct (Hwhy Hf) as [-> ->]. exact Hr.
  - congruence.
Qed.

(** X7. A clock-out that is rejected, for whatever reason, changes no
    attendance row: the store differs from the old one in the audit log
    at most. *)
Theorem rejected_clock_out_changes_nothing
        (math : JsMath)
        (validateGeofence : db -> string -> Q -> Q -> outcome Geofencing.result)
        (now : Z) (payload : AttendanceService.clockOutData)
        (user : user_row) (d : db) (e : error) (d' : db) :
  AttendanceService.clockOut validateGeofence now payload user d = (Throw e, d') ->
  sameButLog d d'.
Proof.
  intros Hrun.
  destruct (clockOut_cases validateGeofence now payload user d)
    as [(e1 & d1 & Hr & Hsame & _) | (active & r & info & d1 & _ & _ & _ & _ & Hr)];
    rewrite Hr in Hrun; inversion Hrun; subst.
  exact Hsame.
Qed.

(** X8. A clock-out that returns has completed the user's active
    attendance: the returned row has the id, user, facility and clock-in
    data of a stored row with the id of the active row, its status is
    'completed' and its clock-out time is the payload's, or the server
    clock when the payload has none. The table keeps its length, rows
    with another id are untouched, the last audit entry is the
    'clock_out' entry, and the other tables are as before. *)
Theorem accepted_clock_out_completes_the_row
        (math : JsMath)
        (validateGeofence : db -> string -> Q -> Q -> outcome Geofencing.result)
        (now : Z) (payload : AttendanceService.clockOutData)
        (user : user_row) (d : db) (a : attendance) (d' : db) :
  AttendanceService.clockOut validateGeofence now payload user d = (Return a, d') ->
  status a = Some "completed" /\
  clock_out_time a = Some (default now (AttendanceService.co_clock_out_time payload)) /\
  (exists active r info,
      AttendanceRepository.findActiveByUserId d (u_id user) = Some active /\
      List.find (AttendanceRepository.hasId (id active)) (attendances d) = Some r /\
      a = AttendanceRepository.applyClockOut info r /\
      id a = id active /\
      attendances d'
      = AttendanceRepository.updateWhere
          (AttendanceRepository.hasId (id active))
          (AttendanceRepository.applyClockOut info) (attendances d)) /\
  length (attendances d') = length (attendances d) /\
  last (activities d')
  = Some {| act_user_id := u_id user; act_action := "clock_out";
            act_entity_type := "attendance";
            act_entity_id := Some (AttendanceEntity (id a));
            act_description := "User clocked out" |} /\
  users d' = users d /\ facilities d' = facilities d /\
  user_sessions d' = user_sessions d /\ next_id d' = next_id d.
Proof.
  intros Hrun.
  destruct (clockOut_cases validateGeofence now payload user d)
    as [(e1 & d1 & Hr & _) | (active & r & info & d1 & Hact & Hfind & Hinfo & Hsame & Hr)];
    rewrite Hr in Hrun; inversion Hrun; subst a d'. clear Hrun.
  destruct Hsame as (Husers & Hfac & Hatt & Hsess & _ & _ & Hnext).
  assert (Hid : id r = id active).
  { apply find_some in Hfind as [_ Hh]. unfold AttendanceRepository.hasId in Hh.
    destruct (id active) as [x|], (id r) as [y|]; try discriminate.
    apply N.eqb_eq in Hh. congruence. }
  cbn. rewrite last_snoc, Hinfo.
  unfold AttendanceRepository.updateWhere. rewrite length_map.
  repeat split; try assumption.
  exists active, r, info. repeat split; assumption.
Qed.

Lemma updateWhere_none_active (userId : string) (i : option N)
      (f : attendance -> attendance) (l : list attendance) :
  (forall r, In r l -> AttendanceRepository.isActiveOf userId r = true ->
             AttendanceRepository.hasId i r = true) ->
  (forall r, AttendanceRepository.isActiveOf userId (f r) = false) ->
  List.filter (AttendanceRepository.isActiveOf userId)
              (AttendanceRepository.updateWhere (AttendanceRepository.hasId i) f l) = [].
Proof.
  intros Hsel Hf. induction l as [|r l IH]; [reflexivity|].
  cbn. destruct (AttendanceRepository.hasId i r) eqn:Hh.
  - rewrite Hf. apply IH. intros r' Hin. apply Hsel. right. exact Hin.
  - destruct (AttendanceRepository.isActiveOf userId r) eqn:Ha.
    + rewrite (Hsel r (or_introl eq_refl) Ha) in Hh. discriminate.
    + apply IH. intros r' Hin. apply Hsel. right. exact Hin.
Qed.

(** X9. Clock-out undoes clock-in: when the user has exactly one active
    row, a clock-out that returns leaves the user with none, so the
    status query answers null and the guard of the next clock-in
    passes. *)
Theorem clock_out_frees_the_user
        (math : JsMath)
        (validateGeofence : db -> string -> Q -> Q -> outcome Geofencing.result)
        (now : Z) (payload : AttendanceService.clockOutData)
        (user : user_row) (d : db) (active a : attendance) (d' : db) :
  List.filter (AttendanceRepository.isActiveOf (u_id user)) (attendances d) = [active] ->
  AttendanceService.clockOut validateGeofence now payload user d = (Return a, d') ->
  AttendanceService.getCurrentStatus (u_id user) d' = (Return None, d').
Proof.
  intros Hone Hrun.
  destruct (clockOut_cases validateGeofence now payload user d)
    as [(e1 & d1 & Hr & _) | (active0 & r & info & d1 & Hact & Hfind & Hinfo & Hsame & Hr)];
    rewrite Hr in Hrun; inversion Hrun; subst a d'. clear Hrun.
  assert (active0 = active).
  { unfold AttendanceRepository.findActiveByUserId, AttendanceRepository.latest in Hact.
    rewrite Hone in Hact. cbn in Hact. congruence. }
  subst active0.
  unfold AttendanceService.getCurrentStatus, gets. f_equal. f_equal.
  apply latest_none.
  cbn [attendances insertActivity with_activities with_attendances].
  apply updateWhere_none_active.
  - intros r' Hin Ha.
    assert (Hr' : In r' (List.filter (AttendanceRepository.isActiveOf (u_id user))
                                     (attendances d)))
      by (apply filter_In; split; assumption).
    rewrite Hone in Hr'. destruct Hr' as [<-|[]].
    apply find_some in Hfind as [_ Hh]. unfold AttendanceRepository.hasId in *.
    destruct (id active) as [x|]; [apply N.eqb_refl|].
    discriminate.
  - intros r'. unfold AttendanceRepository.isActiveOf. cbn. rewrite Hinfo.
    destruct (user_id r'); reflexivity.
Qed.

(** ** Facilities that are unknown or inactive *)

Lemma validateGeofence_not_found {math : JsMath} (d : db) (facilityId : string)
      (lat lon : Q) :
  Geofencing.selectActiveFacility d facilityId = None ->
  Geofencing.validateGeofence d facilityId lat lon = Return Geofencing.notFound \/
  exists code message,
    spatial d = SpatialQueryFails code message /\
    Geofencing.isPostgisError code message = false /\
    Geofencing.validateGeofence d facilityId lat lon = Throw (DbError code message).
Proof.
  intros Hnone. unfold Geofencing.validateGeofence, Geofencing.selectWithDistance,
    Geofencing.fallback.
  rewrite Hnone. destruct (spatial d) as [sphere|code message]; [left; reflexivity|].
  destruct (Geofencing.isPostgisError code message) eqn:E; [left; reflexivity|].
  right. exists code, message. auto.
Qed.

(** X10. A facility that is missing or has been deactivated cannot be
    clocked into online. For such a facility id the validator of
    geofencing.js answers 'Facility not found or inactive' at every
    point, with or without the spatial extension, unless the spatial
    query fails with an error that is not a PostGIS one, which it
    rethrows; and an online clock-in that resolves to that facility is
    always rejected, leaving the attendance table as it was. *)
Theorem inactive_facility_blocks_clock_in
        (math : JsMath) (now : Z) (payload : AttendanceService.clockInData)
        (user : user_row) (d : db) (facilityId : string) :
  AttendanceService.online (AttendanceService.ci_synced payload) = true ->
  JS.or_str (AttendanceService.ci_facility_id payload) (u_facility_id user)
  = Some facilityId ->
  Geofencing.selectActiveFacility d facilityId = None ->
  (forall lat lon,
      match Geofencing.validateGeofence d facilityId lat lon with
      | Return r =>
          Geofencing.isWithinGeofence r = false /\
          Geofencing.error r = Some FacilityNotFound
      | Throw e =>
          exists code message,
            spatial d = SpatialQueryFails code message /\
            Geofencing.isPostgisError code message = false /\
            e = DbError code message
      end) /\
  exists e d',
    AttendanceService.clockIn Geofencing.validateGeofence now payload user d
    = (Throw e, d') /\
    attendances d' = attendances d.
Proof.
  intros Honline Hfac Hnone. split.
  { intros lat lon.
    destruct (validateGeofence_not_found d facilityId lat lon Hnone)
      as [-> | (code & message & Hs & Hpg & ->)].
    - split; reflexivity.
    - exists code, message. auto. }
  unfold AttendanceService.clockIn. cbv [mbind M_bind bind gets].
  destruct (AttendanceRepository.findActiveByUserId d (u_id user));
    [thrown I|].
  rewrite Hfac, Honline.
  destruct (negb (JS.truthy_ostr (Some facilityId))); [thrown I|].
  destruct (negb (Validators.isValid _)); [thrown I|].
  destruct (AttendanceService.ci_accuracy payload) as [accuracy|]; [|thrown I].
  destruct (JS.Qltb _ accuracy); [thrown I|].
  match goal with
  | |- context [SpoofingDetection.runSpoofingChecks now ?ld ?u d] =>
      destruct (runSpoofingChecks_returns now ld u d) as [c [d1 [Hrun Hsame]]]
  end.
  rewrite Hrun.
  assert (Hatt : attendances d1 = attendances d) by apply Hsame.
  destruct (negb (SpoofingDetection.passed c)); [thrown Hatt|].
  destruct (SpoofingDetection.warnings c);
    (destruct (AttendanceService.ci_clock_in_latitude payload) as [latitude|];
     [|thrown Hatt];
     destruct (AttendanceService.ci_clock_in_longitude payload) as [longitude|];
     [|thrown Hatt];
     unfold lift; cbn [default from_option Datatypes.id];
     rewrite (validateGeofence_reads d d1) by apply Hsame;
     destruct (validateGeofence_not_found d facilityId latitude longitude Hnone)
       as [Hr | (code & message & _ & _ & Hr)];
     rewrite Hr; thrown Hatt).
Qed.

(** ** The location rules, one by one *)

Lemma Qltb_ge a b : JS.Qltb a b = false <-> (b <= a)%Q.
Proof.
  unfold JS.Qltb. rewrite negb_false_iff. apply Qle_bool_iff.
Qed.

(** The accuracy rule in full: a reading is invalid exactly when
    its accuracy is above 500 m, and then the error carries the rounded
    value; it draws the 'unusually precise' warning exactly when it is
    below 1 m; 500 m and 1 m themselves pass silently, and so does a
    reading without accuracy. *)
Theorem accuracy_thresholds (accuracy : Q) :
  let check := SpoofingDetection.validateGpsAccuracy (Some accuracy) in
  (SpoofingDetection.valid check = false <-> (500 < accuracy)%Q) /\
  (SpoofingDetection.acc_error check
   = if SpoofingDetection.valid check then None
     else Some (AccuracyTooLow (JS.Math_round accuracy))) /\
  (SpoofingDetection.acc_warning check = Some (UnusuallyPrecise accuracy)
   <-> (accuracy < 1)%Q) /\
  (SpoofingDetection.acc_warning check = None <-> (1 <= accuracy)%Q) /\
  SpoofingDetection.validateGpsAccuracy None
  = {| SpoofingDetection.valid := true; SpoofingDetection.acc_warning := None;
       SpoofingDetection.acc_error := None |}.
Proof.
  cbv zeta. unfold SpoofingDetection.validateGpsAccuracy,
    SpoofingDetection.MAX_ACCEPTABLE_ACCURACY, SpoofingDetection.MIN_SUSPICIOUS_ACCURACY.
  destruct (JS.Qltb 500 accuracy) eqn:Hhigh;
    [apply Qltb_lt in Hhigh | apply Qltb_ge in Hhigh];
    (destruct (JS.Qltb accuracy 1) eqn:Hlow;
     [apply Qltb_lt in Hlow | apply Qltb_ge in Hlow]);
    cbn; repeat split; intros; try discriminate; try reflexivity; try lra.
Qed.

(** X11. The verdict of runSpoofingChecks is consistent with its lists:
    the run always returns, passed is true exactly when no error was
    pushed, every entry of errors and warnings has its flag, and the
    attendance table is not written (the store changes in the audit log
    at most). So the service's fallback message 'Location verification
    failed' is never the one thrown. *)
Theorem spoofing_verdict_matches_errors (math : JsMath) (now : Z)
        (ld : SpoofingDetection.locationData) (userId : string) (d : db) :
  exists c d',
    SpoofingDetection.runSpoofingChecks now ld userId d = (Return c, d') /\
    sameButLog d d' /\
    (SpoofingDetection.passed c = true <-> SpoofingDetection.errors c = []) /\
    length (SpoofingDetection.flags c)
    = length (SpoofingDetection.errors c) + length (SpoofingDetection.warnings c) /\
    (SpoofingDetection.passed c = false ->
     exists e, In e (SpoofingDetection.errors c) /\
               hd LocationVerificationFailed (SpoofingDetection.errors c) = e).
Proof.
  destruct (runSpoofingChecks_result now ld userId d)
    as (c & d' & Hrun & Hsame & Hpassed & Hflags & _).
  exists c, d'. split; [exact Hrun|]. split; [exact Hsame|].
  split; [|split; [exact Hflags|]].
  - rewrite Hpassed. destruct (SpoofingDetection.errors c); split; congruence.
  - rewrite Hpassed. destruct (SpoofingDetection.errors c) as [|e rest]; [discriminate|].
    intros _. exists e. split; [left|]; reflexivity.
Qed.

Lemma validateGpsCoordinates_formula (lat lon : Q) :
  let v := Validators.validateGpsCoordinates (Some lat) (Some lon) in
  Validators.isValid v
  = negb (JS.Qltb lat (-90) || JS.Qltb 90 lat)
    && negb (JS.Qltb lon (-180) || JS.Qltb 180 lon)
    && negb (JS.Qltb (Qabs lat) (1 # 100) && JS.Qltb (Qabs lon) (1 # 100)) /\
  (Validators.isValid v = false <-> exists e, Validators.error v = Some e).
Proof.
  cbv zeta. unfold Validators.validateGpsCoordinates.
  destruct (JS.Qltb lat (-90)), (JS.Qltb 90 lat), (JS.Qltb lon (-180)),
           (JS.Qltb 180 lon), (JS.Qltb (Qabs lat) (1 # 100)),
           (JS.Qltb (Qabs lon) (1 # 100));
    cbn [orb andb negb];
    try destruct (_ && _ && _ && _);
    cbn; (split; [reflexivity|]); split;
    solve [discriminate | eauto | intros [e He]; discriminate].
Qed.

(** X12. validateGpsCoordinates accepts a pair exactly when the latitude
    lies in [-90, 90], the longitude in [-180, 180], and the point is
    not within 0.01 degrees of (0, 0) on both axes; a rejected pair
    always comes with an error; a missing coordinate is 'GPS coordinates
    are required'. *)
Theorem valid_coordinates_characterised (lat lon : Q) :
  (Validators.isValid (Validators.validateGpsCoordinates (Some lat) (Some lon)) = true
   <-> (-90 <= lat <= 90 /\ -180 <= lon <= 180 /\
        ~ (Qabs lat < 1 # 100 /\ Qabs lon < 1 # 100))%Q) /\
  (Validators.isValid (Validators.validateGpsCoordinates (Some lat) (Some lon)) = false
   <-> exists e, Validators.error (Validators.validateGpsCoordinates (Some lat) (Some lon))
                 = Some e) /\
  Validators.validateGpsCoordinates None (Some lon)
  = {| Validators.isValid := false; Validators.error := Some CoordinatesRequired;
       Validators.warning := None |} /\
  Validators.validateGpsCoordinates (Some lat) None
  = {| Validators.isValid := false; Validators.error := Some CoordinatesRequired;
       Validators.warning := None |}.
Proof.
  destruct (validateGpsCoordinates_formula lat lon) as [Hf He].
  split; [|split; [exact He|split; reflexivity]].
  rewrite Hf, !andb_true_iff, !negb_true_iff, !orb_false_iff, andb_false_iff,
    !Qltb_ge.
  split.
  - intros [[[H1 H2] [H3 H4]] H5]. repeat split; try assumption.
    intros [H6 H7].
    destruct H5 as [H5|H5]; [exact (Qlt_not_le _ _ H6 H5)|exact (Qlt_not_le _ _ H7 H5)].
  - intros ([H1 H2] & [H3 H4] & H5). repeat split; try assumption.
    destruct (Qlt_le_dec (Qabs lat) (1 # 100)) as [E1|E1]; [|left; exact E1].
    destruct (Qlt_le_dec (Qabs lon) (1 # 100)) as [E2|E2]; [|right; exact E2].
    destruct H5. split; assumption.
Qed.

(** ** The resolver, case by case *)

Lemma not_days_old (now ts : Z) :
  JS.Qltb 30 (inject_Z (now - ts) / inject_Z SyncResolver.msPerDay) = false <->
  (now - ts <= thirtyDays)%Z.
Proof.
  unfold thirtyDays. split.
  - intros Hf. destruct (Z_lt_le_dec (30 * SyncResolver.msPerDay) (now - ts)) as [Hlt|Hle];
      [|exact Hle].
    rewrite (days_old _ _ Hlt) in Hf. discriminate.
  - intros Hle. apply Qltb_ge. apply Qle_shift_div_r; [vm_compute; reflexivity|].
    change 30%Q with (inject_Z 30). rewrite <- inject_Z_mult, <- Zle_Qle. exact Hle.
Qed.

(** X14. Pre-validation in full: a sync record is valid exactly when its
    device_id is a non-empty string and it has a client_timestamp which,
    when it is a date, is not after the server clock and at most 30 days
    (2 592 000 000 ms) before it; an age of exactly 30 days still passes,
    and so does a client_timestamp that is no date at all, whose age and
    whose comparison with the clock are NaN. The errors list is empty
    exactly for those records. *)
Theorem sync_metadata_valid_iff (now : Z) (r : attendance) :
  (SyncResolver.isValid (SyncResolver.validateSyncMetadata now r) = true <->
   JS.truthy_ostr (device_id r) = true /\
   exists ts, client_timestamp r = Some ts /\
              (JS.validDate ts = true -> (ts <= now <= ts + thirtyDays)%Z)) /\
  (SyncResolver.isValid (SyncResolver.validateSyncMetadata now r) = true <->
   SyncResolver.errors (SyncResolver.validateSyncMetadata now r) = []).
Proof.
  unfold SyncResolver.validateSyncMetadata. cbn [SyncResolver.isValid SyncResolver.errors].
  split.
  2:{ destruct (_ ++ _)%list; split; congruence. }
  destruct (JS.truthy_ostr (device_id r)); cbn [negb app].
  2:{ split; [discriminate|]. intros [Hd _]. discriminate. }
  destruct (client_timestamp r) as [ts|].
  2:{ split; [discriminate|]. intros (_ & ts & Hts & _). discriminate. }
  destruct (JS.validDate ts) eqn:Hdate; cbn [negb].
  2:{ split; [|reflexivity]. intros _. split; [reflexivity|].
      exists ts. split; [reflexivity|]. congruence. }
  destruct (JS.Qltb 30 _) eqn:Hold; cbn [app].
  - split; [discriminate|]. intros (_ & ts' & Hts & Hr). inversion Hts; subst ts'.
    specialize (Hr Hdate).
    assert (Hn : (now - ts <= thirtyDays)%Z) by lia.
    apply not_days_old in Hn. congruence.
  - apply not_days_old in Hold.
    destruct (now <? ts)%Z eqn:Hfut.
    + split; [discriminate|]. intros (_ & ts' & Hts & Hr). inversion Hts; subst ts'.
      specialize (Hr Hdate). apply Z.ltb_lt in Hfut. lia.
    + apply Z.ltb_ge in Hfut. split; [|reflexivity].
      intros _. split; [reflexivity|]. exists ts. split; [reflexivity|]. intros _. lia.
Qed.

Lemma unset_differ_false (key : string) (c s : attendance) :
  SyncResolver.unset_differ key c s = false <-> unsetAlike key c s.
Proof.
  unfold SyncResolver.unset_differ, SyncResolver.isUndefined, unsetAlike.
  rewrite negb_false_iff, eqb_true_iff.
  destruct (bool_decide (key ∈ absent c)) eqn:Ec, (bool_decide (key ∈ absent s)) eqn:Es;
    try apply bool_decide_eq_true in Ec; try apply bool_decide_eq_false in Ec;
    try apply bool_decide_eq_true in Es; try apply bool_decide_eq_false in Es;
    split; try congruence; try tauto; intros _; tauto.
Qed.

Lemma unset_differ_sym (key : string) (c s : attendance) :
  SyncResolver.unset_differ key c s = SyncResolver.unset_differ key s c.
Proof.
  unfold SyncResolver.unset_differ.
  destruct (SyncResolver.isUndefined c key), (SyncResolver.isUndefined s key); reflexivity.
Qed.

Lemma time_differs_sym (a b : Z) :
  SyncResolver.time_differs a b = SyncResolver.time_differs b a.
Proof.
  unfold SyncResolver.time_differs.
  replace (b - a)%Z with (- (a - b))%Z by lia. rewrite Z.abs_opp.
  destruct (JS.validDate a), (JS.validDate b); reflexivity.
Qed.

Lemma time_field_differs_false (key : string) (field : attendance -> option Z)
      (c s : attendance) :
  SyncResolver.time_field_differs key field c s = false <-> withinASecond key field c s.
Proof.
  unfold SyncResolver.time_field_differs, withinASecond, SyncResolver.time_differs.
  destruct (field c) as [x|], (field s) as [y|];
    try (split; [discriminate|intros []]).
  - destruct (JS.validDate x), (JS.validDate y); cbn [andb].
    + rewrite Z.ltb_ge. split; [intros Hle _ _; exact Hle|intros Hle; apply Hle; reflexivity].
    + split; [intros _ _ Hf; discriminate|reflexivity].
    + split; [intros _ Hf; discriminate|reflexivity].
    + split; [intros _ Hf; discriminate|reflexivity].
  - apply unset_differ_false.
Qed.

Lemma time_field_differs_sym (key : string) (field : attendance -> option Z)
      (c s : attendance) :
  SyncResolver.time_field_differs key field c s
  = SyncResolver.time_field_differs key field s c.
Proof.
  unfold SyncResolver.time_field_differs.
  destruct (field c) as [x|], (field s) as [y|]; try reflexivity.
  - apply time_differs_sym.
  - apply unset_differ_sym.
Qed.

Lemma version_differs_false (c s : attendance) :
  SyncResolver.version_differs c s = false <-> sameReading "sync_version" sync_version c s.
Proof.
  unfold SyncResolver.version_differs, sameReading.
  destruct (sync_version c) as [x|], (sync_version s) as [y|];
    try (split; [discriminate|intros []]).
  - rewrite negb_false_iff. apply Z.eqb_eq.
  - apply unset_differ_false.
Qed.

Lemma string_field_differs_false (key : string) (field : attendance -> option string)
      (c s : attendance) :
  SyncResolver.string_field_differs key field c s = false <-> sameReading key field c s.
Proof.
  unfold SyncResolver.string_field_differs, sameReading.
  destruct (field c) as [x|], (field s) as [y|];
    try (split; [discriminate|intros []]).
  - rewrite negb_false_iff. apply String.eqb_eq.
  - apply unset_differ_false.
Qed.

(** X15. detectConflict in full: two records are free of conflict
    exactly when a strict comparison finds their sync_version equal,
    their clock-in times and their clock-out times are each both set and
    at most one second apart (or not both dates), or both unset in the
    same way, and their status is strictly equal; no other field is
    compared. A field that one record lacks (undefined) and the other has
    as null is a conflict: a record sent without a clock_out_time
    conflicts with every row of the table, where nothing is absent, that
    has none either. The test is symmetric in its arguments. *)
Theorem conflict_free_iff (c s : attendance) :
  (SyncResolver.detectConflict c s = false <->
   sameReading "sync_version" sync_version c s /\
   withinASecond "clock_in_time" clock_in_time c s /\
   withinASecond "clock_out_time" clock_out_time c s /\
   sameReading "status" status c s) /\
  (clock_out_time c = None -> "clock_out_time" ∈ absent c -> absent s = [] ->
   SyncResolver.detectConflict c s = true) /\
  SyncResolver.detectConflict c s = SyncResolver.detectConflict s c.
Proof.
  assert (Hiff : SyncResolver.detectConflict c s = false <->
                 sameReading "sync_version" sync_version c s /\
                 withinASecond "clock_in_time" clock_in_time c s /\
                 withinASecond "clock_out_time" clock_out_time c s /\
                 sameReading "status" status c s).
  { unfold SyncResolver.detectConflict.
    rewrite <- version_differs_false, <- !time_field_differs_false,
      <- string_field_differs_false.
    destruct (SyncResolver.version_differs c s),
      (SyncResolver.time_field_differs "clock_in_time" clock_in_time c s),
      (SyncResolver.time_field_differs "clock_out_time" clock_out_time c s),
      (SyncResolver.string_field_differs "status" status c s);
      cbn; intuition congruence. }
  split; [exact Hiff|]. split.
  - intros Hnone Habs Hrow.
    apply not_false_iff_true. intros E.
    apply Hiff in E as (_ & _ & Hout & _).
    unfold withinASecond in Hout. rewrite Hnone in Hout.
    destruct (clock_out_time s); [contradiction|].
    unfold unsetAlike in Hout. rewrite Hrow in Hout.
    apply Hout in Habs. inversion Habs.
  - unfold SyncResolver.detectConflict.
    rewrite (time_field_differs_sym "clock_in_time"),
      (time_field_differs_sym "clock_out_time").
    assert (Hv : SyncResolver.version_differs c s = SyncResolver.version_differs s c).
    { unfold SyncResolver.version_differs.
      destruct (sync_version c), (sync_version s); try reflexivity.
      - f_equal. apply Z.eqb_sym.
      - apply unset_differ_sym. }
    assert (Hst : SyncResolver.string_field_differs "status" status c s
                  = SyncResolver.string_field_differs "status" status s c).
    { unfold SyncResolver.string_field_differs.
      destruct (status c), (status s); try reflexivity.
      - f_equal. apply String.eqb_sym.
      - apply unset_differ_sym. }
    rewrite Hv, Hst. reflexivity.
Qed.

(** X16. No strategy lets a client overwrite the identity of a server
    row: whenever resolveConflict is given a server record and returns a
    resolved record, that record has the server's id and created_at;
    it returns none only under 'manual' on a conflicting pair, and then
    hands back both records for review. *)
Theorem resolution_keeps_server_identity (now : Z) (c s : attendance)
        (strategy : string) :
  match SyncResolver.resolved (SyncResolver.resolveConflict now c (Some s) strategy) with
  | Some r => id r = id s /\ created_at r = created_at s
  | None =>
      strategy = "manual" /\ SyncResolver.detectConflict c s = true /\
      SyncResolver.resolveConflict now c (Some s) strategy
      = {| SyncResolver.resolved := None; SyncResolver.action := "manual_review";
           SyncResolver.conflict := true;
           SyncResolver.resolution_name := Some "manual";
           SyncResolver.clientRecord := Some c; SyncResolver.serverRecord := Some s |}
  end.
Proof.
  unfold SyncResolver.resolveConflict.
  destruct (SyncResolver.detectConflict c s); cbn [negb]; [|split; reflexivity].
  destruct (strategy =? SyncResolver.CLIENT_WINS)%string; [split; reflexivity|].
  destruct (strategy =? SyncResolver.SERVER_WINS)%string; [split; reflexivity|].
  destruct (strategy =? SyncResolver.MANUAL)%string eqn:E; [|split; reflexivity].
  apply String.eqb_eq in E. cbn. repeat split. exact E.
Qed.

(** X17. Only 'client_wins' changes a server row: the action is
    'update' exactly when there is a server record, it conflicts with
    the client's, and the strategy is 'client_wins'. Under any strategy
    other than 'client_wins' and 'manual', recognised or not, the
    resolved record is the server record itself and the action is
    'no_change'. *)
Theorem only_client_wins_updates (now : Z) (c : attendance)
        (server : option attendance) (strategy : string) :
  (SyncResolver.action (SyncResolver.resolveConflict now c server strategy) = "update"
   <-> exists s, server = Some s /\ SyncResolver.detectConflict c s = true /\
                 strategy = "client_wins") /\
  (forall s, server = Some s -> strategy <> "client_wins" -> strategy <> "manual" ->
     SyncResolver.resolved (SyncResolver.resolveConflict now c server strategy) = Some s /\
     SyncResolver.action (SyncResolver.resolveConflict now c server strategy)
     = "no_change").
Proof.
  unfold SyncResolver.resolveConflict. split.
  - destruct server as [s|].
    2:{ cbn. split; [discriminate|]. intros (s & Hs & _). discriminate. }
    destruct (SyncResolver.detectConflict c s) eqn:Hc; cbn [negb].
    2:{ cbn. split; [discriminate|]. intros (s' & Hs & Hd & _).
        inversion Hs; subst s'. congruence. }
    destruct (strategy =? SyncResolver.CLIENT_WINS)%string eqn:E1.
    { apply String.eqb_eq in E1. cbn. split; [|reflexivity].
      intros _. exists s. repeat split; assumption. }
    apply String.eqb_neq in E1.
    destruct (strategy =? SyncResolver.SERVER_WINS)%string,
             (strategy =? SyncResolver.MANUAL)%string; cbn;
      (split; [discriminate|]); intros (s' & _ & _ & Hst); contradiction.
  - intros s -> Hcw Hm.
    destruct (SyncResolver.detectConflict c s); cbn [negb]; [|split; reflexivity].
    apply String.eqb_neq in Hcw, Hm.
    unfold SyncResolver.CLIENT_WINS, SyncResolver.MANUAL. rewrite Hcw, Hm.
    destruct (strategy =? SyncResolver.SERVER_WINS)%string; split; reflexivity.
Qed.

(** ** The sync transaction *)

(** What holds of the loop state of bulkSync after any number of records,
    started on the store [d]. *)
(** X18. bulkSync is all or nothing. When the returned errors list is
    empty, the table has grown by exactly the inserted rows and users,
    facilities and sessions are untouched. When it is not empty, the
    store is exactly the one before the call: the rows listed under
    inserted and updated were rolled back with the transaction. The
    first error is the constraint violation of the record that failed;
    every later record of the batch is reported with 'current
    transaction is aborted' (25P02). *)
Theorem bulkSync_all_or_nothing (now : Z) (records : list attendance) (d : db) :
  exists res d',
    AttendanceRepository.bulkSync now records d = (Return res, d') /\
    match AttendanceRepository.errors res with
    | [] =>
        length (attendances d')
        = length (attendances d) + length (AttendanceRepository.inserted res) /\
        users d' = users d /\ facilities d' = facilities d /\
        user_sessions d' = user_sessions d
    | first :: rest =>
        d' = d /\
        (exists code, AttendanceRepository.se_error first
                      = AttendanceRepository.constraintError code) /\
        Forall (fun e => AttendanceRepository.se_error e
                         = AttendanceRepository.abortedError) rest
    end.
Proof.
  unfold AttendanceRepository.bulkSync.
  pose proof (sync_loop_invariant now d records
    ({| AttendanceRepository.inserted := []; AttendanceRepository.updated := [];
        AttendanceRepository.errors := [] |},
     {| AttendanceRepository.tx_db := d; AttendanceRepository.tx_aborted := false |}))
    as Hinv.
  cbn [fst snd AttendanceRepository.tx_aborted] in Hinv.
  specialize (Hinv ltac:(cbn; repeat split; lia)). cbv zeta in Hinv.
  destruct (fold_left _ records _) as [results t]. cbn [fst snd] in Hinv.
  eexists _, _. split; [reflexivity|].
  destruct (AttendanceRepository.tx_aborted t).
  - destruct Hinv as (first & rest & code & He & Hfirst & Hrest). rewrite He.
    split; [reflexivity|]. split; [exists code; exact Hfirst|exact Hrest].
  - destruct Hinv as (He & Hrest). rewrite He. exact Hrest.
Qed.

(** X19. Syncing is idempotent for a record that carries its key: if a
    record with a device_id and a client_timestamp was inserted by
    bulkSync, sending it again, at any later time, inserts nothing,
    updates nothing, reports no error and leaves the store as it is. *)
Theorem resync_is_idempotent (now now' : Z) (record row : attendance)
        (device : string) (taken : Z) (d d' : db) :
  device_id record = Some device ->
  client_timestamp record = Some taken ->
  AttendanceRepository.bulkSync now [record] d
  = (Return {| AttendanceRepository.inserted := [row];
               AttendanceRepository.updated := [];
               AttendanceRepository.errors := [] |}, d') ->
  AttendanceRepository.bulkSync now' [record] d'
  = (Return {| AttendanceRepository.inserted := [];
               AttendanceRepository.updated := [];
               AttendanceRepository.errors := [] |}, d').
Proof.
  intros Hdev Hts Hfirst.
  unfold AttendanceRepository.bulkSync in *. cbn [fold_left] in *.
  unfold AttendanceRepository.syncRecord in *.
  cbn [AttendanceRepository.tx_aborted AttendanceRepository.tx_db] in *.
  unfold AttendanceRepository.selectExisting in *.
  destruct (AttendanceRepository.timestampError (client_timestamp record)) as [code|];
    [cbn in Hfirst; inversion Hfirst|].
  destruct (List.filter (AttendanceRepository.sameKey record) (attendances d))
    as [|existing others] eqn:Hsel.
  2:{ destruct (AttendanceRepository.isNewer record existing);
        [destruct (AttendanceRepository.violation _ _)|]; cbn in Hfirst;
        inversion Hfirst. }
  destruct (AttendanceRepository.violation _ _); cbn in Hfirst; inversion Hfirst.
  subst row d'. clear Hfirst.
  assert (Hkey : AttendanceRepository.sameKey record
                   (AttendanceRepository.insertedRow now d record) = true).
  { unfold AttendanceRepository.sameKey. cbn. rewrite Hdev, Hts.
    rewrite String.eqb_refl, Z.eqb_refl. reflexivity. }
  cbn [attendances with_next_id with_attendances].
  rewrite List.filter_app, Hsel. cbn [List.filter app]. rewrite Hkey.
  unfold AttendanceRepository.isNewer. cbn [sync_version AttendanceRepository.insertedRow].
  rewrite Z.ltb_irrefl. reflexivity.
Qed.

Lemma validateAll_partitions (now : Z) (userId : string) (i0 : nat)
      (records : list attendance) :
  let '(validationErrors, validRecords) :=
    AttendanceService.validateAll now userId i0 records in
  length validationErrors + length validRecords = length records /\
  Forall (fun e => i0 <= AttendanceService.ve_index e < i0 + length records)
         validationErrors /\
  Forall (fun r => user_id r = Some userId /\
                   SyncResolver.isValid (SyncResolver.validateSyncMetadata now r) = true)
         validRecords.
Proof.
  revert i0. induction records as [|r rest IH]; intros i0;
    cbn [AttendanceService.validateAll].
  - cbn. repeat split; constructor.
  - specialize (IH (S i0)).
    destruct (AttendanceService.validateAll now userId (S i0) rest) as [errs valids].
    destruct IH as (Hlen & Herrs & Hvalids).
    destruct (SyncResolver.isValid _) eqn:Hv; cbn [negb length].
    + split; [lia|]. split.
      * eapply List.Forall_impl; [|exact Herrs]. cbn. intros e He. lia.
      * constructor; [|exact Hvalids]. split; [reflexivity|exact Hv].
    + split; [lia|]. split; [|exact Hvalids].
      constructor; [cbn; lia|].
      eapply List.Forall_impl; [|exact Herrs]. cbn. intros e He. lia.
Qed.

(** X20. The sync response accounts for every submitted record.
    syncOfflineRecords always returns; each record is either listed
    under validation_errors, with its position in the request, or
    handed to bulkSync stamped with the caller's user id. With no valid
    record the answer is success = false and the store is untouched,
    audit log included. Otherwise the summary satisfies
    total_submitted = valid_records + validation_errors and
    inserted + updated + failed <= valid_records, and failed counts the
    entries of sync_errors. *)
Theorem sync_summary_accounts_for_every_record (now : Z) (records : list attendance)
        (user : user_row) (d : db) :
  exists resp d',
    AttendanceService.syncOfflineRecords now records user d = (Return resp, d') /\
    Forall (fun e => AttendanceService.ve_index e < length records)
           (AttendanceService.validation_errors resp) /\
    match AttendanceService.sync_summary resp with
    | None =>
        AttendanceService.success resp = false /\ d' = d /\
        length (AttendanceService.validation_errors resp) = length records
    | Some s =>
        AttendanceService.success resp = true /\
        AttendanceService.total_submitted s = length records /\
        AttendanceService.valid_records s + AttendanceService.sum_validation_errors s
        = AttendanceService.total_submitted s /\
        0 < AttendanceService.valid_records s /\
        AttendanceService.sum_inserted s + AttendanceService.sum_updated s
        + AttendanceService.failed s <= AttendanceService.valid_records s /\
        AttendanceService.failed s = length (AttendanceService.sync_errors resp) /\
        AttendanceService.sum_validation_errors s
        = length (AttendanceService.validation_errors resp)
    end.
Proof.
  unfold AttendanceService.syncOfflineRecords.
  pose proof (validateAll_partitions now (u_id user) 0 records) as Hpart.
  destruct (AttendanceService.validateAll now (u_id user) 0 records) as [errs valids].
  destruct Hpart as (Hlen & Herrs & _).
  assert (Hidx : Forall (fun e => AttendanceService.ve_index e < length records) errs).
  { eapply List.Forall_impl; [|exact Herrs]. cbn. intros e He. lia. }
  destruct valids as [|v valids].
  - eexists _, _. split; [reflexivity|]. split; [exact Hidx|].
    cbn in *. repeat split. lia.
  - cbv [mbind M_bind bind modify mret M_ret ret].
    destruct (bulkSync_returns now (v :: valids) d) as (sr & d1 & Hrun & Hacc).
    rewrite Hrun. eexists _, _. split; [reflexivity|]. split; [exact Hidx|].
    cbn [AttendanceService.sync_summary AttendanceService.success
         AttendanceService.total_submitted AttendanceService.valid_records
         AttendanceService.sum_validation_errors AttendanceService.sum_inserted
         AttendanceService.sum_updated AttendanceService.failed
         AttendanceService.sync_errors AttendanceService.validation_errors].
    unfold processed in Hacc. cbn [length] in *.
    repeat split; lia.
Qed.

(** ** Login, logout and the session table *)

(** The four ways a login ends without a session. *)
Lemma login_throws {tok : Tokens} (expiresIn : option (Z * string)) (now : Z)
      (email password : string) (ip ua fp : option string)
      (d d' : db) (e : error) :
  AuthService.login expiresIn now email password ip ua fp d = (Throw e, d') ->
  sameButLog d d' /\
  match List.find (fun u => String.eqb (u_email u) email) (users d) with
  | None => e = InvalidCredentials /\ d' = d
  | Some u =>
      if negb (u_is_active u) then e = AccountPendingApproval /\ d' = d
      else if negb (verifyPassword password (u_password_hash u))
      then e = InvalidCredentials /\
           d' = insertActivity
                  {| act_user_id := u_id u; act_action := "login_failed";
                     act_entity_type := "auth";
                     act_entity_id := Some (UserEntity (u_id u));
                     act_description := "Failed login attempt" |} d
      else exists code message,
          user_sessions d = SessionsUnavailable code message /\
          e = DbError code message /\ d' = d
  end.
Proof.
  unfold AuthService.login. cbv [mbind M_bind bind gets].
  destruct (List.find _ (users d)) as [u|].
  2:{ intros H; inversion H; subst. split; [apply sameButLog_refl|]. auto. }
  destruct (negb (u_is_active u)).
  { intros H; inversion H; subst. split; [apply sameButLog_refl|]. auto. }
  destruct (negb (verifyPassword password (u_password_hash u))).
  { cbv [modify throw]. intros H; inversion H; subst.
    split; [apply sameButLog_insertActivity|]. auto. }
  unfold SessionsRepository.invalidateUserSessions, SessionsRepository.createSession.
  destruct (user_sessions d) as [rows|code message] eqn:Hrows.
  - cbn. destruct (JS.truthy_ostr fp);
      cbv [DevicesRepository.registerDevice modify mret M_ret ret]; discriminate.
  - intros H; inversion H; subst. split; [apply sameButLog_refl|].
    exists code, message. auto.
Qed.

(** [authenticate] reads the users and the sessions, nothing else. *)
Lemma authenticate_reads {tok : Tokens} (now : Z) (authorization : option string) (d1 d2 : db) :
  users d1 = users d2 -> user_sessions d1 = user_sessions d2 ->
  AuthMiddleware.authenticate now authorization d1
  = AuthMiddleware.authenticate now authorization d2.
Proof.
  intros Hu Hs.
  unfold AuthMiddleware.authenticate, SessionsRepository.findActiveSessionByToken,
    AuthMiddleware.attachUser, SessionsRepository.joinUser.
  rewrite Hu, Hs. reflexivity.
Qed.

Lemma find_by_key {A} (key : A -> string) (l : list A) (x : A) :
  NoDup (List.map key l) -> In x l ->
  List.find (fun y => String.eqb (key y) (key x)) l = Some x.
Proof.
  induction l as [|y l IH]; intros Hnd Hin; [destruct Hin|].
  cbn in *. apply NoDup_cons in Hnd as [Hy Hnd].
  destruct (String.eqb_spec (key y) (key x)) as [Heq|Hne].
  - destruct Hin as [->|Hin]; [reflexivity|].
    exfalso. apply Hy. rewrite Heq. apply list_elem_of_In, in_map, Hin.
  - destruct Hin as [->|Hin]; [congruence|]. apply IH; assumption.
Qed.

(** A successful login, seen from the next request: the users, the
    sessions and the identifiers it leaves behind. *)
Lemma login_returns {tok : Tokens} (expiresIn : option (Z * string)) (now : Z)
      (email password : string) (ip ua fp : option string)
      (d d' : db) (res : AuthService.loginResult) :
  AuthService.login expiresIn now email password ip ua fp d = (Return res, d') ->
  In (AuthService.user res) (users d) /\
  u_is_active (AuthService.user res) = true /\
  verifyPassword password (u_password_hash (AuthService.user res)) = true /\
  AuthService.token res = generateAccessToken (AuthService.user res) now /\
  users d' = List.map (AuthService.touchLogin now (u_id (AuthService.user res))) (users d) /\
  exists rows,
    user_sessions d = SessionsTable rows /\
    user_sessions d'
    = SessionsTable
        (List.map (supersede now (u_id (AuthService.user res))) rows
         ++ [{| s_id := next_id d;
                s_user_id := u_id (AuthService.user res);
                s_device_fingerprint := JS.or_str fp None;
                s_token_hash := hashToken (AuthService.token res);
                s_ip_address := JS.or_str ip None;
                s_user_agent := JS.or_str ua None;
                s_is_active := true;
                s_expires_at := AuthService.getTokenExpirationDate expiresIn now;
                s_invalidated_at := None;
                s_invalidation_reason := None;
                s_created_at := now |}])%list.
Proof.
  unfold AuthService.login. cbv [mbind M_bind bind gets].
  destruct (List.find _ (users d)) as [u|] eqn:Hfind; [|discriminate].
  destruct (u_is_active u) eqn:Hactive; cbn [negb]; [|discriminate].
  destruct (verifyPassword password (u_password_hash u)) eqn:Hpw; cbn [negb].
  2:{ cbv [modify throw]. discriminate. }
  unfold SessionsRepository.invalidateUserSessions, SessionsRepository.createSession.
  destruct (user_sessions d) as [rows|code message] eqn:Hrows; [|discriminate].
  cbn. rewrite supersede_is_the_update.
  apply find_some in Hfind as [Hin _].
  destruct (JS.truthy_ostr fp);
    cbv [DevicesRepository.registerDevice modify mret M_ret ret];
    intros Hrun; inversion Hrun; subst; clear Hrun; cbn;
    [destruct (existsb _ (user_devices d))|];
    (repeat split; try assumption; eexists; split; reflexivity).
Qed.

Lemma find_by_key_and {A} (key : A -> string) (q : A -> bool) (l : list A) (x : A) :
  NoDup (List.map key l) -> In x l -> q x = true ->
  List.find (fun y => String.eqb (key y) (key x) && q y) l = Some x.
Proof.
  induction l as [|y l IH]; intros Hnd Hin Hq; [destruct Hin|].
  cbn in *. apply NoDup_cons in Hnd as [Hy Hnd].
  destruct (String.eqb_spec (key y) (key x)) as [Heq|Hne]; cbn [andb].
  - destruct Hin as [->|Hin]; [rewrite Hq; reflexivity|].
    exfalso. apply Hy. rewrite Heq. apply list_elem_of_In, in_map, Hin.
  - destruct Hin as [->|Hin]; [congruence|]. apply IH; assumption.
Qed.

Lemma touchLogin_keeps (now : Z) (userId : string) (u : user_row) :
  u_id (AuthService.touchLogin now userId u) = u_id u /\
  u_is_active (AuthService.touchLogin now userId u) = u_is_active u /\
  u_email (AuthService.touchLogin now userId u) = u_email u /\
  u_password_hash (AuthService.touchLogin now userId u) = u_password_hash u.
Proof.
  unfold AuthService.touchLogin. destruct (u_id u =? userId)%string; repeat split.
Qed.

Lemma touchLogin_ids (now : Z) (userId : string) (l : list user_row) :
  List.map u_id (List.map (AuthService.touchLogin now userId) l) = List.map u_id l.
Proof.
  rewrite List.map_map. apply map_ext. intros u. apply touchLogin_keeps.
Qed.

(** The token of a login authenticates its user on any store that has
    the users and sessions the login left, while the session has not
    expired: the request goes through with the user row as the login
    updated it and the id of the session the login created. *)
Lemma authenticate_after_login {tok : Tokens} (expiresIn : option (Z * string))
      (now now' : Z) (email password : string) (ip ua fp : option string)
      (d d' d'' : db) (res : AuthService.loginResult) :
  AuthService.login expiresIn now email password ip ua fp d = (Return res, d') ->
  NoDup (List.map u_id (users d)) ->
  Forall (fun s => s_token_hash s <> hashToken (AuthService.token res)) (sessionRows d) ->
  jwt_verify (AuthService.token res) now' = Decoded (u_id (AuthService.user res)) ->
  (now' < AuthService.getTokenExpirationDate expiresIn now)%Z ->
  users d'' = users d' -> user_sessions d'' = user_sessions d' ->
  AuthMiddleware.authenticate now' (bearer (AuthService.token res)) d''
  = AuthMiddleware.Next
      (AuthService.touchLogin now (u_id (AuthService.user res)) (AuthService.user res))
      (Some (next_id d)).
Proof.
  intros Hlogin Hnd Hfresh Hjwt Hlive Hu'' Hs''.
  rewrite (authenticate_reads now' _ d'' d' Hu'' Hs'').
  destruct (login_returns _ _ _ _ _ _ _ _ _ _ Hlogin)
    as (Hin & Hactive & _ & _ & Husers & rows & Hrows & Hrows').
  set (u := AuthService.user res) in *.
  destruct (touchLogin_keeps now (u_id u) u) as (Kid & Kact & _).
  set (u' := AuthService.touchLogin now (u_id u) u) in *.
  assert (Hin' : In u' (users d'))
    by (rewrite Husers; apply in_map; exact Hin).
  assert (Hnd' : NoDup (List.map u_id (users d')))
    by (rewrite Husers, touchLogin_ids; exact Hnd).
  rewrite authenticate_bearer, Hjwt.
  unfold SessionsRepository.findActiveSessionByToken. rewrite Hrows'.
  rewrite omap_app, omap_nothing.
  2:{ unfold sessionRows in Hfresh. rewrite Hrows in Hfresh.
      apply List.Forall_forall. intros s Hs.
      apply in_map_iff in Hs as (s0 & <- & Hs0).
      unfold SessionsRepository.joinUser.
      destruct (supersede_keeps now (u_id u) s0) as (Kh & _). rewrite Kh.
      rewrite List.Forall_forall in Hfresh. specialize (Hfresh s0 Hs0).
      apply String.eqb_neq in Hfresh. rewrite Hfresh. reflexivity. }
  unfold SessionsRepository.joinUser.
  cbn [app omap list_omap s_token_hash s_is_active s_expires_at s_user_id].
  rewrite String.eqb_refl. apply Z.ltb_lt in Hlive. rewrite Hlive. cbn [andb].
  assert (Hfind : List.find (fun x => String.eqb (u_id x) (u_id u)) (users d') = Some u').
  { rewrite <- Kid. apply (find_by_key u_id); assumption. }
  rewrite Hfind. cbn. rewrite Kact, Hactive. cbn [negb].
  unfold AuthMiddleware.attachUser.
  assert (Hfind' : List.find (fun x => String.eqb (u_id x) (u_id u) && u_is_active x)
                             (users d') = Some u').
  { rewrite <- Kid. apply (find_by_key_and u_id u_is_active); try assumption.
    rewrite Kact. exact Hactive. }
  rewrite Hfind'. reflexivity.
Qed.

(** X21. A login that fails ends nobody's session: users, sessions,
    devices and attendance are as before, and only a wrong password
    leaves a trace, the 'login_failed' audit entry. The error is
    'Invalid credentials' for an unknown email or a wrong password,
    'Account pending approval' for an inactive user, checked before the
    password, and otherwise the driver error of a session table that
    cannot be read. *)
Theorem failed_login_ends_no_session
        (tok : Tokens) (expiresIn : option (Z * string)) (now : Z)
        (email password : string) (ip ua fp : option string)
        (d d' : db) (e : error) :
  AuthService.login expiresIn now email password ip ua fp d = (Throw e, d') ->
  sameButLog d d' /\
  (e = InvalidCredentials \/ e = AccountPendingApproval \/
   exists code message,
     user_sessions d = SessionsUnavailable code message /\ e = DbError code message) /\
  (d' = d \/
   exists u,
     List.find (fun u => String.eqb (u_email u) email) (users d) = Some u /\
     u_is_active u = true /\
     verifyPassword password (u_password_hash u) = false /\
     activities d'
     = (activities d ++
        [{| act_user_id := u_id u; act_action := "login_failed";
            act_entity_type := "auth";
            act_entity_id := Some (UserEntity (u_id u));
            act_description := "Failed login attempt" |}])%list).
Proof.
  intros Hrun. destruct (login_throws _ _ _ _ _ _ _ _ _ _ Hrun) as [Hsame Hwhy].
  split; [exact Hsame|].
  destruct (List.find _ (users d)) as [u|].
  2:{ destruct Hwhy as [-> ->]. auto. }
  destruct (u_is_active u) eqn:Hact; cbn [negb] in Hwhy.
  2:{ destruct Hwhy as [-> ->]. auto. }
  destruct (verifyPassword password (u_password_hash u)) eqn:Hpw; cbn [negb] in Hwhy.
  - destruct Hwhy as (code & message & Hs & -> & ->). split; [|left; reflexivity].
    right. right. exists code, message. auto.
  - destruct Hwhy as [-> ->]. split; [auto|]. right. exists u.
    repeat split; assumption.
Qed.

(** X22. Login fails closed where authenticate fails open: when the
    user_sessions table cannot be read, no login succeeds. With an
    active user and the right password the driver's error is rethrown
    and the store is untouched: no session, no device, no last-login
    time, no audit entry. *)
Theorem login_fails_closed_without_sessions
        (tok : Tokens) (expiresIn : option (Z * string)) (now : Z)
        (email password : string) (ip ua fp : option string)
        (d : db) (code message : string) :
  user_sessions d = SessionsUnavailable code message ->
  exists e d',
    AuthService.login expiresIn now email password ip ua fp d = (Throw e, d') /\
    sameButLog d d' /\
    (forall u,
        List.find (fun u => String.eqb (u_email u) email) (users d) = Some u ->
        u_is_active u = true ->
        verifyPassword password (u_password_hash u) = true ->
        e = DbError code message /\ d' = d).
Proof.
  intros Hs.
  destruct (AuthService.login expiresIn now email password ip ua fp d) as [[res|e] d'] eqn:Hrun.
  - destruct (login_returns _ _ _ _ _ _ _ _ _ _ Hrun) as (_ & _ & _ & _ & _ & rows & Hrows & _).
    congruence.
  - exists e, d'. split; [reflexivity|].
    destruct (login_throws _ _ _ _ _ _ _ _ _ _ Hrun) as [Hsame Hwhy].
    split; [exact Hsame|].
    intros u Hfind Hact Hpw. rewrite Hfind, Hact, Hpw in Hwhy. cbn [negb] in Hwhy.
    destruct Hwhy as (code' & message' & Hs' & -> & ->).
    rewrite Hs in Hs'. inversion Hs'; subst. auto.
Qed.

(** X23. Login and authenticate fit together: the token returned by a
    login, presented as a Bearer header before the session expires,
    passes authenticate, which attaches the user row as the login left
    it (last login time set) and the id of the session the login
    created. User ids are unique, no older session row stores the same
    token hash, and the token verifies for its user. *)
Theorem login_then_authenticate
        (tok : Tokens) (expiresIn : option (Z * string))
        (now now' : Z) (email password : string) (ip ua fp : option string)
        (d d' : db) (res : AuthService.loginResult) :
  AuthService.login expiresIn now email password ip ua fp d = (Return res, d') ->
  NoDup (List.map u_id (users d)) ->
  Forall (fun s => s_token_hash s <> hashToken (AuthService.token res)) (sessionRows d) ->
  jwt_verify (AuthService.token res) now' = Decoded (u_id (AuthService.user res)) ->
  (now' < AuthService.getTokenExpirationDate expiresIn now)%Z ->
  AuthMiddleware.authenticate now' (bearer (AuthService.token res)) d'
  = AuthMiddleware.Next
      {| u_id := u_id (AuthService.user res);
         u_email := u_email (AuthService.user res);
         u_password_hash := u_password_hash (AuthService.user res);
         u_role := u_role (AuthService.user res);
         u_facility_id := u_facility_id (AuthService.user res);
         u_is_active := true;
         u_last_login_at := Some now |}
      (Some (next_id d)).
Proof.
  intros Hlogin Hnd Hfresh Hjwt Hlive.
  rewrite (authenticate_after_login expiresIn now now' email password ip ua fp
             d d' d' res Hlogin Hnd Hfresh Hjwt Hlive eq_refl eq_refl).
  destruct (login_returns _ _ _ _ _ _ _ _ _ _ Hlogin) as (_ & Hactive & _).
  unfold AuthService.touchLogin. rewrite String.eqb_refl, Hactive. reflexivity.
Qed.

(** X24. Logging out does not end the session. The logout handler only
    writes its audit entry: the session table is unchanged, so the
    token of the login still passes authenticate afterwards, with the
    same user and session id, until the session expires or the user
    logs in again. *)
Theorem logout_keeps_the_session
        (tok : Tokens) (expiresIn : option (Z * string))
        (now now' : Z) (email password : string) (ip ua fp : option string)
        (d d' : db) (res : AuthService.loginResult) :
  AuthService.login expiresIn now email password ip ua fp d = (Return res, d') ->
  NoDup (List.map u_id (users d)) ->
  Forall (fun s => s_token_hash s <> hashToken (AuthService.token res)) (sessionRows d) ->
  jwt_verify (AuthService.token res) now' = Decoded (u_id (AuthService.user res)) ->
  (now' < AuthService.getTokenExpirationDate expiresIn now)%Z ->
  let after := AuthController.logout (AuthService.user res) d' in
  fst after = Return (200%Z, "Logout successful") /\
  user_sessions (snd after) = user_sessions d' /\
  last (activities (snd after))
  = Some {| act_user_id := u_id (AuthService.user res); act_action := "logout";
            act_entity_type := "auth";
            act_entity_id := Some (UserEntity (u_id (AuthService.user res)));
            act_description := "User logged out" |} /\
  AuthMiddleware.authenticate now' (bearer (AuthService.token res)) (snd after)
  = AuthMiddleware.authenticate now' (bearer (AuthService.token res)) d' /\
  exists u, AuthMiddleware.authenticate now' (bearer (AuthService.token res)) (snd after)
            = AuthMiddleware.Next u (Some (next_id d)).
Proof.
  intros Hlogin Hnd Hfresh Hjwt Hlive after.
  assert (Hu : users (snd after) = users d') by reflexivity.
  assert (Hs : user_sessions (snd after) = user_sessions d') by reflexivity.
  split; [reflexivity|]. split; [exact Hs|].
  split; [subst after; cbn; apply last_snoc|].
  split; [apply authenticate_reads; assumption|].
  eexists.
  apply (authenticate_after_login expiresIn now now' email password ip ua fp
           d d' (snd after) res Hlogin Hnd Hfresh Hjwt Hlive Hu Hs).
Qed.

Lemma prefix_split (p s : string) :
  String.prefix p s = true ->
  s = p ++ JS.substring_from (String.length p) s.
Proof.
  unfold JS.substring_from. revert s.
  induction p as [|a p IH]; intros s Hp.
  - cbn. rewrite Nat.sub_0_r, substring_all. reflexivity.
  - destruct s as [|b s]; [discriminate|]. cbn in Hp.
    destruct (Ascii.ascii_dec a b) as [->|]; [|discriminate].
    cbn [String.length Nat.sub substring].
    rewrite (IH s Hp) at 1. reflexivity.
Qed.

Lemma head_omap_some {A B} (f : A -> option B) (l : list A) (b : B) :
  head (omap f l) = Some b -> exists a, In a l /\ f a = Some b.
Proof.
  induction l as [|x l IH]; cbn; [discriminate|].
  destruct (f x) as [y|] eqn:Hx; cbn.
  - intros H; inversion H; subst. exists x. auto.
  - intros H. destruct (IH H) as (a & Hin & Ha). exists a. auto.
Qed.

(** X25. authenticate lets through only what it checked. Whenever it
    calls next(), the header is 'Bearer ' followed by a token that
    verifies for the attached user, that user is a row of the users
    table and is active, and a session id, when attached, is the id of
    a stored session with the token's hash that is active and not
    expired; next() without a session id happens only when the session
    table cannot be read. *)
Theorem authenticate_admits_only_checked_requests
        (tok : Tokens) (now : Z) (authorization : option string) (d : db)
        (u : user_row) (sessionId : option N) :
  AuthMiddleware.authenticate now authorization d = AuthMiddleware.Next u sessionId ->
  In u (users d) /\ u_is_active u = true /\
  exists token,
    authorization = bearer token /\
    jwt_verify token now = Decoded (u_id u) /\
    match sessionId with
    | Some i =>
        exists s, In s (sessionRows d) /\ s_id s = i /\
                  s_token_hash s = hashToken token /\
                  s_is_active s = true /\ (now < s_expires_at s)%Z
    | None => exists code message, user_sessions d = SessionsUnavailable code message
    end.
Proof.
  unfold AuthMiddleware.authenticate.
  destruct authorization as [authHeader|]; [|discriminate].
  destruct (negb (authHeader =? EmptyString)%string); cbn [andb]; [|discriminate].
  unfold JS.startsWith.
  destruct (String.prefix "Bearer " authHeader) eqn:Hp; [|discriminate].
  apply prefix_split in Hp. change (String.length "Bearer ") with 7 in Hp.
  remember (JS.substring_from 7 authHeader) as token eqn:Htoken.
  destruct (jwt_verify token now) as [userId| | |] eqn:Hjwt; try discriminate.
  assert (Hattach : forall sid,
             AuthMiddleware.attachUser d userId sid = AuthMiddleware.Next u sessionId ->
             In u (users d) /\ u_is_active u = true /\ u_id u = userId /\ sid = sessionId).
  { intros sid. unfold AuthMiddleware.attachUser.
    destruct (List.find _ (users d)) as [u0|] eqn:Hfind; [|discriminate].
    intros H; inversion H; subst. apply find_some in Hfind as [Hin Hq].
    apply andb_true_iff in Hq as [Hid Hact]. apply String.eqb_eq in Hid. auto. }
  unfold SessionsRepository.findActiveSessionByToken, sessionRows.
  destruct (user_sessions d) as [rows|code message].
  - destruct (head (omap _ rows)) as [[s active]|] eqn:Hhead; [|discriminate].
    destruct (negb active); [discriminate|].
    intros Hrun. destruct (Hattach _ Hrun) as (Hin & Hact & Hid & <-).
    split; [exact Hin|]. split; [exact Hact|].
    exists token. split; [unfold bearer; f_equal; exact Hp|].
    split; [rewrite Hid; exact Hjwt|].
    apply head_omap_some in Hhead as (s0 & Hs0 & Hjoin).
    unfold SessionsRepository.joinUser in Hjoin.
    destruct (_ && _ && _) eqn:Hcond; [|discriminate].
    destruct (List.find _ (users d)); [|discriminate].
    inversion Hjoin; subst s0.
    apply andb_true_iff in Hcond as [Hcond Hexp].
    apply andb_true_iff in Hcond as [Hhash Hactive].
    apply String.eqb_eq in Hhash. apply Z.ltb_lt in Hexp.
    exists s. repeat split; assumption.
  - intros Hrun. destruct (Hattach _ Hrun) as (Hin & Hact & Hid & <-).
    split; [exact Hin|]. split; [exact Hact|].
    exists token. split; [unfold bearer; f_equal; exact Hp|].
    split; [rewrite Hid; exact Hjwt|]. exists code, message. reflexivity.
Qed.

Lemma with_sessions_same (d : db) : with_sessions d (user_sessions d) = d.
Proof. destruct d; reflexivity. Qed.

Lemma map_unselected {A} (sel : A -> bool) (f : A -> A) (l : list A) :
  List.filter sel l = [] -> List.map (fun x => if sel x then f x else x) l = l.
Proof.
  induction l as [|x l IH]; cbn; [reflexivity|].
  destruct (sel x); [discriminate|]. intros H. rewrite IH by exact H. reflexivity.
Qed.

(** X26. invalidateSession ends the session it names and only that
    one. It answers true exactly when an active row had the id; when it
    answers false the store is unchanged. Afterwards no token finds a
    session with that id, at any time, and every row with another id is
    still in the table as it was. *)
Theorem invalidated_session_is_not_found
        (tok : Tokens) (now : Z) (sessionId : N) (reason : string)
        (d : db) (rows : list session_row) :
  user_sessions d = SessionsTable rows ->
  exists b d',
    SessionsRepository.invalidateSession now sessionId reason d = (Return b, d') /\
    (b = true <-> exists s, In s rows /\ s_id s = sessionId /\ s_is_active s = true) /\
    (b = false -> d' = d) /\
    (forall now' token s active,
        SessionsRepository.findActiveSessionByToken now' token d'
        = Return (Some (s, active)) -> s_id s <> sessionId) /\
    (forall s, In s rows -> s_id s <> sessionId -> In s (sessionRows d')).
Proof.
  intros Hrows. unfold SessionsRepository.invalidateSession. rewrite Hrows.
  eexists _, _. split; [reflexivity|].
  split; [|split; [|split]].
  - rewrite Nat.ltb_lt. split.
    + intros Hlen.
      destruct (List.filter (SessionsRepository.selected sessionId) rows) as [|s l] eqn:E;
        [cbn in Hlen; lia|].
      assert (Hs : In s (List.filter (SessionsRepository.selected sessionId) rows))
        by (rewrite E; left; reflexivity).
      apply filter_In in Hs as [Hin Hsel]. apply andb_true_iff in Hsel as [Hid Hact].
      apply N.eqb_eq in Hid. exists s. auto.
    + intros (s & Hin & Hid & Hact).
      assert (Hs : In s (List.filter (SessionsRepository.selected sessionId) rows)).
      { apply filter_In. split; [exact Hin|]. unfold SessionsRepository.selected.
        rewrite Hid, Hact, N.eqb_refl. reflexivity. }
      destruct (List.filter _ rows); [destruct Hs|cbn; lia].
  - intros Hb. apply Nat.ltb_ge in Hb.
    assert (Hnone : List.filter (SessionsRepository.selected sessionId) rows = []).
    { destruct (List.filter _ rows); [reflexivity|cbn in Hb; lia]. }
    rewrite (map_unselected _ _ _ Hnone), <- Hrows. apply with_sessions_same.
  - intros now' token s active.
    unfold SessionsRepository.findActiveSessionByToken.
    cbn [user_sessions with_sessions]. intros Hfound. inversion Hfound as [Hhead].
    apply head_omap_some in Hhead as (s0 & Hin & Hjoin).
    unfold SessionsRepository.joinUser in Hjoin.
    destruct (_ && _ && _) eqn:Hcond; [|discriminate].
    destruct (List.find _ _); [|discriminate]. inversion Hjoin; subst s0.
    apply andb_true_iff in Hcond as [Hcond _].
    apply andb_true_iff in Hcond as [_ Hactive].
    apply in_map_iff in Hin as (s1 & Hs & Hin1).
    destruct (SessionsRepository.selected sessionId s1) eqn:Hsel.
    + subst s. discriminate.
    + subst s1. unfold SessionsRepository.selected in Hsel. rewrite Hactive in Hsel.
      rewrite andb_true_r in Hsel. apply N.eqb_neq in Hsel. exact Hsel.
  - intros s Hin Hid. unfold sessionRows. cbn [user_sessions with_sessions].
    apply in_map_iff. exists s. split; [|exact Hin].
    unfold SessionsRepository.selected. apply N.eqb_neq in Hid. rewrite Hid. reflexivity.
Qed.

Lemma omap_after_cleanup {tok : Tokens} (d d' : db) (now now' : Z)
      (tokenHash : string) (rows : list session_row) :
  users d' = users d -> (now <= now')%Z ->
  omap (SessionsRepository.joinUser d' now' tokenHash)
       (List.map (fun s => if SessionsRepository.lapsed now s
                           then SessionsRepository.invalidated now "expired" s else s) rows)
  = omap (SessionsRepository.joinUser d now' tokenHash) rows.
Proof.
  intros Hu Hle. induction rows as [|s rows IH]; [reflexivity|].
  cbn [List.map omap list_omap]. rewrite IH.
  destruct (SessionsRepository.lapsed now s) eqn:Hl.
  - unfold SessionsRepository.lapsed in Hl. apply andb_true_iff in Hl as [Hact Hexp].
    apply Z.ltb_lt in Hexp.
    unfold SessionsRepository.joinUser. cbn [s_token_hash s_is_active
      s_expires_at SessionsRepository.invalidated].
    rewrite Hact, andb_false_r. cbn [andb].
    assert (Hdead : (now' <? s_expires_at s)%Z = false) by (apply Z.ltb_ge; lia).
    rewrite Hdead, andb_false_r. reflexivity.
  - unfold SessionsRepository.joinUser. rewrite Hu. reflexivity.
Qed.

(** X27. The scheduled clean-up is invisible to requests. It marks the
    active rows whose expiry lies before the clock as inactive with
    reason 'expired' and returns their number; run again at once it
    finds nothing. For every header and every later time, authenticate
    answers on the cleaned store as on the old one, and every user's
    count of active sessions is the same. *)
Theorem cleanup_is_invisible_to_requests
        (tok : Tokens) (now : Z) (d : db) (rows : list session_row) :
  user_sessions d = SessionsTable rows ->
  exists d',
    SessionsRepository.cleanupExpiredSessions now d
    = (Return (length (List.filter (SessionsRepository.lapsed now) rows)), d') /\
    fst (SessionsRepository.cleanupExpiredSessions now d') = Return 0 /\
    (forall now' authorization,
        (now <= now')%Z ->
        AuthMiddleware.authenticate now' authorization d'
        = AuthMiddleware.authenticate now' authorization d) /\
    (forall now' userId,
        (now <= now')%Z ->
        SessionsRepository.countActiveSessions now' userId d'
        = SessionsRepository.countActiveSessions now' userId d).
Proof.
  intros Hrows. unfold SessionsRepository.cleanupExpiredSessions at 1. rewrite Hrows.
  eexists. split; [reflexivity|].
  split; [|split].
  - unfold SessionsRepository.cleanupExpiredSessions. cbn [user_sessions with_sessions fst].
    f_equal. clear Hrows. induction rows as [|s rows IH]; [reflexivity|].
    cbn [List.map List.filter].
    destruct (SessionsRepository.lapsed now s) eqn:Hl.
    + unfold SessionsRepository.lapsed at 1. cbn. exact IH.
    + rewrite Hl. exact IH.
  - intros now' authorization Hle.
    unfold AuthMiddleware.authenticate, SessionsRepository.findActiveSessionByToken,
      AuthMiddleware.attachUser.
    cbn [user_sessions users with_sessions]. rewrite Hrows.
    destruct authorization as [authHeader|]; [|reflexivity].
    destruct (_ && _); [|reflexivity].
    destruct (jwt_verify _ now'); try reflexivity.
    rewrite (omap_after_cleanup d) by (reflexivity || exact Hle). reflexivity.
  - intros now' userId Hle. unfold SessionsRepository.countActiveSessions.
    cbn [user_sessions with_sessions]. rewrite Hrows. f_equal.
    clear Hrows. induction rows as [|s rows IH]; [reflexivity|].
    cbn [List.map List.filter].
    destruct (SessionsRepository.lapsed now s) eqn:Hl.
    + unfold SessionsRepository.lapsed in Hl. apply andb_true_iff in Hl as [Hact Hexp].
      apply Z.ltb_lt in Hexp.
      assert (Hdead : (now' <? s_expires_at s)%Z = false) by (apply Z.ltb_ge; lia).
      assert (H1 : SessionsRepository.live now' userId
                     (SessionsRepository.invalidated now "expired" s) = false).
      { unfold SessionsRepository.live. cbn. rewrite andb_false_r. reflexivity. }
      assert (H2 : SessionsRepository.live now' userId s = false).
      { unfold SessionsRepository.live. rewrite Hdead. apply andb_false_r. }
      rewrite H1, H2. exact IH.
    + destruct (SessionsRepository.live now' userId s); cbn [length]; rewrite IH; reflexivity.
Qed.

(** X28. invalidateUserSessions with an excepted session ends the
    user's other active sessions and nothing else: it returns their
    number, every row of the user that is still active afterwards has
    the excepted id, rows of other users, inactive rows and the
    excepted row stay as they were, and every other user's count of
    active sessions is unchanged. *)
Theorem invalidate_all_but_one
        (now : Z) (userId reason : string) (keep : N)
        (d : db) (rows : list session_row) :
  user_sessions d = SessionsTable rows ->
  exists rows',
    SessionsRepository.invalidateUserSessions now userId reason (Some keep) d
    = (Return (length (List.filter
                         (fun s => activeSessionOf userId s && negb (N.eqb (s_id s) keep))
                         rows)),
       with_sessions d (SessionsTable rows')) /\
    length rows' = length rows /\
    (forall s, In s rows' -> activeSessionOf userId s = true -> s_id s = keep) /\
    (forall s, In s rows ->
               s_user_id s <> userId \/ s_is_active s = false \/ s_id s = keep ->
               In s rows') /\
    (forall now' other,
        other <> userId ->
        SessionsRepository.countActiveSessions now' other
          (with_sessions d (SessionsTable rows'))
        = SessionsRepository.countActiveSessions now' other d).
Proof.
  intros Hrows. unfold SessionsRepository.invalidateUserSessions. rewrite Hrows.
  eexists. split; [reflexivity|].
  split; [apply length_map|]. split; [|split].
  - intros s Hin Hact. apply in_map_iff in Hin as (s0 & Hs & _).
    unfold SessionsRepository.targeted in Hs.
    destruct (_ && _ && _) eqn:Ht.
    + subst s. unfold activeSessionOf in Hact. cbn in Hact.
      rewrite andb_false_r in Hact. discriminate.
    + subst s0. unfold activeSessionOf in Hact. rewrite Hact in Ht. cbn [andb] in Ht.
      apply negb_false_iff, N.eqb_eq in Ht. exact Ht.
  - intros s Hin Hwhy. apply in_map_iff. exists s. split; [|exact Hin].
    unfold SessionsRepository.targeted.
    destruct Hwhy as [Hu | [Ha | Hk]].
    + apply String.eqb_neq in Hu. rewrite Hu. reflexivity.
    + rewrite Ha, andb_false_r. reflexivity.
    + rewrite Hk, N.eqb_refl, andb_false_r. reflexivity.
  - intros now' other Hother. unfold SessionsRepository.countActiveSessions.
    cbn [user_sessions with_sessions]. rewrite Hrows. f_equal.
    clear Hrows. induction rows as [|s rows IH]; [reflexivity|].
    cbn [List.map List.filter].
    assert (Hsame : SessionsRepository.live now' other
                      (if SessionsRepository.targeted userId (Some keep) s
                       then SessionsRepository.invalidated now reason s else s)
                    = SessionsRepository.live now' other s).
    { unfold SessionsRepository.targeted.
      destruct (String.eqb_spec (s_user_id s) userId) as [Hu|Hu]; [|reflexivity].
      destruct (_ && _ && _); [|reflexivity].
      unfold SessionsRepository.live. cbn. rewrite Hu.
      apply not_eq_sym, String.eqb_neq in Hother. rewrite Hother. reflexivity. }
    rewrite Hsame. destruct (SessionsRepository.live now' other s); cbn [length];
      rewrite IH; reflexivity.
Qed.

(** ** The rate limiter in front of clock-in and clock-out *)

Lemma limiter_blocked (o : RateLimiter.options) (now : Z) (identifier : string)
      (s : RateLimiter.store) (unblockTime : Z) :
  RateLimiter.blocked s !! identifier = Some unblockTime ->
  unblockTime <> 0%Z -> (now <= unblockTime)%Z ->
  RateLimiter.createRateLimiter o now identifier s = (RateLimiter.RateLimitBlocked, s).
Proof.
  intros Hb Hnz Hle. unfold RateLimiter.createRateLimiter, RateLimiter.isBlocked.
  rewrite Hb. apply Z.eqb_neq in Hnz. rewrite Hnz.
  assert (Hn : (unblockTime <? now)%Z = false) by (apply Z.ltb_ge; lia).
  rewrite Hn. reflexivity.
Qed.

(** X29. Exceeding the limit blocks the caller. A request that is
    answered RATE_LIMIT_EXCEEDED at time t is followed, for every
    request of the same identifier up to and including t +
    blockDuration, by RATE_LIMIT_BLOCKED, and such a request changes
    nothing: the counter is not incremented while the block lasts. *)
Theorem exceeding_blocks_the_identifier
        (o : RateLimiter.options) (t t' : Z) (identifier : string)
        (s s' : RateLimiter.store) (retryAfter : Z) :
  RateLimiter.createRateLimiter o t identifier s
  = (RateLimiter.RateLimitExceeded retryAfter, s') ->
  (t + RateLimiter.blockDuration o <> 0)%Z ->
  (t' <= t + RateLimiter.blockDuration o)%Z ->
  RateLimiter.createRateLimiter o t' identifier s' = (RateLimiter.RateLimitBlocked, s') /\
  retryAfter = RateLimiter.retryAfterOf o /\
  exists data, RateLimiter.requests s' !! identifier = Some data /\
               (RateLimiter.maxAttempts o < RateLimiter.count data)%Z.
Proof.
  intros Hrun Hnz Hle.
  unfold RateLimiter.createRateLimiter in Hrun.
  destruct (RateLimiter.isBlocked t identifier s) as [[|] s1]; [discriminate|].
  destruct (RateLimiter.increment t identifier (RateLimiter.windowMs o) s1)
    as [data s2] eqn:Hinc.
  destruct (RateLimiter.maxAttempts o <? RateLimiter.count data)%Z eqn:Hover;
    [|discriminate].
  inversion Hrun; subst retryAfter s'. clear Hrun.
  split; [|split; [reflexivity|]].
  - apply (limiter_blocked o t' identifier _ (t + RateLimiter.blockDuration o));
      [|exact Hnz|exact Hle].
    unfold RateLimiter.block. cbn. apply lookup_insert_eq.
  - exists data. split; [|apply Z.ltb_lt; exact Hover].
    unfold RateLimiter.increment in Hinc. inversion Hinc; subst.
    unfold RateLimiter.block. cbn. apply lookup_insert_eq.
Qed.

(** X30. Within one window the limiter admits at most maxAttempts
    requests of an identifier. From a store where the identifier has
    made [c] requests in a window ending at [r], serve any sequence of
    requests, those of other identifiers at any time and in any
    interleaving, those of the identifier at times up to [r]: at most
    maxAttempts - c of the identifier's requests reach next(). Requests
    of other identifiers neither use up nor refill its allowance. *)
Theorem window_admits_at_most_max_attempts
        (o : RateLimiter.options) (identifier : string)
        (requests : list (Z * string)) (s : RateLimiter.store) (c r : Z) :
  RateLimiter.requests s !! identifier
  = Some {| RateLimiter.count := c; RateLimiter.resetTime := r |} ->
  Forall (fun q => snd q = identifier -> (fst q <= r)%Z) requests ->
  admitted o identifier requests s <= Z.to_nat (RateLimiter.maxAttempts o - c).
Proof.
  intros Hentry Htimes. revert s c Hentry.
  induction Htimes as [|[t caller] rest Ht _ IH]; intros s c Hentry; cbn [admitted].
  - lia.
  - cbn [fst snd] in Ht.
    unfold RateLimiter.createRateLimiter.
    (* the block check keeps the counters *)
    assert (Hblk : RateLimiter.requests (snd (RateLimiter.isBlocked t caller s))
                   = RateLimiter.requests s).
    { unfold RateLimiter.isBlocked.
      destruct (RateLimiter.blocked s !! caller) as [u|]; [|reflexivity].
      destruct (u =? 0)%Z; [reflexivity|]. destruct (u <? t)%Z; reflexivity. }
    destruct (RateLimiter.isBlocked t caller s) as [[|] s1]; cbn [snd] in Hblk.
    { cbn [Nat.add]. apply IH. rewrite Hblk. exact Hentry. }
    unfold RateLimiter.increment, RateLimiter.get. rewrite Hblk.
    destruct (String.eqb_spec caller identifier) as [->|Hother].
    + rewrite Hentry.
      cbn [default from_option Datatypes.id RateLimiter.resetTime RateLimiter.count].
      assert (Hin : (r <? t)%Z = false) by (apply Z.ltb_ge; apply Ht; reflexivity).
      rewrite Hin. cbn [RateLimiter.count RateLimiter.resetTime].
      destruct (RateLimiter.maxAttempts o <? c + 1)%Z eqn:Hover.
      * cbn [Nat.add]. apply Z.ltb_lt in Hover.
        etransitivity.
        { apply (IH _ (c + 1)%Z). unfold RateLimiter.block. cbn. apply lookup_insert_eq. }
        lia.
      * apply Z.ltb_ge in Hover.
        etransitivity.
        { apply Nat.add_le_mono_l.
          apply (IH _ (c + 1)%Z). cbn. apply lookup_insert_eq. }
        lia.
    + match goal with
      | |- context [(RateLimiter.maxAttempts o <? RateLimiter.count ?data)%Z] =>
          destruct (RateLimiter.maxAttempts o <? RateLimiter.count data)%Z
      end; cbn [Nat.add]; apply IH; unfold RateLimiter.block; cbn;
        rewrite lookup_insert_ne by exact Hother; exact Hentry.
Qed.

(** ** The further statements on the sample data *)

Lemma rejected_clock_in_writes_no_attendance_witness :
  sameButLog Sample.store
    (snd (Sample.clockIn Sample.morning Sample.farAway Sample.alice Sample.store)).
Proof.
  apply (rejected_clock_in_writes_no_attendance RationalMath.rationalMath
           Sample.validateGeofence Sample.morning Sample.farAway Sample.alice
           Sample.store (OutsideGeofence (Some 1156788%Z) None (Some 100%Z))).
  vm_compute. reflexivity.
Defined.

Lemma accepted_clock_in_is_recorded_witness :
  attendances Sample.storeAfterClockIn = [Sample.firstShift] /\
  id Sample.firstShift = Some 1%N /\
  status Sample.firstShift = Some "active".
Proof.
  pose proof (accepted_clock_in_is_recorded RationalMath.rationalMath
                Sample.validateGeofence Sample.morning Sample.atTheClinic Sample.alice
                Sample.store Sample.firstShift Sample.storeAfterClockIn)
    as H.
  destruct H as (Hatt & Hid & _ & _ & Hstatus & _).
  - vm_compute. reflexivity.
  - split; [exact Hatt|]. split; [exact Hid|exact Hstatus].
Defined.

Lemma clock_in_then_status_and_second_clock_in_witness :
  AttendanceService.getCurrentStatus "u1" Sample.storeAfterClockIn
  = (Return (Some Sample.firstShift), Sample.storeAfterClockIn) /\
  AttendanceService.clockIn (H := RationalMath.rationalMath)
    Sample.validateGeofenceSkipping (Sample.morning + 60000)
    Sample.takenOffline Sample.alice Sample.storeAfterClockIn
  = (Throw AlreadyClockedIn, Sample.storeAfterClockIn).
Proof.
  apply (clock_in_then_status_and_second_clock_in RationalMath.rationalMath
           Sample.validateGeofence Sample.validateGeofenceSkipping
           Sample.morning (Sample.morning + 60000)
           Sample.atTheClinic Sample.takenOffline Sample.alice Sample.store).
  vm_compute. reflexivity.
Defined.

Lemma offline_clock_in_is_unverified_witness :
  match Sample.clockIn Sample.morning Sample.takenOffline Sample.alice Sample.store with
  | (Return a, _) =>
      validation_status a = Some "unverified" /\
      clock_in_accuracy_meters a = None /\
      clock_in_distance_meters a = None /\
      synced a = Some false /\
      exists m, metadata a = Some m /\
                m !! "clock_in_method" = Some (JStr "offline")
  | (Throw e, d') =>
      d' = Sample.store /\
      (e = AlreadyClockedIn \/ e = FacilityRequired \/
       exists code, e = AttendanceRepository.constraintError code)
  end.
Proof.
  apply (offline_clock_in_is_unverified RationalMath.rationalMath
           Sample.validateGeofence Sample.morning Sample.takenOffline Sample.alice
           Sample.store).
  reflexivity.
Defined.

Lemma mocked_reading_is_rejected_witness :
  exists e d',
    Sample.clockIn Sample.morning Sample.mocked Sample.alice Sample.storeWithRecent
    = (Throw e, d') /\
    sameButLog Sample.storeWithRecent d' /\ e = MockLocation.
Proof.
  destruct (mocked_reading_is_rejected RationalMath.rationalMath
              Sample.validateGeofence Sample.morning Sample.mocked Sample.alice
              Sample.storeWithRecent)
    as (e & d' & Hrun & Hsame & Hwhy).
  - reflexivity.
  - reflexivity.
  - exists e, d'. split; [exact Hrun|]. split; [exact Hsame|].
    apply Hwhy.
    + vm_compute. reflexivity.
    + reflexivity.
    + vm_compute. reflexivity.
    + exists (40 # 1)%Q. split; [reflexivity|]. vm_compute. discriminate.
Defined.

Lemma clock_out_without_clock_in_witness :
  Sample.clockOut Sample.afternoon Sample.leaving Sample.alice Sample.storeWithRecent
  = (Throw NotClockedIn, Sample.storeWithRecent).
Proof.
  apply (clock_out_without_clock_in RationalMath.rationalMath
           Sample.validateGeofence Sample.afternoon Sample.leaving Sample.alice
           Sample.storeWithRecent).
  intros r [<-|[]] (_ & Hstatus & _). vm_compute in Hstatus. discriminate.
Defined.

Lemma rejected_clock_out_changes_nothing_witness :
  sameButLog Sample.storeAfterClockIn
    (snd (Sample.clockOut Sample.afternoon Sample.leavingBlind Sample.alice
            Sample.storeAfterClockIn)).
Proof.
  apply (rejected_clock_out_changes_nothing RationalMath.rationalMath
           Sample.validateGeofence Sample.afternoon Sample.leavingBlind Sample.alice
           Sample.storeAfterClockIn CoordinatesRequired).
  vm_compute. reflexivity.
Defined.

Lemma accepted_clock_out_completes_the_row_witness :
  status Sample.completedShift = Some "completed" /\
  clock_out_time Sample.completedShift = Some Sample.afternoon /\
  length (attendances (snd Sample.shiftEnd)) = 1.
Proof.
  pose proof (accepted_clock_out_completes_the_row RationalMath.rationalMath
                Sample.validateGeofence Sample.afternoon Sample.leaving Sample.alice
                Sample.storeAfterClockIn Sample.completedShift (snd Sample.shiftEnd))
    as H.
  destruct H as (Hstatus & Htime & _ & Hlen & _).
  - vm_compute. reflexivity.
  - split; [exact Hstatus|]. split; [exact Htime|exact Hlen].
Defined.

Lemma clock_out_frees_the_user_witness :
  AttendanceService.getCurrentStatus "u1" (snd Sample.shiftEnd)
  = (Return None, snd Sample.shiftEnd).
Proof.
  apply (clock_out_frees_the_user RationalMath.rationalMath
           Sample.validateGeofence Sample.afternoon Sample.leaving Sample.alice
           Sample.storeAfterClockIn Sample.firstShift Sample.completedShift).
  - vm_compute. reflexivity.
  - vm_compute. reflexivity.
Defined.

Lemma inactive_facility_blocks_clock_in_witness :
  exists e d',
    AttendanceService.clockIn (H := RationalMath.rationalMath)
      (Geofencing.validateGeofence (H := RationalMath.rationalMath))
      Sample.morning Sample.atNowhere Sample.alice Sample.store
    = (Throw e, d') /\
    attendances d' = attendances Sample.store.
Proof.
  apply (inactive_facility_blocks_clock_in RationalMath.rationalMath
           Sample.morning Sample.atNowhere Sample.alice Sample.store "f9").
  - reflexivity.
  - reflexivity.
  - reflexivity.
Defined.

Lemma resync_is_idempotent_witness :
  AttendanceRepository.bulkSync (Sample.morning + 60000) [Sample.stamped]
    Sample.storeAfterSync
  = (Return {| AttendanceRepository.inserted := [];
               AttendanceRepository.updated := [];
               AttendanceRepository.errors := [] |}, Sample.storeAfterSync).
Proof.
  apply (resync_is_idempotent Sample.morning (Sample.morning + 60000) Sample.stamped
           (AttendanceRepository.insertedRow Sample.morning Sample.store Sample.stamped)
           "phone-1" (Sample.morning - Sample.msPerDay) Sample.store).
  - reflexivity.
  - reflexivity.
  - vm_compute. reflexivity.
Defined.

Lemma failed_login_ends_no_session_witness :
  sameButLog (snd Sample.firstLogin)
    (snd (AuthService.login (H := Sample.tokens) (Some (24%Z, "h"))
            (Sample.morning + 60000) "alice@woti.org" "guess" None None None
            (snd Sample.firstLogin))).
Proof.
  apply (failed_login_ends_no_session Sample.tokens (Some (24%Z, "h"))
           (Sample.morning + 60000) "alice@woti.org" "guess" None None None
           (snd Sample.firstLogin) _ InvalidCredentials).
  vm_compute. reflexivity.
Defined.

Lemma login_fails_closed_without_sessions_witness :
  exists e d',
    AuthService.login (H := Sample.tokens) (Some (24%Z, "h")) Sample.morning
      "alice@woti.org" "pw" None None None Sample.storeBeforeMigration
    = (Throw e, d') /\
    e = DbError "42P01" "relation user_sessions does not exist" /\
    d' = Sample.storeBeforeMigration.
Proof.
  destruct (login_fails_closed_without_sessions Sample.tokens (Some (24%Z, "h"))
              Sample.morning "alice@woti.org" "pw" None None None
              Sample.storeBeforeMigration
              "42P01" "relation user_sessions does not exist" eq_refl)
    as (e & d' & Hrun & _ & Hwhy).
  exists e, d'. split; [exact Hrun|].
  apply (Hwhy Sample.alice); reflexivity.
Defined.

Lemma login_then_authenticate_witness :
  AuthMiddleware.authenticate (H := Sample.tokens) (Sample.morning + 60000)
    (bearer (AuthService.token (Sample.resultOf Sample.firstLogin)))
    (snd Sample.firstLogin)
  = AuthMiddleware.Next Sample.aliceLoggedIn (Some 1%N).
Proof.
  apply (login_then_authenticate Sample.tokens (Some (24%Z, "h"))
           Sample.morning (Sample.morning + 60000) "alice@woti.org" "pw"
           None None None Sample.store (snd Sample.firstLogin)
           (Sample.resultOf Sample.firstLogin)).
  - vm_compute. reflexivity.
  - apply (bool_decide_unpack _). vm_compute. reflexivity.
  - constructor.
  - vm_compute. reflexivity.
  - vm_compute. reflexivity.
Defined.

Lemma logout_keeps_the_session_witness :
  exists u,
    AuthMiddleware.authenticate (H := Sample.tokens) (Sample.morning + 60000)
      (bearer (AuthService.token (Sample.resultOf Sample.firstLogin)))
      (snd (AuthController.logout Sample.alice (snd Sample.firstLogin)))
    = AuthMiddleware.Next u (Some 1%N).
Proof.
  apply (logout_keeps_the_session Sample.tokens (Some (24%Z, "h"))
           Sample.morning (Sample.morning + 60000) "alice@woti.org" "pw"
           None None None Sample.store (snd Sample.firstLogin)
           (Sample.resultOf Sample.firstLogin)).
  - vm_compute. reflexivity.
  - apply (bool_decide_unpack _). vm_compute. reflexivity.
  - constructor.
  - vm_compute. reflexivity.
  - vm_compute. reflexivity.
Defined.

Lemma authenticate_admits_only_checked_requests_witness :
  In Sample.aliceLoggedIn (users (snd Sample.firstLogin)) /\
  u_is_active Sample.aliceLoggedIn = true.
Proof.
  pose proof (authenticate_admits_only_checked_requests Sample.tokens
                (Sample.morning + 60000)
                (bearer (AuthService.token (Sample.resultOf Sample.firstLogin)))
                (snd Sample.firstLogin) Sample.aliceLoggedIn (Some 1%N)) as H.
  destruct H as (Hin & Hact & _).
  - vm_compute. reflexivity.
  - split; [exact Hin|exact Hact].
Defined.

Lemma invalidated_session_is_not_found_witness :
  exists b d',
    SessionsRepository.invalidateSession (Sample.morning + 60000) 1 "logout"
      (snd Sample.firstLogin) = (Return b, d') /\
    (b = true <->
     exists s, In s (sessionRows (snd Sample.firstLogin)) /\
               s_id s = 1%N /\ s_is_active s = true).
Proof.
  destruct (invalidated_session_is_not_found Sample.tokens (Sample.morning + 60000)
              1 "logout" (snd Sample.firstLogin) (sessionRows (snd Sample.firstLogin)))
    as (b & d' & Hrun & Hb & _).
  - vm_compute. reflexivity.
  - exists b, d'. split; [exact Hrun|exact Hb].
Defined.

Lemma cleanup_is_invisible_to_requests_witness :
  exists d',
    SessionsRepository.cleanupExpiredSessions (Sample.morning + 2 * Sample.msPerDay)
      (snd Sample.firstLogin)
    = (Return (length (List.filter
                         (SessionsRepository.lapsed (Sample.morning + 2 * Sample.msPerDay))
                         (sessionRows (snd Sample.firstLogin)))), d') /\
    fst (SessionsRepository.cleanupExpiredSessions
           (Sample.morning + 2 * Sample.msPerDay) d') = Return 0.
Proof.
  destruct (cleanup_is_invisible_to_requests Sample.tokens
              (Sample.morning + 2 * Sample.msPerDay) (snd Sample.firstLogin)
              (sessionRows (snd Sample.firstLogin)))
    as (d' & Hrun & Hagain & _).
  - vm_compute. reflexivity.
  - exists d'. split; [exact Hrun|exact Hagain].
Defined.

Lemma invalidate_all_but_one_witness :
  exists rows',
    SessionsRepository.invalidateUserSessions (Sample.morning + 120000) "u1"
      "password_change" (Some 2%N) Sample.overlappingLogins
    = (Return 1, with_sessions Sample.overlappingLogins (SessionsTable rows')) /\
    List.map s_is_active (sessionRows Sample.overlappingLogins) = [true; true] /\
    List.map (fun s => (s_id s, s_is_active s, s_invalidation_reason s)) rows'
    = [(1%N, false, Some "password_change"); (2%N, true, None)].
Proof.
  destruct (invalidate_all_but_one (Sample.morning + 120000) "u1" "password_change" 2
              Sample.overlappingLogins (sessionRows Sample.overlappingLogins))
    as (rows' & Hrun & _).
  - vm_compute. reflexivity.
  - exists rows'. split; [exact Hrun|]. split; [vm_compute; reflexivity|].
    apply (f_equal snd) in Hrun. apply (f_equal sessionRows) in Hrun.
    vm_compute in Hrun. rewrite <- Hrun. reflexivity.
Defined.

Lemma exceeding_blocks_the_identifier_witness :
  RateLimiter.createRateLimiter RateLimiter.apiRateLimiter (Sample.morning + 1000) "u1"
    (snd (RateLimiter.createRateLimiter RateLimiter.apiRateLimiter Sample.morning "u1"
            Sample.spent))
  = (RateLimiter.RateLimitBlocked,
     snd (RateLimiter.createRateLimiter RateLimiter.apiRateLimiter Sample.morning "u1"
            Sample.spent)).
Proof.
  apply (exceeding_blocks_the_identifier RateLimiter.apiRateLimiter
           Sample.morning (Sample.morning + 1000) "u1" Sample.spent _ 900).
  - vm_compute. reflexivity.
  - vm_compute. discriminate.
  - vm_compute. discriminate.
Defined.

Lemma window_admits_at_most_max_attempts_witness :
  admitted RateLimiter.apiRateLimiter "u1"
    [(Sample.morning, "u1"); (Sample.morning + 500, "u2")%Z;
     (Sample.morning + 1000, "u1")%Z; (Sample.morning + 60000, "u1")%Z]
    Sample.almostSpent
  <= Z.to_nat (RateLimiter.maxAttempts RateLimiter.apiRateLimiter - 99).
Proof.
  apply (window_admits_at_most_max_attempts RateLimiter.apiRateLimiter "u1" _
           Sample.almostSpent 99 (Sample.morning + 60000)).
  - reflexivity.
  - repeat constructor; cbn; intros; try discriminate; vm_compute; discriminate.
Defined.
